(** * ConvertHub API example scripts: job polling, chunked upload, result
      handling and the webhook receiver

    A shallow embedding of the Python scripts of the repository:

    - [simple-convert/convert.py]            (module [SimpleConvert])
    - [url-convert/convert-from-url.py]      (module [UrlConvert])
    - [ocr-convert/ocr-image-to-text.py]     (module [OcrConvert])
    - [chunked-upload/upload-large-file.py]  (module [ChunkedUpload])
    - [job-management/check-status.py]       (module [CheckStatus])
    - [job-management/download-result.py]    (module [DownloadResult])
    - [webhook-handler/webhook-receiver.py]  (module [WebhookReceiver])

    Every script is a one-shot process talking to a remote service.  A
    script is embedded as a computation in a state-and-exit monad: the state
    holds the log of externally visible actions (HTTP requests, sleeps,
    diagnostic lines) and the file system; the remote service is a scripted
    stream of replies, the n-th request of the process receiving the n-th
    reply.  [sys.exit] and Python exceptions are results of the monad.

    Console output that only decorates (banners, progress dots, the
    rendering of result metadata) is not logged; the diagnostic lines that
    tell the outcomes apart are. *)

From Stdlib Require Import ZArith List String Ascii Lia Bool DecimalString.
From stdpp Require Import base gmap strings list.
Import ListNotations.
Set Warnings "-register-all".
Open Scope string_scope.
Open Scope Z_scope.

(** ** Python values and exceptions *)

Module Py.

(** Values produced by [json.loads] / [response.json()]. *)
Inductive json : Type :=
| JNull
| JBool (b : bool)
| JNum (n : Z)
| JStr (s : string)
| JArr (items : list json)
| JObj (fields : list (string * json)).

(** The exceptions the scripts can meet.  [IOError] is [OSError] with its
    subclasses ([FileNotFoundError], [PermissionError], ...), of which
    Python 3 makes it another name.  [KeyboardInterrupt] is the only one
    that is not an instance of [Exception]. *)
Inductive exn : Type :=
| RequestException
| JSONDecodeError
| UnicodeDecodeError
| KeyError
| AttributeError
| TypeError
| ValueError
| ZeroDivisionError
| OverflowError
| MemoryError
| IOError
| KeyboardInterrupt.

Definition is_Exception (e : exn) : bool :=
  match e with KeyboardInterrupt => false | _ => true end.

Definition is_RequestException (e : exn) : bool :=
  match e with RequestException => true | _ => false end.

(** Result of running a piece of a script: a value, [sys.exit(code)], or
    a raised exception. *)
Inductive res (A : Type) : Type :=
| Ret (a : A)
| Exit (code : Z)
| Raise (e : exn).
Arguments Ret {A} a.
Arguments Exit {A} code.
Arguments Raise {A} e.

(** Sequencing where nothing but exceptions can happen. *)
Definition and_then {A B} (r : res A) (k : A -> res B) : res B :=
  match r with
  | Ret a => k a
  | Exit code => Exit code
  | Raise e => Raise e
  end.

(** Lookup in a decoded JSON object (a Python [dict]). *)
Fixpoint assoc (k : string) (fields : list (string * json)) : option json :=
  match fields with
  | [] => None
  | (k', v) :: rest => if String.eqb k k' then Some v else assoc k rest
  end.

(** [d.get(k, default)]: only a dict has [get]. *)
Definition get (d : json) (k : string) (default : json) : res json :=
  match d with
  | JObj fields =>
      Ret (match assoc k fields with Some v => v | None => default end)
  | _ => Raise AttributeError
  end.

(** [d[k]] with a string key. *)
Definition index (d : json) (k : string) : res json :=
  match d with
  | JObj fields =>
      match assoc k fields with Some v => Ret v | None => Raise KeyError end
  | _ => Raise TypeError
  end.

(** Python truthiness of a decoded JSON value. *)
Definition truthy (v : json) : bool :=
  match v with
  | JNull => false
  | JBool b => b
  | JNum n => negb (n =? 0)
  | JStr s => negb (String.eqb s "")
  | JArr items => match items with [] => false | _ => true end
  | JObj fields => match fields with [] => false | _ => true end
  end.

(** [v == 'literal']. *)
Definition eq_str (v : json) (s : string) : bool :=
  match v with JStr t => String.eqb t s | _ => false end.

(** [v in [s1, s2, ...]] for a list of string literals. *)
Definition in_strs (v : json) (l : list string) : bool :=
  existsb (eq_str v) l.

(** Truthiness of an optional string ([os.getenv], an optional flag). *)
Definition truthy_str (o : option string) : bool :=
  match o with
  | Some s => negb (String.eqb s "")
  | None => false
  end.

End Py.

Declare Scope res_scope.
Delimit Scope res_scope with res.
Notation "x <- r ;; k" := (Py.and_then r (fun x => k))
  (at level 100, r at next level, right associativity) : res_scope.

(** ** The floating-point operations the scripts use *)

(** Python's [float] is the binary64 format: 53 bits of precision, the
    least positive value 2^-1074, and everything from 2^1024 on out of
    range.  A finite double is kept as a pair [(m, e)] that stands for
    m * 2^e. *)
Module Float.
Import Py.

(** The fraction [num / den], [den] positive, rounded to the nearest
    integer, a tie going to the even neighbour. *)
Definition round_half_even (num den : Z) : Z :=
  let q := num / den in
  let r := num mod den in
  if 2 * r <? den then q
  else if den <? 2 * r then q + 1
  else if Z.even q then q else q + 1.

(** The integral part of the binary logarithm of [num / den], both
    positive: the [l] with 2^l <= num / den < 2^(l+1). *)
Definition exponent (num den : Z) : Z :=
  let l := Z.log2 num - Z.log2 den in
  if 0 <=? l
  then (if num <? den * 2 ^ l then l - 1 else l)
  else (if num * 2 ^ (- l) <? den then l - 1 else l).

(** The double nearest to [num / den], both positive: 53 significant
    bits, or fewer where the spacing 2^-1074 of the subnormal numbers is
    reached. *)
Definition nearest (num den : Z) : Z * Z :=
  let e := Z.max (exponent num den - 52) (- 1074) in
  let m :=
    if 0 <=? e then round_half_even num (den * 2 ^ e)
    else round_half_even (num * 2 ^ (- e)) den in
  (m, e).

(** The value is out of the range of the doubles. *)
Definition too_large (x : Z * Z) : bool :=
  (0 <=? snd x) && (2 ^ 1024 <=? fst x * 2 ^ snd x).

(** [a / b] on two [int]s: CPython rounds the exact quotient to the
    nearest double; a quotient too small for the format becomes zero, one
    too large raises [OverflowError]. *)
Definition true_divide (a b : Z) : res (Z * Z) :=
  if b =? 0 then Raise ZeroDivisionError
  else if a =? 0 then Ret (0, 0)
  else
    let x := nearest (Z.abs a) (Z.abs b) in
    if too_large x then Raise OverflowError
    else Ret (Z.sgn a * Z.sgn b * fst x, snd x).

(** [math.ceil(x)] on a finite double. *)
Definition ceil (x : Z * Z) : Z :=
  if 0 <=? snd x then fst x * 2 ^ snd x
  else - ((- fst x) / 2 ^ (- snd x)).

(** [float(n)] raises [OverflowError]: [n] rounds to 2^1024 or beyond,
    that is, its magnitude is at least 2^1024 - 2^970, half a step above
    the largest double. *)
Definition int_too_large (n : Z) : bool := 2 ^ 1024 - 2 ^ 970 <=? Z.abs n.

End Float.

(** ** The process monad: remote service, log, file system *)

Module Proc.
Import Py.

(** What [iter_content] yields while a download is streamed: a chunk of
    bytes, or the iteration is cut short by Ctrl-C or by the transport. *)
Inductive stream_item : Type :=
| Data (chunk : list Byte.byte)
| Sigint
| Broken.

(** The [content-length] response header. *)
Inductive header : Type :=
| HAbsent
| HInt (n : Z)
| HGarbage.

Inductive body : Type :=
| Json (v : json)
| NotJson.

Record response : Type := mkResponse {
  status_code : Z;
  payload : body;
  content_length : header;
  content : list stream_item
}.

(** What a call of [requests.get]/[requests.post] can come back with. *)
Inductive reply : Type :=
| Response (r : response)
| ConnectionFailed
| Interrupted.

Inductive request : Type :=
| PostConvert (filename target_format : string)
| PostConvertUrl (file_url target_format filename : string)
| GetJob (job_id : json)
| PostUploadInit (filename : string) (file_size total_chunks : Z)
                 (target_format : string)
| PostChunk (session_id : json) (chunk_index : nat)
            (chunk_data : list Byte.byte)
| PostComplete (session_id : json)
| GetUrl (url : json).

Inductive event : Type :=
| Request (r : request)
| Sleep (seconds : Z)
| Print (line : string)
| PrintF (line : string) (v : json).   (* an f-string ending in a value *)

Record state : Type := mkState {
  net : nat -> reply;                 (* the scripted remote service *)
  sent : nat;                         (* requests issued so far *)
  log : list event;                   (* oldest first *)
  fs : gmap string (list Byte.byte)   (* files by path *)
}.

Definition M (A : Type) : Type := state -> res A * state.

Definition ret {A} (a : A) : M A := fun s => (Ret a, s).

Definition bind {A B} (m : M A) (k : A -> M B) : M B :=
  fun s =>
    match m s with
    | (Ret a, s') => k a s'
    | (Exit c, s') => (Exit c, s')
    | (Raise e, s') => (Raise e, s')
    end.

(** [sys.exit(code)] *)
Definition exit {A} (code : Z) : M A := fun s => (Exit code, s).

Definition raise {A} (e : exn) : M A := fun s => (Raise e, s).

Definition lift {A} (r : res A) : M A := fun s => (r, s).

Definition emit (e : event) : M unit :=
  fun s => (Ret tt, mkState (net s) (sent s) (log s ++ [e]) (fs s)).

Definition print (line : string) : M unit := emit (Print line).

Definition printf (line : string) (v : json) : M unit :=
  emit (PrintF line v).

(** [time.sleep(seconds)] *)
Definition sleep (seconds : Z) : M unit := emit (Sleep seconds).

(** One HTTP call: logged, answered by the next scripted reply. *)
Definition http (r : request) : M response :=
  fun s =>
    let s' := mkState (net s) (S (sent s)) (log s ++ [Request r]) (fs s) in
    match net s (sent s) with
    | Response resp => (Ret resp, s')
    | ConnectionFailed => (Raise RequestException, s')
    | Interrupted => (Raise KeyboardInterrupt, s')
    end.

(** [response.json()]; a body that does not decode raises
    [requests.exceptions.JSONDecodeError], a [RequestException]. *)
Definition json_of (r : response) : res json :=
  match payload r with
  | Json v => Ret v
  | NotJson => Raise RequestException
  end.

(** [try: m except <the exceptions h accepts>: ...]; [sys.exit] passes
    through, as [SystemExit] is no [Exception]. *)
Definition try_except {A} (m : M A) (h : exn -> option (M A)) : M A :=
  fun s =>
    match m s with
    | (Raise e, s') =>
        match h e with
        | Some handler => handler s'
        | None => (Raise e, s')
        end
    | r => r
    end.

Definition lookup_file (path : string) : M (option (list Byte.byte)) :=
  fun s => (Ret (fs s !! path), s).

(** The paths on which the operating system lets the process neither
    create, nor truncate, nor remove a file are given by a predicate
    [locked]: a path whose directory is missing or read-only, a file that
    may not be changed.  Every script takes the predicate with the rest of
    what it reads from its surroundings. *)
Definition unlocked : string -> bool := fun _ => false.

(** [open(path, 'wb')]: the file is created or truncated, or [OSError] is
    raised and nothing changes. *)
Definition open_wb (locked : string -> bool) (path : string) : M unit :=
  fun s =>
    if locked path then (Raise IOError, s)
    else (Ret tt,
          mkState (net s) (sent s) (log s) (<[path := []]> (fs s))).

(** [f.write(chunk)] on the file opened at [path]. *)
Definition write (path : string) (chunk : list Byte.byte) : M unit :=
  fun s =>
    (Ret tt,
     mkState (net s) (sent s) (log s)
             (alter (fun old => (old ++ chunk)%list) path (fs s))).

(** [Path(path).unlink()]: the file is removed, or [OSError] is raised,
    the path being locked or no file being there. *)
Definition unlink (locked : string -> bool) (path : string) : M unit :=
  fun s =>
    if locked path then (Raise IOError, s)
    else match fs s !! path with
         | Some _ =>
             (Ret tt,
              mkState (net s) (sent s) (log s) (delete path (fs s)))
         | None => (Raise IOError, s)
         end.

(** [file.read(size)] on a file opened with ['rb'], [unread] being the
    bytes from its position on: what is read, and what is left.  CPython
    (on a 64-bit platform) takes [size] as a [Py_ssize_t], refuses a
    negative size other than -1, which reads everything, and allocates a
    buffer of [size] bytes before it reads: a [bytes] object of 2^63 - 33
    bytes or more is refused, and [buffer_limit] is the largest buffer the
    machine grants. *)
Definition read (buffer_limit size : Z) (unread : list Byte.byte)
  : res (list Byte.byte * list Byte.byte) :=
  if (size <? - 2 ^ 63) || (2 ^ 63 - 33 <=? size) then Raise OverflowError
  else if size <? - 1 then Raise ValueError
  else if size =? - 1 then Ret (unread, [])
  else if buffer_limit <? size then Raise MemoryError
  else Ret (take (Z.to_nat size) unread, drop (Z.to_nat size) unread).

(** [int(response.headers.get('content-length', 0))] *)
Definition total_size_of (r : response) : res Z :=
  match content_length r with
  | HAbsent => Ret 0
  | HInt n => Ret n
  | HGarbage => Raise ValueError
  end.

(** The status the operating system sees when the interpreter stops. *)
Definition exit_status {A} (r : res A) : Z :=
  match r with
  | Ret _ => 0
  | Exit code => code
  | Raise _ => 1
  end.

(** A fresh process facing the service [server] on the file system
    [files]. *)
Definition boot (server : nat -> reply)
           (files : gmap string (list Byte.byte)) : state :=
  mkState server 0 [] files.

(** The requests of a log, in the order they were issued. *)
Fixpoint requests_of (l : list event) : list request :=
  match l with
  | [] => []
  | Request r :: rest => r :: requests_of rest
  | _ :: rest => requests_of rest
  end.

Definition is_poll (e : event) : bool :=
  match e with Request (GetJob _) => true | _ => false end.

Definition is_sleep (e : event) : bool :=
  match e with Sleep _ => true | _ => false end.

(** Number of job-status requests in a log. *)
Definition polls (l : list event) : nat := length (List.filter is_poll l).

(** Number of sleeps in a log. *)
Definition sleeps (l : list event) : nat := length (List.filter is_sleep l).

End Proc.

Declare Scope proc_scope.
Delimit Scope proc_scope with proc.
Notation "x <- m ;; k" := (Proc.bind m (fun x => k))
  (at level 100, m at next level, right associativity) : proc_scope.
Notation "m ;;; k" := (Proc.bind m (fun _ => k))
  (at level 100, right associativity) : proc_scope.

Open Scope proc_scope.

(** ** Pieces the conversion scripts repeat verbatim *)

Module Common.
Import Py Proc.

(** [o.get(k, default)] where [o] may still be [None]. *)
Definition get_opt (o : option json) (k : string) (default : json)
  : res json :=
  match o with
  | Some d => get d k default
  | None => Raise AttributeError
  end.

(** [o[k]] where [o] may still be [None]. *)
Definition index_opt (o : option json) (k : string) : res json :=
  match o with
  | Some d => index d k
  | None => Raise TypeError
  end.

(** [format_file_size(v)]: compares and divides, so [v] must be a number;
    the rendered text is not kept.  An [int] below 1024 is formatted with
    [.2f] and any other is divided by [1024.0], either of which turns it
    into a [float] first and raises [OverflowError] when it has no place
    there. *)
Definition format_file_size (v : json) : res unit :=
  match v with
  | JNum n => if Float.int_too_large n then Raise OverflowError else Ret tt
  | JBool _ => Ret tt
  | _ => Raise TypeError
  end.

(** [tqdm(total=total_size, unit='B', unit_scale=True, ...)]: the bar is
    drawn as soon as it is made, and drawing it turns the total into a
    [float], which raises [OverflowError] when the total has no place
    there. *)
Definition progress_bar (total : Z) : res unit :=
  if Float.int_too_large total then Raise OverflowError else Ret tt.

(** [for key, value in v.items(): print(...)] *)
Definition print_items (v : json) : res unit :=
  match v with
  | JObj _ => Ret tt
  | _ => Raise AttributeError
  end.

(** The statuses on which the conversion scripts keep waiting. *)
Definition waiting : list string := ["processing"; "queued"; "pending"].

(** The monitoring loop of convert.py, convert-from-url.py and
    upload-large-file.py:

      while status in ['processing', 'queued', 'pending']
            and attempts < max_attempts:
          time.sleep(2); attempts += 1
          response = requests.get(f'{API_BASE_URL}/jobs/{job_id}', ...)
          if response.status_code >= 400:
              print("\n✗ Failed to check status"); sys.exit(1)
          job_status = response.json()
          status = <status_of job_status>

    [remaining] is [max_attempts - attempts]; [status_of] is the one line
    on which the scripts differ. *)
Fixpoint monitor (status_of : json -> res json) (remaining : nat)
         (job_id status : json) (job_status : option json)
  : M (json * option json) :=
  match remaining with
  | O => ret (status, job_status)
  | S remaining' =>
      if in_strs status waiting then
        sleep 2 ;;;
        response <- http (GetJob job_id) ;;
        if status_code response >=? 400 then
          print "✗ Failed to check status" ;;;
          exit 1
        else
          job_status' <- lift (json_of response) ;;
          status' <- lift (status_of job_status') ;;
          monitor status_of remaining' job_id status' (Some job_status')
      else ret (status, job_status)
  end.

(** The streaming loop of the downloads that skip empty chunks:

      for chunk in response.iter_content(chunk_size=8192):
          if chunk:
              f.write(chunk) *)
Fixpoint save_stream (path : string) (items : list stream_item) : M unit :=
  match items with
  | [] => ret tt
  | Data chunk :: rest =>
      (match chunk with
       | [] => ret tt
       | _ => write path chunk
       end) ;;;
      save_stream path rest
  | Sigint :: _ => raise KeyboardInterrupt
  | Broken :: _ => raise RequestException
  end.

(** [answer.lower() == 'y'] *)
Definition says_yes (answer : string) : bool :=
  String.eqb answer "y" || String.eqb answer "Y".

(** The optional download closing convert.py (lines 174-201) and
    convert-from-url.py (lines 180-207), the same text in both.
    [output] is [options.get('output') if options else None], [answer]
    the reply typed at the prompt, [generated_name] the name
    [f"converted_{int(time.time())}.{target_format}"]. *)
Definition download (locked : string -> bool) (output : option string)
           (answer generated_name : string) (result : json) : M unit :=
  let output_file :=
    if truthy_str output then output
    else if says_yes answer then Some generated_name
    else None in
  match output_file with
  | Some path =>
      if truthy_str output_file then
        url <- lift (index result "download_url") ;;
        download_response <- http (GetUrl url) ;;
        if status_code download_response =? 200 then
          _ <- lift (total_size_of download_response) ;;
          open_wb locked path ;;;
          save_stream path (content download_response) ;;;
          print "✓ File saved"
        else print "✗ Download failed"
      else ret tt
  | None => ret tt
  end.

(** Step 3 of convert.py (lines 161-212) and convert-from-url.py (lines
    167-222): the dispatch on the last known status.  [advice] is what
    the last branch prints after its first line. *)
Definition handle_results (fetch : json -> M unit) (advice : M unit)
           (status : json) (job_status : option json) : M unit :=
  has_url <-
    (if eq_str status "completed" then
       result <- lift (get_opt job_status "result" (JObj [])) ;;
       url <- lift (get result "download_url" JNull) ;;
       ret (truthy url)
     else ret false) ;;
  if has_url : bool then
    print "✓ Conversion complete!" ;;;
    result <- lift (index_opt job_status "result") ;;
    _ <- lift (index result "download_url") ;;
    _ <- lift (index result "format") ;;
    size <- lift (index result "file_size") ;;
    lift (format_file_size size) ;;;
    _ <- lift (get_opt job_status "processing_time" JNull) ;;
    _ <- lift (index result "expires_at") ;;
    fetch result
  else if eq_str status "failed" then
    print "✗ Conversion failed" ;;;
    error <- lift (get_opt job_status "error" JNull) ;;
    (if truthy error then
       message <- lift (get error "message" (JStr "Unknown error")) ;;
       printf "Error: " message
     else ret tt) ;;;
    exit 1
  else
    print "✗ Timeout: Conversion is taking longer than expected" ;;;
    advice ;;;
    exit 1.

(** The three [except] clauses closing the conversion scripts; each
    prints its line and calls [sys.exit(1)]. *)
Definition handlers (cancelled : string) (e : exn) : option (M unit) :=
  match e with
  | RequestException => Some (print "✗ Request error" ;;; exit 1)
  | KeyboardInterrupt => Some (print cancelled ;;; exit 1)
  | _ => Some (print "✗ Unexpected error" ;;; exit 1)
  end.

End Common.

(** ** simple-convert/convert.py *)

Module SimpleConvert.
Import Py Proc Common.

(** What the script reads from its surroundings: the API key, the reply
    typed at the download prompt, the name the clock gives the download,
    and the paths the operating system keeps locked. *)
Record config : Type := mkConfig {
  API_KEY : option string;
  answer : string;
  generated_name : string;
  locked : string -> bool
}.

Definition max_attempts : nat := 60.

(** Lines 110-119: the submit request was refused. *)
Definition report_error (response : Proc.response) : M unit :=
  error_data <- lift (json_of response) ;;
  error <- lift (get error_data "error" (JObj [])) ;;
  message <- lift (get error "message" (JStr "Unknown error")) ;;
  printf "✗ Error: " message ;;;
  code <- lift (get error "code" JNull) ;;
  (if truthy code then printf "  Code: " code else ret tt) ;;;
  details <- lift (get error "details" JNull) ;;
  (if truthy details then lift (print_items details) else ret tt) ;;;
  exit 1.

(** Lines 137-157. *)
Definition poll (job_id status : json) : M (json * option json) :=
  monitor (fun job_status => get job_status "status" (JStr "processing"))
          max_attempts job_id status None.

(** Lines 75-212: the body of the [try]. *)
Definition submit_and_wait (cfg : config) (filename target_format : string)
           (output : option string) : M unit :=
  response <- http (PostConvert filename target_format) ;;
  if status_code response >=? 400 then report_error response else
  job <- lift (json_of response) ;;
  job_id <- lift (index job "job_id") ;;
  status <- lift (get job "status" (JStr "processing")) ;;
  cached <-
    (if eq_str status "completed" then
       result <- lift (get job "result" JNull) ;;
       ret (truthy result)
     else ret false) ;;
  waited <-
    (if cached : bool then
       print "✓ Using cached result (instant conversion)" ;;;
       ret (status, Some job)
     else poll job_id status) ;;
  handle_results
    (download (locked cfg) output (answer cfg) (generated_name cfg))
    (printf "Check status with: python job-management/check-status.py "
            job_id)
    (fst waited) (snd waited).

Definition convert_file (cfg : config) (input_file target_format : string)
           (output : option string) : M unit :=
  if negb (truthy_str (API_KEY cfg)) then
    print "Error: CONVERTHUB_API_KEY is not set" ;;;
    exit 1
  else
    found <- lookup_file input_file ;;
    match found with
    | None => print "Error: File not found." ;;; exit 1
    | Some data =>
        let file_size := Z.of_nat (length data) in
        (* file_size / 1048576 > 50; the division by 2^20 is exact *)
        if file_size >? 50 * 1048576 then
          print "Error: File size exceeds 50MB limit." ;;;
          exit 1
        else
          try_except (submit_and_wait cfg input_file target_format output)
                     (handlers "✗ Conversion cancelled by user")
    end.

End SimpleConvert.

(** ** url-convert/convert-from-url.py *)

Module UrlConvert.
Import Py Proc Common.

(** As for convert.py, with the result of [urlparse] on the URL: [None]
    when scheme or host is missing, else the file name taken from the
    path. *)
Record config : Type := mkConfig {
  API_KEY : option string;
  answer : string;
  generated_name : string;
  locked : string -> bool;
  parsed : string -> option string
}.

Definition max_attempts : nat := 90.

(** Lines 112-125; the bare [except] falls back to the HTTP status. *)
Definition report_error (response : Proc.response) : M unit :=
  try_except
    (error_data <- lift (json_of response) ;;
     error <- lift (get error_data "error" (JObj [])) ;;
     message <- lift (get error "message" (JStr "Unknown error")) ;;
     printf "✗ Error: " message ;;;
     code <- lift (get error "code" JNull) ;;
     (if truthy code then printf "  Code: " code else ret tt) ;;;
     details <- lift (get error "details" JNull) ;;
     (if truthy details then lift (print_items details) else ret tt))
    (fun _ => Some (printf "✗ Error: HTTP " (JNum (status_code response)))) ;;;
  exit 1.

(** Lines 143-163. *)
Definition poll (job_id status : json) : M (json * option json) :=
  monitor (fun job_status => get job_status "status" (JStr "processing"))
          max_attempts job_id status None.

(** Lines 75-222: the body of the [try]. *)
Definition submit_and_wait (cfg : config) (url filename target_format : string)
           (output webhook : option string) : M unit :=
  response <- http (PostConvertUrl url target_format filename) ;;
  if status_code response >=? 400 then report_error response else
  job <- lift (json_of response) ;;
  job_id <- lift (index job "job_id") ;;
  status <- lift (get job "status" (JStr "processing")) ;;
  cached <-
    (if eq_str status "completed" then
       result <- lift (get job "result" JNull) ;;
       ret (truthy result)
     else ret false) ;;
  waited <-
    (if cached : bool then
       print "✓ Using cached result (instant conversion)" ;;;
       ret (status, Some job)
     else poll job_id status) ;;
  handle_results
    (download (locked cfg) output (answer cfg) (generated_name cfg))
    (print "URL downloads may take more time for large files." ;;;
     printf "Check status with: python job-management/check-status.py "
            job_id ;;;
     if truthy_str webhook then
       print "You will receive a webhook notification when complete."
     else ret tt)
    (fst waited) (snd waited).

Definition convert_from_url (cfg : config) (url target_format : string)
           (output webhook : option string) : M unit :=
  if negb (truthy_str (API_KEY cfg)) then
    print "Error: CONVERTHUB_API_KEY is not set" ;;;
    exit 1
  else
    match parsed cfg url with
    | None => print "Error: Invalid URL" ;;; exit 1
    | Some filename =>
        try_except
          (submit_and_wait cfg url filename target_format output webhook)
          (handlers "✗ Conversion cancelled by user")
    end.

End UrlConvert.

(** ** ocr-convert/ocr-image-to-text.py *)

Module OcrConvert.
Import Py Proc Common.

Definition SUPPORTED_FORMATS : list string :=
  ["png"; "jpg"; "jpeg"; "tiff"; "tif"; "bmp"; "gif"; "webp"].

(** The API key ([args.api_key or os.environ.get(...)]), the lower-cased
    extension of the input file, the path of the text file written next
    to it, and the paths the operating system keeps locked. *)
Record config : Type := mkConfig {
  api_key : option string;
  extension : string;
  output_file : string;
  locked : string -> bool
}.

Definition max_attempts : nat := 150.

(** Lines 56-58: every chunk is written, empty or not. *)
Fixpoint save_all (path : string) (items : list stream_item) : M unit :=
  match items with
  | [] => ret tt
  | Data chunk :: rest => write path chunk ;;; save_all path rest
  | Sigint :: _ => raise KeyboardInterrupt
  | Broken :: _ => raise RequestException
  end.

(** A byte that is white space by itself: the characters 9 to 13 and 28
    to 32. *)
Definition is_space (b : Byte.byte) : bool :=
  let n := Byte.to_N b in
  ((9 <=? n) && (n <=? 13) || (28 <=? n) && (n <=? 32))%N.

(** [not text.strip()] on the text the file decodes to (UTF-8, a byte
    that does not decode giving the replacement character): it is made
    of white space alone, that is, of the bytes above and of the UTF-8
    encodings of the other white-space characters of Unicode: U+0085,
    U+00A0, U+1680, U+2000 to U+200A, U+2028, U+2029, U+202F, U+205F and
    U+3000. *)
Fixpoint blank (data : list Byte.byte) : bool :=
  match data with
  | [] => true
  | b1 :: rest =>
      if is_space b1 then blank rest
      else
        match rest with
        | b2 :: rest2 =>
            let n1 := Byte.to_N b1 in
            let n2 := Byte.to_N b2 in
            if (n1 =? 194)%N then
              ((n2 =? 133) || (n2 =? 160))%N && blank rest2
            else
              match rest2 with
              | b3 :: rest3 =>
                  let n3 := Byte.to_N b3 in
                  (((n1 =? 225) && (n2 =? 154) && (n3 =? 128))
                   || ((n1 =? 226) && (n2 =? 128)
                       && (((128 <=? n3) && (n3 <=? 138))
                           || (n3 =? 168) || (n3 =? 169) || (n3 =? 175)))
                   || ((n1 =? 226) && (n2 =? 129) && (n3 =? 159))
                   || ((n1 =? 227) && (n2 =? 128) && (n3 =? 128)))%N
                  && blank rest3
              | [] => false
              end
        | [] => false
        end
  end.

(** Lines 48-71. *)
Definition download_and_display (cfg : config) (download_url : json)
  : M unit :=
  response <- http (GetUrl download_url) ;;
  (* response.raise_for_status() *)
  (if status_code response >=? 400 then raise RequestException
   else ret tt) ;;;
  open_wb (locked cfg) (output_file cfg) ;;;
  save_all (output_file cfg) (content response) ;;;
  print "Saved" ;;;
  text <- lookup_file (output_file cfg) ;;
  match text with
  | Some data =>
      if blank data
      then print "(No text was extracted - the image may not contain readable text)"
      else print "--- Extracted Text ---"
  | None => raise IOError      (* open(output_file, 'r', ...) *)
  end.

(** Lines 170-171 once [requests.get] has answered: [job_status] is
    assigned as soon as the body decodes, [status] only if the lookup
    succeeds; whatever is raised in between is swallowed by the
    enclosing [except Exception]. *)
Definition absorb (status : json) (job_status : option json)
           (resp : response) : json * option json :=
  match json_of resp with
  | Ret job_status' =>
      match get job_status' "status" (JStr "unknown") with
      | Ret status' => (status', Some job_status')
      | _ => (status, Some job_status')
      end
  | _ => (status, job_status)
  end.

(** Lines 160-173:

      for _ in range(max_attempts):
          if status not in ('processing', 'queued'):
              break
          time.sleep(2)
          try:
              resp = requests.get(f'{API_BASE_URL}/jobs/{job_id}', ...)
              job_status = resp.json()
              status = job_status.get('status', 'unknown')
          except Exception:
              continue

    [remaining] counts the iterations [range] still has to give. *)
Fixpoint poll (remaining : nat) (job_id status : json)
         (job_status : option json) : M (json * option json) :=
  match remaining with
  | O => ret (status, job_status)
  | S remaining' =>
      if negb (in_strs status ["processing"; "queued"]) then
        ret (status, job_status)
      else
        sleep 2 ;;;
        seen <-
          try_except
            (resp <- http (GetJob job_id) ;;
             ret (absorb status job_status resp))
            (fun e => if is_Exception e
                      then Some (ret (status, job_status)) else None) ;;
        poll remaining' job_id (fst seen) (snd seen)
  end.

(** Lines 177-194. *)
Definition handle_result (cfg : config) (job_id status : json)
           (job_status : option json) : M unit :=
  if eq_str status "completed" then
    print "[OK] OCR complete!" ;;;
    _ <- lift (get_opt job_status "processing_time" (JStr "N/A")) ;;
    result <- lift (index_opt job_status "result") ;;
    url <- lift (index result "download_url") ;;
    _ <- lift (index result "expires_at") ;;
    download_and_display cfg url
  else if eq_str status "failed" then
    print "[ERROR] OCR failed" ;;;
    error <-
      match job_status with
      | Some js => if truthy js then lift (get js "error" (JObj []))
                   else ret (JObj [])
      | None => ret (JObj [])
      end ;;
    message <- lift (get error "message" (JStr "Unknown error")) ;;
    printf "Error: " message ;;;
    exit 1
  else
    print "[ERROR] Timeout: OCR is taking longer than expected" ;;;
    printf "Check status with: python ../job-management/check-status.py "
           job_id ;;;
    exit 1.

(** Lines 74-194. *)
Definition main (cfg : config) (input_file language : string) : M unit :=
  if negb (truthy_str (api_key cfg)) then
    print "Error: API key required. Set CONVERTHUB_API_KEY in .env or use --api-key parameter." ;;;
    exit 1
  else
    found <- lookup_file input_file ;;
    match found with
    | None => print "Error: File not found." ;;; exit 1
    | Some data =>
        if negb (existsb (String.eqb (extension cfg)) SUPPORTED_FORMATS) then
          print "Error: Unsupported format" ;;; exit 1
        else if Z.of_nat (length data) >? 52428800 then
          print "Error: File size exceeds 50MB limit." ;;; exit 1
        else
          response <-
            try_except (http (PostConvert input_file "txt"))
              (fun e => match e with
                        | RequestException =>
                            Some (print "[ERROR] Failed to connect to API" ;;;
                                  exit 1)
                        | _ => None
                        end) ;;
          if status_code response >=? 400 then
            result <- lift (json_of response) ;;
            error <- lift (get result "error" (JObj [])) ;;
            message <- lift (get error "message" (JStr "Unknown error")) ;;
            printf "[ERROR] " message ;;;
            details <- lift (get error "details" (JObj [])) ;;
            lift (print_items details) ;;;
            exit 1
          else
            result <- lift (json_of response) ;;
            cached <-
              (if status_code response =? 200 then
                 r <- lift (get result "result" (JObj [])) ;;
                 url <- lift (get r "download_url" JNull) ;;
                 ret (truthy url)
               else ret false) ;;
            if cached : bool then
              print "[OK] OCR complete (cached result)" ;;;
              r <- lift (index result "result") ;;
              url <- lift (index r "download_url") ;;
              download_and_display cfg url
            else
              job_id <- lift (index result "job_id") ;;
              waited <- poll max_attempts job_id (JStr "processing") None ;;
              handle_result cfg job_id (fst waited) (snd waited)
    end.

(** Lines 197-202: the entry point. *)
Definition script (cfg : config) (input_file language : string) : M unit :=
  try_except (main cfg input_file language)
    (fun e => match e with
              | KeyboardInterrupt =>
                  Some (print "Cancelled by user." ;;; exit 1)
              | _ => None
              end).

End OcrConvert.

(** ** job-management/check-status.py *)

Module CheckStatus.
Import Py Proc Common.

Definition max_attempts : nat := 300.

Definition terminal : list string := ["completed"; "failed"; "cancelled"].

(** Lines 64-70 and 120-126. *)
Definition report_error (response : Proc.response) : M unit :=
  error_data <- lift (json_of response) ;;
  error <- lift (get error_data "error" (JObj [])) ;;
  message <- lift (get error "message" (JStr "Failed to get job status")) ;;
  printf "✗ Error: " message ;;;
  code <- lift (get error "code" JNull) ;;
  (if truthy code then printf "  Code: " code else ret tt) ;;;
  exit 1.

(** Lines 170-193. *)
Definition display_job_details (job : json) : M unit :=
  shown <- lift (get job "result" JNull) ;;
  if truthy shown then
    result <- lift (index job "result") ;;
    _ <- lift (get job "source_format" (JStr "N/A")) ;;
    _ <- lift (get result "format" (JStr "N/A")) ;;
    size <- lift (get result "file_size" (JNum 0)) ;;
    lift (format_file_size size) ;;;
    _ <- lift (get job "processing_time" JNull) ;;
    url <- lift (get result "download_url" (JStr "N/A")) ;;
    printf "Download URL: " url ;;;
    _ <- lift (get result "expires_at" JNull) ;;
    _ <- lift (index job "job_id") ;;
    ret tt
  else ret tt.

(** Lines 89-92 and 145-148: the error of a failed job. *)
Definition print_job_error (job : json) : M unit :=
  error <- lift (get job "error" JNull) ;;
  if truthy error then
    message <- lift (get error "message" (JStr "Unknown error")) ;;
    printf "Error: " message ;;;
    code <- lift (get error "code" JNull) ;;
    if truthy code then printf "Code: " code else ret tt
  else ret tt.

(** [status != previous_status], where [previous_status] starts as
    [None].  Every branch the test guards compares [status] with a string
    literal, so only the comparison of strings is observable. *)
Definition changed (status previous_status : json) : bool :=
  match status, previous_status with
  | JStr a, JStr b => negb (String.eqb a b)
  | JStr _, _ => true
  | _, JStr _ => true
  | _, _ => false
  end.

(** How an iteration of the watch loop ends. *)
Inductive step : Type :=
| Break
| Continue (previous_status : json).

(** Lines 59-102: one iteration up to the sleep. *)
Definition watch_step (job_id previous_status : json) : M step :=
  response <- http (GetJob job_id) ;;
  if status_code response >=? 400 then report_error response ;;; ret Break
  else
    job <- lift (json_of response) ;;
    status <- lift (index job "status") ;;
    after <-
      (if changed status previous_status then
         if eq_str status "queued" then
           print "⏳ Job queued" ;;; ret (Continue status)
         else if eq_str status "processing" then
           print "⚙️  Processing..." ;;; ret (Continue status)
         else if eq_str status "completed" then
           print "✓ Conversion complete!" ;;;
           display_job_details job ;;;
           ret Break
         else if eq_str status "failed" then
           print "✗ Conversion failed" ;;;
           print_job_error job ;;;
           exit 1
         else if eq_str status "cancelled" then
           print "⚠️  Job cancelled" ;;;
           exit 0
         else ret (Continue status)
       else ret (Continue previous_status)) ;;
    match after with
    | Break => ret Break
    | Continue previous_status' =>
        if in_strs status terminal then ret Break
        else ret (Continue previous_status')
    end.

(** Lines 58-105: [while attempts < max_attempts]; the result is the
    value of [attempts] when the loop is left. *)
Fixpoint watch_loop (remaining : nat) (attempts : nat)
         (job_id previous_status : json) : M nat :=
  match remaining with
  | O => ret attempts
  | S remaining' =>
      after <- watch_step job_id previous_status ;;
      match after with
      | Break => ret attempts
      | Continue previous_status' =>
          sleep 2 ;;;
          watch_loop remaining' (S attempts) job_id previous_status'
      end
  end.

(** Lines 51-109. *)
Definition watch (job_id : json) : M unit :=
  attempts <- watch_loop max_attempts 0 job_id JNull ;;
  if (max_attempts <=? attempts)%nat then
    print "⚠️  Timeout: Job is taking longer than expected" ;;;
    print "The job may still be processing. Check again later."
  else ret tt.

(** Lines 111-157. *)
Definition single_check (job_id : json) : M unit :=
  response <- http (GetJob job_id) ;;
  if status_code response >=? 400 then report_error response else
  job <- lift (json_of response) ;;
  status <- lift (index job "status") ;;
  (if eq_str status "queued" then print "Status: Queued"
   else if eq_str status "processing" then print "Status: Processing"
   else if eq_str status "completed" then
     print "Status: Completed" ;;; display_job_details job
   else if eq_str status "failed" then
     print "Status: Failed" ;;; print_job_error job
   else if eq_str status "cancelled" then print "Status: Cancelled"
   else ret tt) ;;;
  _ <- lift (get job "created_at" JNull) ;;
  _ <- lift (get job "updated_at" JNull) ;;
  ret tt.

Definition check_status (API_KEY : option string) (job_id : string)
           (watching : bool) : M unit :=
  if negb (truthy_str API_KEY) then
    print "Error: CONVERTHUB_API_KEY is not set" ;;;
    exit 1
  else
    try_except
      (if watching then watch (JStr job_id) else single_check (JStr job_id))
      (handlers "✗ Operation cancelled by user").

End CheckStatus.

(** ** job-management/download-result.py *)

Module DownloadResult.
Import Py Proc Common.

(** The API key, the default output name of lines 125-133,
    [f"{original_name}_{job_id[:8]}.{format_ext}"], as a function of the
    job identifier and the job descriptor, and the paths the operating
    system keeps locked. *)
Record config : Type := mkConfig {
  API_KEY : option string;
  default_name : string -> json -> string;
  locked : string -> bool
}.

(** Lines 59-65. *)
Definition report_error {A} (response : Proc.response) : M A :=
  error_data <- lift (json_of response) ;;
  error <- lift (get error_data "error" (JObj [])) ;;
  message <- lift (get error "message" (JStr "Job not found")) ;;
  printf "✗ Error: " message ;;;
  code <- lift (get error "code" JNull) ;;
  (if truthy code then printf "  Code: " code else ret tt) ;;;
  exit 1.

(** Lines 69-78: a list answer stands for its first element. *)
Definition pick_job (job_response : json) : M json :=
  match job_response with
  | JArr items =>
      match items with
      | job :: _ => ret job
      | [] => print "✗ Error: Empty response from API" ;;; exit 1
      end
  | _ => ret job_response
  end.

(** Lines 83-100: the job is not completed. *)
Definition not_available (job status : json) : M unit :=
  print "⚠️  File not available" ;;;
  printf "Job status: " status ;;;
  (if eq_str status "processing" then
     print "The conversion is still in progress."
   else if eq_str status "queued" then
     print "The job is queued and hasn't started yet."
   else if eq_str status "failed" then
     print "The conversion failed." ;;;
     error <- lift (get job "error" JNull) ;;
     if truthy error then
       message <- lift (get error "message" (JStr "Unknown error")) ;;
       printf "Error: " message
     else ret tt
   else if eq_str status "cancelled" then print "The job was cancelled."
   else ret tt) ;;;
  exit 1.

(** [s.upper()] is a method of [str] alone. *)
Definition upper (v : json) : res unit :=
  match v with
  | JStr _ => Ret tt
  | _ => Raise AttributeError
  end.

(** Lines 80-120: from the job descriptor to its result, or out. *)
Definition inspect (job : json) : M json :=
  status <- lift (get job "status" (JStr "unknown")) ;;
  if negb (eq_str status "completed") then
    not_available job status ;;; ret JNull
  else
    result <- lift (get job "result" (JObj [])) ;;
    url <- lift (get result "download_url" JNull) ;;
    if negb (truthy url) then
      print "⚠️  No download URL available" ;;;
      exit 1
    else
      format <- lift (get result "format" (JStr "N/A")) ;;
      lift (upper format) ;;;
      size <- lift (get result "file_size" (JNum 0)) ;;
      lift (format_file_size size) ;;;
      source <- lift (get job "source_format" JNull) ;;
      (if truthy source then lift (upper source) else ret tt) ;;;
      _ <- lift (get job "processing_time" JNull) ;;
      _ <- lift (get result "expires_at" JNull) ;;
      ret result.

(** Lines 124-133: the name made up when none was given.
    [Path(metadata['original_filename'])] wants a string. *)
Definition make_name (cfg : config) (job_id : string) (job result : json)
  : M string :=
  _ <- lift (get result "format" (JStr "bin")) ;;
  metadata <- lift (get job "metadata" (JObj [])) ;;
  match metadata with
  | JObj fields =>
      match assoc "original_filename" fields with
      | Some (JStr _) | None => ret tt
      | Some v => if truthy v then raise TypeError else ret tt
      end
  | _ => ret tt
  end ;;;
  ret (default_name cfg job_id job).

(** Lines 122-135: [if not output_file: ...]. *)
Definition name_output (cfg : config) (job_id : string) (job result : json)
           (output_file : option string) : M string :=
  match output_file with
  | Some path =>
      if truthy_str output_file then ret path
      else make_name cfg job_id job result
  | None => make_name cfg job_id job result
  end.

(** Lines 137-172: the download proper, [output_file] now being set.
    [actual_size] is the size of a file on disk, a number below 2^63,
    which [format_file_size] always shows; [total_size] is whatever
    number the header gave. *)
Definition fetch (locked : string -> bool) (path : string) (result : json)
  : M unit :=
  download_url <- lift (get result "download_url" (JStr "")) ;;
  if negb (truthy download_url) then
    print "✗ No download URL available" ;;;
    exit 1
  else
    response <- http (GetUrl download_url) ;;
    if negb (status_code response =? 200) then
      print "✗ Failed to download file" ;;;
      exit 1
    else
      total_size <- lift (total_size_of response) ;;
      open_wb locked path ;;;
      lift (progress_bar total_size) ;;;
      save_stream path (content response) ;;;
      written <- lookup_file path ;;
      match written with
      | None => raise IOError      (* Path(output_file).stat() *)
      | Some data =>
          let actual_size := Z.of_nat (length data) in
          print "✓ Download complete!" ;;;
          if negb (actual_size =? total_size) && (total_size >? 0) then
            print "⚠️  Warning: File size mismatch" ;;;
            lift (format_file_size (JNum total_size))
          else ret tt
      end.

(** Lines 177-183: Ctrl-C; [output_file] is the local variable as it
    stands when the interrupt arrives.  The clause removes the file with
    no guard of its own: what [unlink] raises leaves the script. *)
Definition interrupted {A} (locked : string -> bool)
           (output_file : option string) : M A :=
  print "✗ Download cancelled by user" ;;;
  (match output_file with
   | Some path =>
       if truthy_str output_file then
         found <- lookup_file path ;;
         match found with
         | Some _ => unlink locked path ;;; print "Partial file deleted"
         | None => ret tt
         end
       else ret tt
   | None => ret tt
   end) ;;;
  exit 1.

(** Lines 174-189. *)
Definition handlers {A} (locked : string -> bool)
           (output_file : option string) (e : exn) : option (M A) :=
  match e with
  | RequestException => Some (print "✗ Request error" ;;; exit 1)
  | KeyboardInterrupt => Some (interrupted locked output_file)
  | IOError => Some (print "✗ File write error" ;;; exit 1)
  | _ => Some (print "✗ Unexpected error" ;;; exit 1)
  end.

(** Lines 80-135: from the job descriptor to the name of the output file
    and the result to download. *)
Definition locate (cfg : config) (job_id : string)
           (output_file : option string) (job : json) : M (string * json) :=
  result <- inspect job ;;
  path <- name_output cfg job_id job result output_file ;;
  ret (path, result).

(** Lines 31-189.  The single [try] of the source is split where
    [output_file] is assigned, so that each handler sees the value the
    variable has when the exception is raised; the two parts follow each
    other, so that what a handler raises is caught by no other. *)
Definition download_result (cfg : config) (job_id : string)
           (output_file : option string) : M unit :=
  if negb (truthy_str (API_KEY cfg)) then
    print "Error: CONVERTHUB_API_KEY is not set" ;;;
    exit 1
  else
    target <-
      try_except
        (response <- http (GetJob (JStr job_id)) ;;
         if status_code response >=? 400 then report_error response else
         job_response <- lift (json_of response) ;;
         job <- pick_job job_response ;;
         locate cfg job_id output_file job)
        (handlers (locked cfg) output_file) ;;
    try_except (fetch (locked cfg) (fst target) (snd target))
               (handlers (locked cfg) (Some (fst target))).

End DownloadResult.

(** ** chunked-upload/upload-large-file.py *)

Module ChunkedUpload.
Import Py Proc Common.

(** The API key, the reply typed at the download prompt, the name the
    clock gives the download, the paths the operating system keeps locked
    and the size of the largest buffer the machine grants a read. *)
Record config : Type := mkConfig {
  API_KEY : option string;
  answer : string;
  generated_name : string;
  locked : string -> bool;
  buffer_limit : Z
}.

(** The [--chunk-size] flag: absent, or a text on which [int()] either
    raises [ValueError] or gives a number. *)
Inductive chunk_flag : Type :=
| NoFlag
| Flag (parsed : option Z).

Definition max_attempts : nat := 180.

(** Line 60: the size the script refuses to exceed. *)
Definition size_limit : Z := 2147483648.

(** Lines 65-70. *)
Definition chunk_size_mb_of (flag : chunk_flag) : Z :=
  match flag with
  | Flag (Some n) => n
  | _ => 5
  end.

(** [math.ceil(file_size / chunk_size)]: the quotient is a double, and
    the count is the least integer not below that double.  A zero chunk
    size raises [ZeroDivisionError]. *)
Definition ceil_div (file_size chunk_size : Z) : res Z :=
  and_then (Float.true_divide file_size chunk_size)
           (fun quotient => Ret (Float.ceil quotient)).

(** Lines 116-122. *)
Definition report_init_error (response : Proc.response) : M unit :=
  error_data <- lift (json_of response) ;;
  error <- lift (get error_data "error" (JObj [])) ;;
  message <- lift (get error "message" (JStr "Failed to initialize upload")) ;;
  printf "✗ Error: " message ;;;
  code <- lift (get error "code" JNull) ;;
  (if truthy code then printf "  Code: " code else ret tt) ;;;
  exit 1.

(** Lines 160-165. *)
Definition report_chunk_error (chunk_index : nat)
           (chunk_response : Proc.response) : M unit :=
  printf "✗ Failed to upload chunk " (JNum (Z.of_nat chunk_index + 1)) ;;;
  error_data <- lift (json_of chunk_response) ;;
  error <- lift (get error_data "error" (JObj [])) ;;
  message <- lift (get error "message" (JStr "Unknown error")) ;;
  printf "Error: " message ;;;
  exit 1.

(** Lines 141-174:

      for chunk_index in range(total_chunks):
          chunk_data = file.read(chunk_size)
          chunk_response = requests.post(
              f'{API_BASE_URL}/upload/{session_id}/chunks/{chunk_index}', ...)
          if chunk_response.status_code >= 400:
              ...; sys.exit(1)

    [count] is what [range] still has to give, [unread] what the open
    file still holds after its position, [limit] the largest buffer a
    read is granted. *)
Fixpoint upload_chunks (limit : Z) (count chunk_index : nat)
         (chunk_size : Z) (session_id : json) (unread : list Byte.byte)
  : M unit :=
  match count with
  | O => ret tt
  | S count' =>
      chunk <- lift (read limit chunk_size unread) ;;
      chunk_response <-
        http (PostChunk session_id chunk_index (fst chunk)) ;;
      if status_code chunk_response >=? 400 then
        report_chunk_error chunk_index chunk_response
      else
        upload_chunks limit count' (S chunk_index) chunk_size session_id
                      (snd chunk)
  end.

(** Lines 204-225. *)
Definition poll (job_id : json) : M (json * option json) :=
  monitor (fun job_status => index job_status "status")
          max_attempts job_id (JStr "processing") None.

(** Lines 275-295. *)
Definition download_large_file (cfg : config) (url : json) : M unit :=
  try_except
    (response <- http (GetUrl url) ;;
     total_size <- lift (total_size_of response) ;;
     open_wb (locked cfg) (generated_name cfg) ;;;
     lift (progress_bar total_size) ;;;
     save_stream (generated_name cfg) (content response) ;;;
     print "✓ File saved")
    (fun e => if is_Exception e
              then Some (print "✗ Download failed" ;;; exit 1)
              else None).

(** Lines 229-262. *)
Definition display_results (cfg : config) (webhook : option string)
           (job_id status : json) (job_status : option json) : M unit :=
  has_url <-
    (if eq_str status "completed" then
       result <- lift (get_opt job_status "result" (JObj [])) ;;
       url <- lift (get result "download_url" JNull) ;;
       ret (truthy url)
     else ret false) ;;
  if has_url : bool then
    print "✓ Conversion complete!" ;;;
    result <- lift (index_opt job_status "result") ;;
    url <- lift (index result "download_url") ;;
    _ <- lift (index result "format") ;;
    size <- lift (index result "file_size") ;;
    lift (format_file_size size) ;;;
    _ <- lift (get_opt job_status "processing_time" JNull) ;;
    _ <- lift (index result "expires_at") ;;
    if says_yes (answer cfg) then
      url' <- lift (index result "download_url") ;;
      download_large_file cfg url'
    else ret tt
  else if eq_str status "failed" then
    print "✗ Conversion failed" ;;;
    error <- lift (get_opt job_status "error" JNull) ;;
    (if truthy error then
       message <- lift (get error "message" (JStr "Unknown error")) ;;
       printf "Error: " message
     else ret tt) ;;;
    exit 1
  else
    print "✗ Timeout: Conversion is taking longer than expected" ;;;
    print "Large files may take more time to process." ;;;
    printf "Check status later with: python job-management/check-status.py "
           job_id ;;;
    (if truthy_str webhook then
       print "You will receive a webhook notification when complete."
     else ret tt) ;;;
    exit 1.

(** Lines 176-262: once every chunk is up, finalize and watch the job. *)
Definition finalize (cfg : config) (webhook : option string)
           (session_id : json) : M unit :=
  print "✓ All chunks uploaded successfully" ;;;
  complete_response <- http (PostComplete session_id) ;;
  if status_code complete_response >=? 400 then
    error_data <- lift (json_of complete_response) ;;
    error <- lift (get error_data "error" (JObj [])) ;;
    message <- lift (get error "message" (JStr "Failed to complete upload")) ;;
    printf "✗ Error: " message ;;;
    exit 1
  else
    job <- lift (json_of complete_response) ;;
    job_id <- lift (index job "job_id") ;;
    print "✓ Upload complete! Conversion started." ;;;
    waited <- poll job_id ;;
    display_results cfg webhook job_id (fst waited) (snd waited).

(** Lines 83-262: the body of the [try]. *)
Definition session (cfg : config) (filename target_format : string)
           (webhook : option string) (data : list Byte.byte)
           (chunk_size total_chunks : Z) : M unit :=
  response <-
    http (PostUploadInit filename (Z.of_nat (length data)) total_chunks
                         target_format) ;;
  if status_code response >=? 400 then report_init_error response else
  session <- lift (json_of response) ;;
  session_id <- lift (index session "session_id") ;;
  _ <- lift (get session "expires_at" (JStr "N/A")) ;;
  upload_chunks (buffer_limit cfg) (Z.to_nat total_chunks) 0 chunk_size
                session_id data ;;;
  finalize cfg webhook session_id.

(** Lines 64-262: what follows the size check. *)
Definition upload_checked (cfg : config) (filename target_format : string)
           (flag : chunk_flag) (webhook : option string)
           (data : list Byte.byte) : M unit :=
  let file_size := Z.of_nat (length data) in
  let chunk_size := chunk_size_mb_of flag * 1048576 in
  total_chunks <- lift (ceil_div file_size chunk_size) ;;
  try_except
    (session cfg filename target_format webhook data chunk_size total_chunks)
    (handlers "✗ Upload cancelled by user").

Definition upload_large_file (cfg : config) (input_file target_format : string)
           (flag : chunk_flag) (webhook : option string) : M unit :=
  if negb (truthy_str (API_KEY cfg)) then
    print "Error: CONVERTHUB_API_KEY is not set" ;;;
    exit 1
  else
    found <- lookup_file input_file ;;
    match found with
    | None => print "Error: File not found." ;;; exit 1
    | Some data =>
        let file_size := Z.of_nat (length data) in
        if file_size >? size_limit then
          print "Error: File size exceeds 2GB limit." ;;;
          exit 1
        else
          upload_checked cfg input_file target_format flag webhook data
    end.

End ChunkedUpload.

(** ** The library calls of the webhook receiver: SHA-256, HMAC, digest
       comparison *)

(** [hashlib.sha256] (FIPS 180-4) and [hmac.new(key, msg, hashlib.sha256)]
    (RFC 2104) on bytes given as numbers 0..255, words as numbers below
    2^32. *)
Module Sha256.

Definition w32 (x : Z) : Z := Z.land x 4294967295.
Definition add32 (x y : Z) : Z := w32 (x + y).
Definition rotr (n x : Z) : Z :=
  Z.lor (Z.shiftr x n) (w32 (Z.shiftl x (32 - n))).
Definition not32 (x : Z) : Z := Z.lxor x 4294967295.

Definition Ch (x y z : Z) : Z := Z.lxor (Z.land x y) (Z.land (not32 x) z).
Definition Maj (x y z : Z) : Z :=
  Z.lxor (Z.lxor (Z.land x y) (Z.land x z)) (Z.land y z).
Definition Sigma0 (x : Z) : Z :=
  Z.lxor (Z.lxor (rotr 2 x) (rotr 13 x)) (rotr 22 x).
Definition Sigma1 (x : Z) : Z :=
  Z.lxor (Z.lxor (rotr 6 x) (rotr 11 x)) (rotr 25 x).
Definition sigma0 (x : Z) : Z :=
  Z.lxor (Z.lxor (rotr 7 x) (rotr 18 x)) (Z.shiftr x 3).
Definition sigma1 (x : Z) : Z :=
  Z.lxor (Z.lxor (rotr 17 x) (rotr 19 x)) (Z.shiftr x 10).

Definition is_prime (n : Z) : bool :=
  forallb (fun d => negb (n mod Z.of_nat d =? 0)) (seq 2 (Z.to_nat n - 2)).

(** The first sixty-four primes, 2 to 311. *)
Definition primes : list Z :=
  List.filter is_prime (map Z.of_nat (seq 2 310)).

(** The integer cube root, found bit by bit from the top. *)
Fixpoint root3_bits (bits : nat) (x r : Z) : Z :=
  match bits with
  | O => r
  | S bits' =>
      let r' := r + Z.shiftl 1 (Z.of_nat bits') in
      root3_bits bits' x (if r' * r' * r' <=? x then r' else r)
  end.

Definition root3 (x : Z) : Z := root3_bits 40 x 0.

(** The round constants: the first 32 bits of the fractional parts of the
    cube roots of the primes. *)
Definition K : list Z :=
  map (fun p => w32 (root3 (Z.shiftl p 96))) primes.

(** The initial hash value: the first 32 bits of the fractional parts of
    the square roots of the first eight primes. *)
Definition H0 : list Z :=
  map (fun p => w32 (Z.sqrt (Z.shiftl p 64))) (take 8 primes).

(** The [n] low bytes of [x], most significant first. *)
Fixpoint be_bytes (n : nat) (x : Z) : list Z :=
  match n with
  | O => []
  | S n' => Z.land (Z.shiftr x (8 * Z.of_nat n')) 255 :: be_bytes n' x
  end.

Definition pad (msg : list Z) : list Z :=
  let len := Z.of_nat (length msg) in
  let zeros := Z.to_nat ((55 - len) mod 64) in
  (msg ++ [128] ++ replicate zeros 0 ++ be_bytes 8 (8 * len))%list.

Fixpoint words (n : nat) (bytes : list Z) : list Z :=
  match n with
  | O => []
  | S n' =>
      match bytes with
      | a :: b :: c :: d :: rest =>
          (Z.shiftl a 24 + Z.shiftl b 16 + Z.shiftl c 8 + d)
            :: words n' rest
      | _ => []
      end
  end.

(** The message schedule, newest word first. *)
Fixpoint schedule (n : nat) (w : list Z) : list Z :=
  match n with
  | O => w
  | S n' =>
      match w with
      | w1 :: w2 :: _ =>
          let w7 := nth 6 w 0 in
          let w15 := nth 14 w 0 in
          let w16 := nth 15 w 0 in
          schedule n'
            (add32 (add32 (sigma1 w2) w7) (add32 (sigma0 w15) w16) :: w)
      | _ => w
      end
  end.

Definition round (s : list Z) (kw : Z * Z) : list Z :=
  match s with
  | [a; b; c; d; e; f; g; h] =>
      let t1 :=
        add32 (add32 (add32 h (Sigma1 e)) (add32 (Ch e f g) (fst kw)))
              (snd kw) in
      let t2 := add32 (Sigma0 a) (Maj a b c) in
      [add32 t1 t2; a; b; c; add32 d t1; e; f; g]
  | _ => s
  end.

Definition compress (h : list Z) (block : list Z) : list Z :=
  let w := rev (schedule 48 (rev (words 16 block))) in
  let s := fold_left round (combine K w) h in
  map (fun p => add32 (fst p) (snd p)) (combine h s).

Fixpoint blocks (n : nat) (h : list Z) (bytes : list Z) : list Z :=
  match n with
  | O => h
  | S n' =>
      match bytes with
      | [] => h
      | _ => blocks n' (compress h (take 64 bytes)) (drop 64 bytes)
      end
  end.

Definition sha256 (msg : list Z) : list Z :=
  let padded := pad msg in
  flat_map (be_bytes 4) (blocks (length padded) H0 padded).

Definition hmac (key msg : list Z) : list Z :=
  let key' := if (64 <? length key)%nat then sha256 key else key in
  let block := (key' ++ replicate (64 - length key') 0)%list in
  let ipad := map (Z.lxor 54) block in
  let opad := map (Z.lxor 92) block in
  sha256 (opad ++ sha256 (ipad ++ msg)).

Definition hex_digit (d : Z) : ascii :=
  ascii_of_N (Z.to_N (if d <? 10 then 48 + d else 87 + d)).

(** [.hexdigest()] *)
Fixpoint hex (bytes : list Z) : string :=
  match bytes with
  | [] => EmptyString
  | b :: rest =>
      String (hex_digit (Z.land (Z.shiftr b 4) 15))
             (String (hex_digit (Z.land b 15)) (hex rest))
  end.

Definition numbers (bytes : list Byte.byte) : list Z :=
  map (fun b => Z.of_N (Byte.to_N b)) bytes.

(** [hmac.new(key, payload, hashlib.sha256).hexdigest()] *)
Definition hmac_hexdigest (key payload : list Byte.byte) : string :=
  hex (hmac (numbers key) (numbers payload)).

End Sha256.

(** [hmac.compare_digest] on two [str] arguments, after CPython's
    [_operator._compare_digest] and its [_tscmp]. *)
Module Digest.
Import Py.

Definition codes (s : string) : list N :=
  map N_of_ascii (list_ascii_of_string s).

(** [PyUnicode_IS_ASCII] *)
Definition is_ascii (s : string) : bool :=
  forallb (fun c => (c <? 128)%N) (codes s).

(** The loop of [_tscmp], [for (i=0; i < length; i++) result |= *left++ ^
    *right++], run over [right]; the second component counts the
    iterations. *)
Fixpoint accumulate (result : N) (steps : nat) (left right : list N)
  : N * nat :=
  match right with
  | [] => (result, steps)
  | r :: right' =>
      match left with
      | l :: left' =>
          accumulate (N.lor result (N.lxor l r)) (S steps) left' right'
      | [] => (result, steps)
      end
  end.

(** [_tscmp(a, b, len_a, len_b)]: the loop runs over [b]; when the
    lengths differ [b] is compared with itself and the result starts at
    1.  Returns the verdict and the number of iterations. *)
Definition tscmp (a b : list N) : bool * nat :=
  let same := (length a =? length b)%nat in
  let left := if same then a else b in
  let result := if same then 0%N else 1%N in
  let out := accumulate result 0 left b in
  ((fst out =? 0)%N, snd out).

Definition compare_digest (a b : string) : res bool :=
  if is_ascii a && is_ascii b then Ret (fst (tscmp (codes a) (codes b)))
  else Raise TypeError.

End Digest.

(** ** webhook-handler/webhook-receiver.py *)

Module WebhookReceiver.
Import Py.
Local Open Scope res_scope.

Section Receiver.

(** [os.getenv('WEBHOOK_SECRET', '')] *)
Variable WEBHOOK_SECRET : string.

(** [json.loads] on the raw body: the decoded value, or
    [JSONDecodeError], or whatever else the decoder raises. *)
Variable json_loads : list Byte.byte -> res json.

(** The text an f-string gives a decoded value. *)
Variable format : json -> string.

(** Lines 37-48. *)
Definition verify_signature (payload : list Byte.byte)
           (signature : string) : res bool :=
  if String.eqb WEBHOOK_SECRET "" then Ret true
  else
    let expected_signature :=
      Sha256.hmac_hexdigest (list_byte_of_string WEBHOOK_SECRET) payload in
    Digest.compare_digest expected_signature signature.

(** Lines 51-142. *)
Definition process_webhook_event (event_data : json) : res json :=
  event_type <- get event_data "event" JNull ;;
  job_id <- get event_data "job_id" JNull ;;
  _ <- get event_data "timestamp" JNull ;;
  if eq_str event_type "conversion.completed" then
    result <- get event_data "result" (JObj []) ;;
    _ <- get result "format" JNull ;;
    _ <- get result "file_size" JNull ;;
    _ <- get result "download_url" JNull ;;
    download_url <- get result "download_url" JNull ;;
    Ret (JObj [("status", JStr "success");
               ("message", JStr "Conversion completed event processed");
               ("job_id", job_id);
               ("download_url", download_url)])
  else if eq_str event_type "conversion.failed" then
    error <- get event_data "error" (JObj []) ;;
    _ <- get error "message" JNull ;;
    _ <- get error "code" JNull ;;
    message <- get error "message" JNull ;;
    Ret (JObj [("status", JStr "failed");
               ("message", JStr "Conversion failed event processed");
               ("job_id", job_id);
               ("error", message)])
  else if eq_str event_type "conversion.progress" then
    progress <- get event_data "progress" (JObj []) ;;
    _ <- get progress "percentage" (JNum 0) ;;
    _ <- get progress "status" JNull ;;
    percentage <- get progress "percentage" (JNum 0) ;;
    Ret (JObj [("status", JStr "progress");
               ("message", JStr "Progress update processed");
               ("job_id", job_id);
               ("progress", percentage)])
  else if eq_str event_type "upload.completed" then
    _ <- get event_data "session_id" JNull ;;
    Ret (JObj [("status", JStr "uploaded");
               ("message", JStr "Upload completed event processed");
               ("job_id", job_id)])
  else
    Ret (JObj [("status", JStr "unknown");
               ("message",
                JStr ("Unknown event type: " ++ format event_type));
               ("job_id", job_id)]).

(** Lines 150-173: the body of the [try]. *)
Definition handle (raw_data : list Byte.byte)
           (signature_header : option string) : res (json * Z) :=
  let signature :=
    match signature_header with Some v => v | None => "" end in
  refused <-
    (if negb (String.eqb WEBHOOK_SECRET "") then
       verified <- verify_signature raw_data signature ;;
       Ret (negb verified)
     else Ret false) ;;
  if refused : bool then
    Ret (JObj [("error", JStr "Invalid signature")], 401)
  else
    match json_loads raw_data with
    | Raise JSONDecodeError => Ret (JObj [("error", JStr "Invalid JSON")], 400)
    | decoded =>
        event_data <- decoded ;;
        result <- process_webhook_event event_data ;;
        Ret (result, 200)
    end.

(** Lines 145-177: the [/webhook] route. *)
Definition webhook (raw_data : list Byte.byte)
           (signature_header : option string) : res (json * Z) :=
  match handle raw_data signature_header with
  | Raise e =>
      if is_Exception e
      then Ret (JObj [("error", JStr "Internal server error")], 500)
      else Raise e
  | r => r
  end.

End Receiver.

End WebhookReceiver.

(** ** [format_file_size] *)

Module FileSize.

(** The decimal numeral of a natural number. *)
Definition digits (n : Z) : string :=
  NilZero.string_of_uint (N.to_uint (Z.to_N n)).

(** The number of hundredths [f"{x:.2f}"] shows for [x = num / den]. *)
Definition hundredths (num den : Z) : Z :=
  Float.round_half_even (100 * num) den.

(** [f"{x:.2f}"] from the hundredths. *)
Definition two_places (h : Z) : string :=
  let a := Z.abs h in
  (if h <? 0 then "-" else "")
  ++ digits (a / 100) ++ "."
  ++ digits (a mod 100 / 10) ++ digits (a mod 10).

Definition units : list string := ["B"; "KB"; "MB"; "GB"].

(** The loop

      for unit in ['B', 'KB', 'MB', 'GB']:
          if bytes_size < 1024.0:
              return f"{bytes_size:.2f} {unit}"
          bytes_size /= 1024.0
      return f"{bytes_size:.2f} TB"

    with the running value of [bytes_size] kept as the fraction
    [num / den]; the result is the number of hundredths shown and the
    unit. *)
Fixpoint scale (units : list string) (num den : Z) : Z * string :=
  match units with
  | [] => (hundredths num den, "TB")
  | unit :: rest =>
      if num <? 1024 * den then (hundredths num den, unit)
      else scale rest num (den * 1024)
  end.

(** [format_file_size(bytes_size)] on an [int]. *)
Definition format_file_size (bytes_size : Z) : string :=
  let shown := scale units bytes_size 1 in
  two_places (fst shown) ++ " " ++ snd shown.

(** [format_file_size] of the OCR script:
    [f"{size_bytes / 1048576:.2f} MB"]. *)
Definition format_file_size_mb (size_bytes : Z) : string :=
  two_places (hundredths size_bytes 1048576) ++ " MB".

End FileSize.

(** ** The command line of convert.py and convert-from-url.py *)

Module CommandLine.
Import Py.

(** What [argparse] hands to [main]: an option that was not given is
    [None]; [--quality] and [--sample-rate] are read as [int]. *)
Record args : Type := mkArgs {
  api_key : option string;
  quality : option Z;
  resolution : option string;
  bitrate : option string;
  sample_rate : option Z;
  webhook : option string;
  output : option string
}.

(** [if args.x: options['x'] = args.x] for a text and for a number. *)
Definition text_entry (key : string) (value : option string)
  : list (string * json) :=
  match value with
  | Some v => if truthy (JStr v) then [(key, JStr v)] else []
  | None => []
  end.

Definition int_entry (key : string) (value : option Z)
  : list (string * json) :=
  match value with
  | Some n => if truthy (JNum n) then [(key, JNum n)] else []
  | None => []
  end.

(** convert.py, lines 256-268: the dict [options], in insertion order. *)
Definition options_of (a : args) : list (string * json) :=
  (text_entry "api_key" (api_key a)
   ++ int_entry "quality" (quality a)
   ++ text_entry "resolution" (resolution a)
   ++ text_entry "bitrate" (bitrate a)
   ++ int_entry "sample_rate" (sample_rate a)
   ++ text_entry "output" (output a))%list.

(** convert-from-url.py, lines 267-281: the same with [--webhook]. *)
Definition url_options_of (a : args) : list (string * json) :=
  (text_entry "api_key" (api_key a)
   ++ int_entry "quality" (quality a)
   ++ text_entry "resolution" (resolution a)
   ++ text_entry "bitrate" (bitrate a)
   ++ int_entry "sample_rate" (sample_rate a)
   ++ text_entry "webhook" (webhook a)
   ++ text_entry "output" (output a))%list.

(** The loop

      conversion_options = {}
      for key, value in options.items():
          if key not in <kept back>:
              conversion_options[key] = value *)
Definition conversion_options (kept_back : list string)
           (options : list (string * json)) : list (string * json) :=
  List.filter (fun entry => negb (existsb (String.eqb (fst entry)) kept_back))
              options.

(** What goes into the request: [if conversion_options:
    data['options'] = ...], else nothing. *)
Definition sent_options (kept_back : list string)
           (options : list (string * json))
  : option (list (string * json)) :=
  match conversion_options kept_back options with
  | [] => None
  | chosen => Some chosen
  end.

(** [options.get('output') if options else None] *)
Definition output_of (options : list (string * json)) : option json :=
  assoc "output" options.

End CommandLine.

(** * Vocabulary of the statements *)

Module Spec.
Import Py Proc Common.

(** What a job-status reply conveys to a loop that reads the status with
    [status_of]: the status and the descriptor, when the reply is a response
    below 400 whose body decodes and holds a status. *)
Definition conveyed (status_of : json -> res json) (r : reply)
  : option (json * json) :=
  match r with
  | Response resp =>
      if status_code resp >=? 400 then None
      else match payload resp with
           | Json v =>
               match status_of v with
               | Ret st => Some (st, v)
               | _ => None
               end
           | NotJson => None
           end
  | _ => None
  end.

(** The state one round of waiting later: the interval slept, one
    job-status request issued. *)
Definition advance (job_id : json) (s : state) : state :=
  mkState (net s) (S (sent s))
          (log s ++ [Sleep 2; Request (GetJob job_id)]) (fs s).

Fixpoint advance_n (k : nat) (job_id : json) (s : state) : state :=
  match k with
  | O => s
  | S k' => advance_n k' job_id (advance job_id s)
  end.

(** The statuses of the data model. *)
Definition terminal : list string := ["completed"; "failed"; "cancelled"].

(** A reply with HTTP status 200 carrying a decoded body. *)
Definition ok (v : json) : reply :=
  Response (mkResponse 200 (Json v) HAbsent []).

(** A job descriptor that only says its status. *)
Definition job_in (status : string) : json := JObj [("status", JStr status)].

(** The chunk uploads of a log, in the order they were issued: index and
    body. *)
Fixpoint sent_chunks (l : list event) : list (nat * list Byte.byte) :=
  match l with
  | [] => []
  | Request (PostChunk _ chunk_index chunk_data) :: rest =>
      (chunk_index, chunk_data) :: sent_chunks rest
  | _ :: rest => sent_chunks rest
  end.

(** The [count] chunk uploads that start at index [first] on the bytes
    [unread], [size] bytes at a time. *)
Fixpoint chunk_posts (session_id : json) (count first size : nat)
         (unread : list Byte.byte) : list event :=
  match count with
  | O => []
  | S count' =>
      Request (PostChunk session_id first (take size unread))
      :: chunk_posts session_id count' (S first) size (drop size unread)
  end.

(** A chunk size one read can deliver on a machine that grants buffers
    of up to [limit] bytes. *)
Definition deliverable (limit size : Z) : Prop :=
  0 <= size <= limit /\ size < 2 ^ 63 - 33.

(** The flag configures chunks of [mb] MiB: the number it gives, or the
    default of 5 when it is absent or unreadable. *)
Definition configures (flag : ChunkedUpload.chunk_flag) (mb : Z) : Prop :=
  flag = ChunkedUpload.Flag (Some mb)
  \/ mb = 5
     /\ (flag = ChunkedUpload.NoFlag \/ flag = ChunkedUpload.Flag None).

(** The body of a job-status reply answers with the job [job]: it is a
    list whose first element is [job], or it is [job] itself, an
    object. *)
Definition answers_with (body job : json) : Prop :=
  (exists others, body = JArr (job :: others))
  \/ (body = job /\ exists fields, job = JObj fields).

(** A job download-result.py can go on with: it is completed, its result
    holds a download URL, and what the script shows of it is of the kind
    it is shown as: the format a text, the size a number that a float
    can hold, the source format a text when there is one. *)
Definition downloadable (job result url : json) : Prop :=
  get job "status" (JStr "unknown") = Ret (JStr "completed")
  /\ get job "result" (JObj []) = Ret result
  /\ get result "download_url" JNull = Ret url
  /\ truthy url = true
  /\ (forall v, get result "format" (JStr "N/A") = Ret v ->
       exists format, v = JStr format)
  /\ (forall v, get result "file_size" (JNum 0) = Ret v ->
       exists size, v = JNum size /\ Float.int_too_large size = false)
  /\ (forall v, get job "source_format" JNull = Ret v ->
       truthy v = true -> exists source, v = JStr source).

(** A reply that lets an upload go on: a response of status below 400. *)
Definition accepts (r : reply) : Prop :=
  exists resp, r = Response resp /\ status_code resp < 400.

(** The replies from number [from] on, [count] of them, are accepting. *)
Definition accepted_run (server : nat -> reply) (from count : nat) : Prop :=
  forall i, (i < count)%nat -> accepts (server (from + i)%nat).

(** A job-status reply that shows the watch loop a job not yet terminal. *)
Definition unsettled (r : reply) : Prop :=
  exists resp job st,
    r = Response resp
    /\ status_code resp < 400
    /\ payload resp = Json job
    /\ index job "status" = Ret st
    /\ in_strs st CheckStatus.terminal = false.

(** A job-status reply that tells the watch loop the job was cancelled. *)
Definition tells_cancelled (r : reply) : Prop :=
  exists resp job,
    r = Response resp
    /\ status_code resp < 400
    /\ payload resp = Json job
    /\ index job "status" = Ret (JStr "cancelled").

(** The shape shared by the polling loops of the conversion scripts: the
    iterations left, the job, the status and descriptor known so far. *)
Definition poller : Type :=
  nat -> json -> json -> option json -> M (json * option json).

(** A polling loop stops at an HTTP error: whenever the reply to its next
    job-status request is a response of status 400 or more, and the loop
    does issue that request, the loop ends in [sys.exit] with a non-zero
    code and nothing is requested after that reply. *)
Definition stops_at_http_error (loop : poller) : Prop :=
  forall n job_id status job_status s resp,
    net s (sent s) = Response resp ->
    400 <= status_code resp ->
    sent (snd (loop (S n) job_id status job_status s)) <> sent s ->
    exists code,
      fst (loop (S n) job_id status job_status s) = Exit code
      /\ code <> 0
      /\ sent (snd (loop (S n) job_id status job_status s)) = S (sent s).

End Spec.

(** ** Bounds on what a computation does *)

Module Effects.
Import Py Proc.

(** A computation stays within bounds.  Whatever the state it starts from:
    it only adds to the log, and every event it adds is one of [events];
    the request counter moves with the requests logged and the service is
    left as it was; with [frozen] set, so is the file system; an exit it
    takes has its code in [codes], and an exception it lets out is one of
    [exns]. *)
Definition within {A} (events : event -> bool) (codes : Z -> bool)
           (exns : exn -> bool) (frozen : bool) (m : M A) : Prop :=
  forall s,
    (exists l,
       log (snd (m s)) = (log s ++ l)%list
       /\ forallb events l = true
       /\ sent (snd (m s)) = (sent s + length (requests_of l))%nat)
    /\ net (snd (m s)) = net s
    /\ (frozen = true -> fs (snd (m s)) = fs s)
    /\ match fst (m s) with
       | Ret _ => True
       | Exit code => codes code = true
       | Raise e => exns e = true
       end.

(** A result of the exception-only fragment that is no exit. *)
Definition raises_within {A} (exns : exn -> bool) (r : res A) : Prop :=
  match r with
  | Ret _ => True
  | Exit _ => False
  | Raise e => exns e = true
  end.

Definition any_event (e : event) : bool := true.
Definition no_exn (e : exn) : bool := false.
Definition any_exn (e : exn) : bool := true.

Definition zero_division (e : exn) : bool :=
  match e with ZeroDivisionError => true | _ => false end.

Definition io_error (e : exn) : bool :=
  match e with IOError => true | _ => false end.

(** Diagnostic lines. *)
Definition is_print (e : event) : bool :=
  match e with
  | Print _ | PrintF _ _ => true
  | _ => false
  end.

(** Everything but a job-status request and a sleep. *)
Definition no_waiting (e : event) : bool :=
  negb (is_poll e) && negb (is_sleep e).

(** Everything but a request that is no job-status request. *)
Definition reads_jobs_only (e : event) : bool :=
  match e with
  | Request (GetJob _) => true
  | Request _ => false
  | _ => true
  end.

(** A waiting loop that polls at most [n] times: whatever the state it
    starts from, it only adds to the log, what it adds holds at most [n]
    job-status requests and one sleep for each of them, every request it
    adds is a job-status request for [job_id], and the file system is left
    as it was. *)
Definition polls_at_most {A} (n : nat) (job_id : json) (m : M A) : Prop :=
  forall s,
    exists l,
      log (snd (m s)) = (log s ++ l)%list
      /\ (polls l <= n)%nat
      /\ sleeps l = polls l
      /\ requests_of l = replicate (polls l) (GetJob job_id)
      /\ sent (snd (m s)) = (sent s + polls l)%nat
      /\ fs (snd (m s)) = fs s.

(** Everything but the upload of a chunk. *)
Definition no_chunk (e : event) : bool :=
  match e with
  | Request (PostChunk _ _ _) => false
  | _ => true
  end.

(** A character of a lower-case hexadecimal numeral. *)
Definition is_lower_hex (c : ascii) : bool :=
  existsb (Ascii.eqb c) (list_ascii_of_string "0123456789abcdef").

Definition zero_or_one (c : Z) : bool := (c =? 0) || (c =? 1).

(** A job descriptor of a finished conversion with everything the result
    handlers of the conversion scripts read from it: the job identifier,
    the status [completed] and a result holding a download URL, a format,
    a size and an expiry date. *)
Definition finished (job result url : json) : Prop :=
  exists job_id format size expires_at,
    index job "job_id" = Ret job_id
    /\ index job "status" = Ret (JStr "completed")
    /\ index job "result" = Ret result
    /\ index result "download_url" = Ret url
    /\ truthy url = true
    /\ index result "format" = Ret format
    /\ index result "file_size" = Ret (JNum size)
    /\ index result "expires_at" = Ret expires_at.

End Effects.

(** * Concrete runs *)

Module Runs.
Import Py Proc Spec.

(** An image of two bytes waiting to be converted. *)
Definition files : gmap string (list Byte.byte) :=
  {[ "scan.png" := [Byte.x89; Byte.x50] ]}.

(** The answer to a submission: job [j1] accepted. *)
Definition accepted : reply :=
  Response (mkResponse 202 (Json (JObj [("job_id", JStr "j1")])) HAbsent []).

(** A service that accepts the job and reports it pending ever after. *)
Definition always_pending (n : nat) : reply :=
  match n with
  | O => accepted
  | _ => ok (job_in "pending")
  end.

(** A gateway answering 503 with a page that is no JSON. *)
Definition unavailable : reply :=
  Response (mkResponse 503 NotJson HAbsent []).

(** A service whose first job-status reply is a 503 and whose second
    reports the job failed. *)
Definition flaky (n : nat) : reply :=
  match n with
  | O => unavailable
  | _ => ok (job_in "failed")
  end.

(** A service that accepts the job and answers the first job-status
    request with a 503. *)
Definition rejected_poll (n : nat) : reply :=
  match n with
  | O => accepted
  | _ => unavailable
  end.

(** A clip of three bytes, and a file one byte over the 2 GiB limit. *)
Definition small_file : list Byte.byte := [Byte.x01; Byte.x02; Byte.x03].

Definition big_file : list Byte.byte :=
  replicate (Z.to_nat 2147483649) Byte.x00.

Definition upload_files : gmap string (list Byte.byte) :=
  {[ "clip.mov" := small_file ]}.

(** No path is locked, and a read is granted up to 4 GiB. *)
Definition upload_config : ChunkedUpload.config :=
  ChunkedUpload.mkConfig (Some "key") "n" "converted_0.mp4" unlocked
                         4294967296.

(** The answer to an init request: session [s1] opened. *)
Definition opened : reply :=
  Response (mkResponse 200 (Json (JObj [("session_id", JStr "s1")]))
                       HAbsent []).

(** A service that opens the session and refuses the first chunk. *)
Definition refusing (n : nat) : reply :=
  match n with
  | O => opened
  | _ => Response (mkResponse 500 NotJson HAbsent [])
  end.

(** A clip one byte over a mebibyte: two chunks of 1 MiB. *)
Definition long_file : list Byte.byte :=
  replicate (Z.to_nat 1048577) Byte.x00.

Definition long_files : gmap string (list Byte.byte) :=
  {[ "long.mov" := long_file ]}.

(** The answer that takes a chunk. *)
Definition taken : reply :=
  Response (mkResponse 200 NotJson HAbsent []).

(** A service that opens the session, takes the first chunk and refuses
    the second. *)
Definition refusing_second (n : nat) : reply :=
  match n with
  | O => opened
  | 1%nat => taken
  | _ => Response (mkResponse 500 NotJson HAbsent [])
  end.

(** A service that opens the session and takes whatever follows. *)
Definition taking (n : nat) : reply :=
  match n with
  | O => opened
  | _ => taken
  end.

(** The event of a failed conversion, as a body and as [json.loads] gives
    it back. *)
Definition quote : string := String "034"%char EmptyString.

Definition failure_body : string :=
  "{" ++ quote ++ "event" ++ quote ++ ":"
      ++ quote ++ "conversion.failed" ++ quote ++ ","
      ++ quote ++ "job_id" ++ quote ++ ":" ++ quote ++ "j1" ++ quote ++ ","
      ++ quote ++ "error" ++ quote ++ ":{"
      ++ quote ++ "message" ++ quote ++ ":" ++ quote ++ "bad input" ++ quote ++ ","
      ++ quote ++ "code" ++ quote ++ ":" ++ quote ++ "E1" ++ quote ++ "}}".

Definition failure_event : json :=
  JObj [("event", JStr "conversion.failed");
        ("job_id", JStr "j1");
        ("error", JObj [("message", JStr "bad input"); ("code", JStr "E1")])].

(** A decoder that knows this one body. *)
Definition decoder (raw : list Byte.byte) : res json :=
  if String.eqb (string_of_list_byte raw) failure_body
  then Ret failure_event
  else Raise JSONDecodeError.

(** A body that is no UTF-8, and a decoder that knows it too:
    [json.loads] raises [UnicodeDecodeError] while it turns the bytes
    into text. *)
Definition garbled_body : list Byte.byte := [Byte.xff].

Definition strict_decoder (raw : list Byte.byte) : res json :=
  if String.eqb (string_of_list_byte raw) (string_of_list_byte garbled_body)
  then Raise UnicodeDecodeError
  else decoder raw.

(** A signature header of one character, an e with an acute accent. *)
Definition accented_signature : string :=
  String (ascii_of_nat 233) EmptyString.

(** A formatter that knows strings. *)
Definition plain (v : json) : string :=
  match v with
  | JStr s => s
  | _ => "None"
  end.

(** A completed job with its result, and a download of it that Ctrl-C
    cuts after the first chunk. *)
Definition converted_job : json :=
  JObj [("job_id", JStr "j1");
        ("status", JStr "completed");
        ("result",
         JObj [("download_url", JStr "https://cdn.example/j1.pdf");
               ("format", JStr "pdf");
               ("file_size", JNum 3);
               ("expires_at", JStr "2030-01-01T00:00:00Z")])].

Definition cut_download : reply :=
  Response (mkResponse 200 NotJson (HInt 3)
              [Data [Byte.x25; Byte.x50]; Sigint; Data [Byte.x44]]).

Definition whole_download : reply :=
  Response (mkResponse 200 NotJson (HInt 3)
              [Data [Byte.x25; Byte.x50]; Data [Byte.x44]]).

(** A service that has the job completed and whose download is cut. *)
Definition interrupted_service (n : nat) : reply :=
  match n with
  | O => ok converted_job
  | _ => cut_download
  end.

(** A service that answers the job-status request with a one-element
    list, then serves the download; and one that answers with an empty
    list. *)
Definition listing_service (n : nat) : reply :=
  match n with
  | O => ok (JArr [converted_job])
  | _ => whole_download
  end.

Definition empty_listing_service (n : nat) : reply := ok (JArr []).

(** A service that opens the session, starts the job as soon as it is
    asked to complete the upload and reports it converted. *)
Definition completing (n : nat) : reply :=
  match n with
  | O => opened
  | 1%nat => accepted
  | _ => ok converted_job
  end.

(** A service that answers the job-status request with a list of two
    jobs, the converted one and a failed one, then serves the download. *)
Definition long_listing_service (n : nat) : reply :=
  match n with
  | O => ok (JArr [converted_job; job_in "failed"])
  | _ => whole_download
  end.

Definition download_config : DownloadResult.config :=
  DownloadResult.mkConfig (Some "key") (fun _ _ => "converted_j1.pdf")
                          unlocked.

(** A service on which the job is processing for ever, and one on which
    the first poll finds it cancelled. *)
Definition always_processing (n : nat) : reply := ok (job_in "processing").

Definition cancelled_service (n : nat) : reply :=
  match n with
  | O => accepted
  | _ => ok (job_in "cancelled")
  end.

Definition ocr_config : OcrConvert.config :=
  OcrConvert.mkConfig (Some "key") "png" "scan.txt" unlocked.

Definition simple_config : SimpleConvert.config :=
  SimpleConvert.mkConfig (Some "key") "n" "converted_0.txt" unlocked.

(** A configuration of convert-from-url.py under which every URL names
    the file [scan.png]. *)
Definition url_config : UrlConvert.config :=
  UrlConvert.mkConfig (Some "key") "n" "converted_0.pdf" unlocked
                      (fun _ => Some "scan.png").

(** A service that accepts the job and reports it processing ever after. *)
Definition always_busy (n : nat) : reply :=
  match n with
  | O => accepted
  | _ => ok (job_in "processing")
  end.

(** A service that opens the session, takes the chunk, starts the job and
    reports it processing ever after. *)
Definition upload_busy (n : nat) : reply :=
  match n with
  | O => opened
  | 1%nat => taken
  | 2%nat => accepted
  | _ => ok (job_in "processing")
  end.

End Runs.

(** * More concrete runs *)

Module Cases.
Import Py Proc Spec.

(** The result of the converted job of [Runs], and its URL. *)
Definition converted_result : json :=
  JObj [("download_url", JStr "https://cdn.example/j1.pdf");
        ("format", JStr "pdf");
        ("file_size", JNum 3);
        ("expires_at", JStr "2030-01-01T00:00:00Z")].

Definition converted_url : json := JStr "https://cdn.example/j1.pdf".

(** A download answered 404 with a page of three bytes. *)
Definition not_found : response :=
  mkResponse 404 NotJson (HInt 3) [Data [Byte.x3c; Byte.x68; Byte.x3e]].

(** A service that has the job completed and refuses the download. *)
Definition refusing_download (n : nat) : reply :=
  match n with
  | O => ok Runs.converted_job
  | _ => Response not_found
  end.

(** A directory [exports] stands where the output is to go: the path
    exists, and the operating system lets the process neither write to it
    nor remove it. *)
Definition exports_config : DownloadResult.config :=
  DownloadResult.mkConfig (Some "key") (fun _ _ => "converted_j1.pdf")
                          (fun path => String.eqb path "exports").

Definition exports_files : gmap string (list Byte.byte) :=
  {[ "exports" := [] ]}.

(** A service during whose first answer Ctrl-C arrives. *)
Definition interrupting (n : nat) : reply := Interrupted.

(** A failed job that says why. *)
Definition failed_job : json :=
  JObj [("job_id", JStr "j1");
        ("status", JStr "failed");
        ("error", JObj [("message", JStr "bad input"); ("code", JStr "E1")])].

End Cases.

(** * Properties *)

(** ** The monad *)

Section MonadFacts.
Import Py Proc.

Lemma bind_ret {A B} (a : A) (k : A -> M B) (s : state) :
  bind (ret a) k s = k a s.
Proof. reflexivity. Qed.

Lemma bind_exit {A B} (m : M A) (k : A -> M B) (s s' : state) (c : Z) :
  m s = (Exit c, s') -> bind m k s = (Exit c, s').
Proof. intros H. unfold bind. now rewrite H. Qed.

Lemma bind_raise {A B} (m : M A) (k : A -> M B) (s s' : state) (e : exn) :
  m s = (Raise e, s') -> bind m k s = (Raise e, s').
Proof. intros H. unfold bind. now rewrite H. Qed.

Lemma bind_step {A B} (m : M A) (k : A -> M B) (s s' : state) (a : A) :
  m s = (Ret a, s') -> bind m k s = k a s'.
Proof. intros H. unfold bind. now rewrite H. Qed.

Lemma try_except_exit {A} (m : M A) h (s s' : state) (c : Z) :
  m s = (Exit c, s') -> try_except m h s = (Exit c, s').
Proof. intros H. unfold try_except. now rewrite H. Qed.

Lemma try_except_ret {A} (m : M A) h (s s' : state) (a : A) :
  m s = (Ret a, s') -> try_except m h s = (Ret a, s').
Proof. intros H. unfold try_except. now rewrite H. Qed.

End MonadFacts.

(** ** Doubles *)

Section FloatFacts.
Import Py Float.

(** Rounding to nearest misses by half a unit at most. *)
Lemma round_half_even_near num den :
  0 < den -> 2 * Z.abs (num - round_half_even num den * den) <= den.
Proof.
  intros Hden. unfold round_half_even.
  pose proof (Z.div_mod num den ltac:(lia)) as Hdm.
  pose proof (Z.mod_pos_bound num den Hden) as Hr.
  destruct (2 * (num mod den) <? den) eqn:H1; [lia|].
  destruct (den <? 2 * (num mod den)) eqn:H2; [lia|].
  destruct (Z.even (num / den)); lia.
Qed.

Lemma round_half_even_le num den c :
  0 < den -> num <= c * den -> round_half_even num den <= c.
Proof.
  intros Hden Hle. pose proof (round_half_even_near num den Hden). nia.
Qed.

Lemma round_half_even_ge num den c :
  0 < den -> c * den <= num -> c <= round_half_even num den.
Proof.
  intros Hden Hle. pose proof (round_half_even_near num den Hden). nia.
Qed.

(** The exponent of a quotient is at most that of its numerator. *)
Lemma exponent_le num den :
  0 < num -> 0 < den -> exponent num den <= Z.log2 num.
Proof.
  intros Hn Hd. unfold exponent.
  pose proof (Z.log2_nonneg den).
  repeat match goal with |- context [if ?b then _ else _] => destruct b end;
    lia.
Qed.

Lemma exponent_ge num den :
  Z.log2 num - Z.log2 den - 1 <= exponent num den.
Proof.
  unfold exponent.
  repeat match goal with |- context [if ?b then _ else _] => destruct b end;
    lia.
Qed.

(** The quotient is at least 2 to its exponent. *)
Lemma exponent_lower num den :
  0 < num -> 0 < den ->
  (0 <= exponent num den -> den * 2 ^ exponent num den <= num)
  /\ (exponent num den < 0 -> den <= num * 2 ^ (- exponent num den)).
Proof.
  intros Hn Hd.
  destruct (Z.log2_spec num Hn) as [Hn1 Hn2].
  destruct (Z.log2_spec den Hd) as [Hd1 Hd2].
  pose proof (Z.log2_nonneg num) as Hla.
  pose proof (Z.log2_nonneg den) as Hlb.
  unfold exponent.
  set (la := Z.log2 num) in *. set (lb := Z.log2 den) in *.
  replace (Z.succ la) with (la + 1) in Hn2 by lia.
  replace (Z.succ lb) with (lb + 1) in Hd2 by lia.
  rewrite Z.pow_add_r in Hn2, Hd2 by lia.
  change (2 ^ 1) with 2 in *.
  destruct (0 <=? la - lb) eqn:Hl.
  - assert (2 ^ la = 2 ^ lb * 2 ^ (la - lb)) as Hsplit
      by (rewrite <- Z.pow_add_r by lia; f_equal; lia).
    assert (0 < 2 ^ (la - lb)) as Hp by (apply Z.pow_pos_nonneg; lia).
    destruct (num <? den * 2 ^ (la - lb)) eqn:Hlt; [|lia].
    split.
    + intros Hge.
      assert (2 ^ (la - lb) = 2 * 2 ^ (la - lb - 1)) as Hhalf.
      { replace (la - lb) with (1 + (la - lb - 1)) at 1 by lia.
        rewrite Z.pow_add_r by lia. reflexivity. }
      assert (0 < 2 ^ (la - lb - 1)) by (apply Z.pow_pos_nonneg; lia).
      nia.
    + intros Hneg. assert (la - lb = 0) as E by lia.
      rewrite E in *. change (- (0 - 1)) with 1. change (2 ^ 1) with 2.
      change (2 ^ 0) with 1 in *. lia.
  - assert (2 ^ lb = 2 ^ la * 2 ^ (- (la - lb))) as Hsplit
      by (rewrite <- Z.pow_add_r by lia; f_equal; lia).
    assert (0 < 2 ^ (- (la - lb))) as Hp by (apply Z.pow_pos_nonneg; lia).
    destruct (num * 2 ^ (- (la - lb)) <? den) eqn:Hlt; [|lia].
    split; [lia|]. intros _.
    replace (- (la - lb - 1)) with (- (la - lb) + 1) by lia.
    rewrite Z.pow_add_r by lia. change (2 ^ 1) with 2. nia.
Qed.

Lemma round_half_even_nonneg num den :
  0 <= num -> 0 < den -> 0 <= round_half_even num den.
Proof. intros Hn Hd. apply round_half_even_ge; lia. Qed.

(** A quotient below 2^52 is represented with a negative exponent, so is
    in range, and has a mantissa that is not negative. *)
Lemma nearest_small num den :
  0 < num < 2 ^ 52 -> 0 < den ->
  snd (nearest num den) < 0
  /\ 0 <= fst (nearest num den)
  /\ too_large (nearest num den) = false.
Proof.
  intros Hn Hd.
  pose proof (exponent_le num den ltac:(lia) Hd) as Hle.
  assert (Z.log2 num < 52) as Hlog by (apply Z.log2_lt_pow2; lia).
  unfold too_large, nearest. cbn [fst snd].
  set (e := Z.max (exponent num den - 52) (- 1074)).
  assert (e < 0) as He by (subst e; lia).
  assert ((0 <=? e) = false) as -> by lia.
  split; [assumption|]. split; [|reflexivity].
  apply round_half_even_nonneg; [|assumption].
  assert (0 < 2 ^ (- e)) by (apply Z.pow_pos_nonneg; lia). nia.
Qed.

(** [math.ceil(file_size / chunk_size)] for a size below 2^52: the count
    is the exact ceiling of the quotient when the chunk size is positive
    and below 2^1000, and it is never positive when the chunk size is
    negative. *)
Lemma ceil_div_small a b :
  0 <= a < 2 ^ 52 -> b <> 0 ->
  exists t,
    ChunkedUpload.ceil_div a b = Ret t
    /\ (b < 0 -> t <= 0)
    /\ (0 < b < 2 ^ 1000 -> t = - (- a / b)).
Proof.
  intros Ha Hb. unfold ChunkedUpload.ceil_div, true_divide.
  destruct (Z.eqb_spec b 0) as [|_]; [contradiction|].
  destruct (Z.eqb_spec a 0) as [->|Hnz].
  { exists 0. cbn [and_then]. split; [reflexivity|]. split; [lia|].
    intros Hpos. cbn. now rewrite Z.div_0_l by lia. }
  assert (0 < Z.abs a < 2 ^ 52) as Haa by lia.
  assert (0 < Z.abs b) as Hab by lia.
  destruct (nearest_small (Z.abs a) (Z.abs b) Haa Hab) as (He & Hm & ->).
  cbn [and_then]. eexists. split; [reflexivity|].
  unfold ceil. cbn [fst snd].
  assert ((0 <=? snd (nearest (Z.abs a) (Z.abs b))) = false) as -> by lia.
  assert (0 < 2 ^ (- snd (nearest (Z.abs a) (Z.abs b)))) as Hp
    by (apply Z.pow_pos_nonneg; lia).
  split.
  - intros Hneg. rewrite Z.sgn_pos, Z.sgn_neg by lia.
    replace (- (1 * -1 * fst (nearest (Z.abs a) (Z.abs b))))
      with (fst (nearest (Z.abs a) (Z.abs b))) by lia.
    pose proof (Z.div_pos _ _ Hm Hp). lia.
  - intros Hpos. rewrite !Z.sgn_pos by lia.
    rewrite !Z.abs_eq in * by lia.
    unfold nearest in *. cbn [fst snd] in *.
    pose proof (exponent_le a b ltac:(lia) ltac:(lia)) as Hle.
    pose proof (exponent_ge a b) as Hge.
    pose proof (exponent_lower a b ltac:(lia) ltac:(lia)) as [Hlo1 Hlo2].
    assert (Z.log2 a < 52) as Hlog by (apply Z.log2_lt_pow2; lia).
    assert (Z.log2 b < 1000) as Hlogb by (apply Z.log2_lt_pow2; lia).
    pose proof (Z.log2_nonneg a) as Hla.
    set (L := exponent a b) in *.
    assert (Z.max (L - 52) (- 1074) = L - 52) as E by lia.
    rewrite E in *.
    assert ((0 <=? L - 52) = false) as El by lia.
    rewrite El in *.
    replace (- (L - 52)) with (52 - L) in * by lia.
    set (P := 2 ^ (52 - L)) in *.
    set (m := round_half_even (a * P) b) in *.
    pose proof (round_half_even_near (a * P) b ltac:(lia)) as Hnear.
    fold m in Hnear.
    (* the chunk size is below the scale *)
    assert (b < P) as HbP.
    { destruct (Z_lt_le_dec L 0) as [Hn|Hn].
      - specialize (Hlo2 Hn).
        assert (P = 2 ^ 52 * 2 ^ (- L)) as ->
          by (unfold P; rewrite <- Z.pow_add_r by lia; f_equal; lia).
        assert (0 < 2 ^ (- L)) by (apply Z.pow_pos_nonneg; lia). nia.
      - specialize (Hlo1 Hn).
        assert (2 ^ 52 = P * 2 ^ L) as HP
          by (unfold P; rewrite <- Z.pow_add_r by lia; f_equal; lia).
        assert (0 < 2 ^ L) by (apply Z.pow_pos_nonneg; lia). nia. }
    set (t := - (- a / b)).
    assert (b * (t - 1) < a <= b * t) as Ht.
    { pose proof (Z.div_mod (- a) b ltac:(lia)) as Hdm.
      pose proof (Z.mod_pos_bound (- a) b ltac:(lia)) as Hr.
      unfold t. nia. }
    assert (1 * 1 * m = m) as -> by lia.
    assert (m <= t * P) as Hup.
    { apply round_half_even_le; [lia|]. nia. }
    assert ((t - 1) * P < m) as Hdown.
    { destruct (Z_lt_le_dec ((t - 1) * P) m) as [|Hle']; [assumption|].
      exfalso.
      assert (P <= a * P - m * b) by nia.
      lia. }
    pose proof (Z.div_mod (- m) P ltac:(lia)) as Hdm.
    pose proof (Z.mod_pos_bound (- m) P ltac:(lia)) as Hr.
    nia.
Qed.

End FloatFacts.

(** ** The monitoring loop of the conversion scripts *)

Section MonitorFacts.
Import Py Proc Common Spec.

Variable status_of : json -> res json.
Variable job_id : json.

Lemma monitor_exhausted status job_status s :
  monitor status_of 0 job_id status job_status s
  = (Ret (status, job_status), s).
Proof. reflexivity. Qed.

Lemma monitor_stops n status job_status s :
  in_strs status waiting = false ->
  monitor status_of n job_id status job_status s
  = (Ret (status, job_status), s).
Proof. intros H. destruct n; cbn [monitor]; [|rewrite H]; reflexivity. Qed.

Lemma monitor_round n status job_status s st v :
  in_strs status waiting = true ->
  conveyed status_of (net s (sent s)) = Some (st, v) ->
  monitor status_of (S n) job_id status job_status s
  = monitor status_of n job_id st (Some v) (advance job_id s).
Proof.
  intros Hw Hc. cbn [monitor]. rewrite Hw.
  unfold conveyed in Hc.
  unfold bind at 1. cbn [sleep emit].
  unfold bind at 1. unfold http at 1. cbn [net sent log fs].
  destruct (net s (sent s)) as [resp| |]; try discriminate.
  destruct (status_code resp >=? 400) eqn:Hcode; try discriminate.
  unfold json_of, lift, bind at 1.
  destruct (payload resp) as [w|]; try discriminate.
  unfold bind at 1.
  destruct (status_of w) as [st'| |] eqn:Hs; try discriminate.
  injection Hc as <- <-.
  unfold advance. now rewrite <- app_assoc.
Qed.

Lemma monitor_http_error n status job_status s resp :
  in_strs status waiting = true ->
  net s (sent s) = Response resp ->
  400 <= status_code resp ->
  monitor status_of (S n) job_id status job_status s
  = (Exit 1,
     mkState (net s) (S (sent s))
             (log s ++ [Sleep 2; Request (GetJob job_id);
                        Print "✗ Failed to check status"])
             (fs s)).
Proof.
  intros Hw Hn Hcode. cbn [monitor]. rewrite Hw.
  unfold bind at 1. cbn [sleep emit].
  unfold bind at 1. unfold http at 1. cbn [net sent log fs]. rewrite Hn.
  assert ((status_code resp >=? 400) = true) as -> by lia.
  unfold bind, print, emit, exit. cbn [net sent log fs].
  now rewrite <- !app_assoc.
Qed.

Lemma advance_n_sent k s : sent (advance_n k job_id s) = (sent s + k)%nat.
Proof.
  revert s. induction k as [|k IH]; intros s; cbn [advance_n].
  - lia.
  - rewrite IH. cbn. lia.
Qed.

Lemma advance_n_net k s : net (advance_n k job_id s) = net s.
Proof.
  revert s. induction k as [|k IH]; intros s; cbn [advance_n];
    [|rewrite IH]; reflexivity.
Qed.

Lemma advance_n_fs k s : fs (advance_n k job_id s) = fs s.
Proof.
  revert s. induction k as [|k IH]; intros s; cbn [advance_n];
    [|rewrite IH]; reflexivity.
Qed.

Lemma advance_n_log k s :
  log (advance_n k job_id s)
  = (log s ++ concat (replicate k [Sleep 2; Request (GetJob job_id)]))%list.
Proof.
  revert s. induction k as [|k IH]; intros s; cbn [advance_n].
  - cbn. now rewrite app_nil_r.
  - rewrite IH. cbn [advance log replicate concat]. now rewrite <- app_assoc.
Qed.

Lemma polls_app l1 l2 : polls (l1 ++ l2)%list = (polls l1 + polls l2)%nat.
Proof. unfold polls. now rewrite List.filter_app, length_app. Qed.

Lemma sleeps_app l1 l2 : sleeps (l1 ++ l2)%list = (sleeps l1 + sleeps l2)%nat.
Proof. unfold sleeps. now rewrite List.filter_app, length_app. Qed.

Lemma polls_rounds k :
  polls (concat (replicate k [Sleep 2; Request (GetJob job_id)])) = k.
Proof.
  induction k as [|k IH]; [reflexivity|].
  cbn [replicate concat]. rewrite polls_app, IH. reflexivity.
Qed.

Lemma sleeps_rounds k :
  sleeps (concat (replicate k [Sleep 2; Request (GetJob job_id)])) = k.
Proof.
  induction k as [|k IH]; [reflexivity|].
  cbn [replicate concat]. rewrite sleeps_app, IH. reflexivity.
Qed.

(** [k] rounds in a row on which the service reports a waiting status. *)
Lemma monitor_rounds k : forall n status job_status s,
  in_strs status waiting = true ->
  (forall i, (i < k)%nat ->
     exists st v, conveyed status_of (net s (sent s + i)) = Some (st, v)
                  /\ in_strs st waiting = true) ->
  exists st job_status',
    monitor status_of (k + n) job_id status job_status s
    = monitor status_of n job_id st job_status' (advance_n k job_id s)
    /\ in_strs st waiting = true.
Proof.
  induction k as [|k IH]; intros n status job_status s Hw Hall.
  - exists status, job_status. split; [reflexivity|assumption].
  - destruct (Hall 0%nat ltac:(lia)) as (st & v & Hc & Hst).
    rewrite Nat.add_0_r in Hc.
    destruct (IH n st (Some v) (advance job_id s) Hst) as (st' & js' & E & Hw').
    + intros i Hi. destruct (Hall (S i) ltac:(lia)) as (st2 & v2 & Hc2 & H2).
      exists st2, v2. split; [|assumption].
      cbn [advance net sent]. now replace (S (sent s) + i)%nat with (sent s + S i)%nat by lia.
    + exists st', js'. split; [|assumption].
      change (S k + n)%nat with (S (k + n)).
      rewrite (monitor_round _ _ _ _ _ _ Hw Hc). exact E.
Qed.

(** The ceiling is reached while the job is still waiting: the loop returns
    the last waiting status after exactly [n] rounds. *)
Lemma monitor_times_out n status job_status s :
  in_strs status waiting = true ->
  (forall i, (i < n)%nat ->
     exists st v, conveyed status_of (net s (sent s + i)) = Some (st, v)
                  /\ in_strs st waiting = true) ->
  exists st job_status',
    monitor status_of n job_id status job_status s
    = (Ret (st, job_status'), advance_n n job_id s)
    /\ in_strs st waiting = true.
Proof.
  intros Hw Hall.
  destruct (monitor_rounds n 0%nat status job_status s Hw Hall)
    as (st & js & E & Hst).
  exists st, js. rewrite Nat.add_0_r in E. now rewrite E.
Qed.

(** The job leaves the waiting statuses at round [k], below the ceiling:
    the loop returns that status and its descriptor after [S k] rounds. *)
Lemma monitor_returns_outcome k n status job_status s st v :
  (k < n)%nat ->
  in_strs status waiting = true ->
  (forall i, (i < k)%nat ->
     exists st' v', conveyed status_of (net s (sent s + i)) = Some (st', v')
                    /\ in_strs st' waiting = true) ->
  conveyed status_of (net s (sent s + k)) = Some (st, v) ->
  in_strs st waiting = false ->
  monitor status_of n job_id status job_status s
  = (Ret (st, Some v), advance_n (S k) job_id s).
Proof.
  intros Hk Hw Hall Hc Hst.
  destruct (monitor_rounds k (n - k) status job_status s Hw Hall)
    as (st1 & js1 & E & Hst1).
  replace (k + (n - k))%nat with n in E by lia. rewrite E.
  destruct (n - k)%nat as [|m] eqn:Hm; [lia|].
  rewrite (monitor_round m st1 js1 _ st v Hst1).
  - rewrite monitor_stops by assumption.
    f_equal. clear. revert s.
    induction k as [|k IH]; intros s; [reflexivity|].
    cbn [advance_n] in *. now rewrite IH.
  - now rewrite advance_n_net, advance_n_sent.
Qed.

(** An HTTP error at round [k], below the ceiling, ends the loop there. *)
Lemma monitor_aborts k n status job_status s resp :
  (k < n)%nat ->
  in_strs status waiting = true ->
  (forall i, (i < k)%nat ->
     exists st' v', conveyed status_of (net s (sent s + i)) = Some (st', v')
                    /\ in_strs st' waiting = true) ->
  net s (sent s + k) = Response resp ->
  400 <= status_code resp ->
  monitor status_of n job_id status job_status s
  = (Exit 1,
     mkState (net s) (S (sent s + k))
             (log (advance_n k job_id s)
              ++ [Sleep 2; Request (GetJob job_id);
                  Print "✗ Failed to check status"])
             (fs s)).
Proof.
  intros Hk Hw Hall Hn Hcode.
  destruct (monitor_rounds k (n - k) status job_status s Hw Hall)
    as (st1 & js1 & E & Hst1).
  replace (k + (n - k))%nat with n in E by lia. rewrite E.
  destruct (n - k)%nat as [|m] eqn:Hm; [lia|].
  rewrite (monitor_http_error m st1 js1 _ resp Hst1).
  - now rewrite advance_n_net, advance_n_sent, advance_n_fs.
  - now rewrite advance_n_net, advance_n_sent.
  - assumption.
Qed.

End MonitorFacts.

(** ** The polling loops (claims C1 and C2) *)

Section Polling.
Import Py Proc Common Spec.

(** C1, at its failing input.  The service accepts the OCR job and reports
    it [pending] on every poll, a status sequence that never reaches a
    terminal state.  The OCR loop waits on [processing] and [queued] only:
    it leaves after a single poll of its 150 and the script reports a
    timeout and exits 1, where the loop of convert.py, facing the same
    service, polls until its ceiling of 60. *)
Theorem ocr_gives_up_on_pending :
  let run :=
    OcrConvert.script Runs.ocr_config "scan.png" "eng"
                      (boot Runs.always_pending Runs.files) in
  let simple :=
    SimpleConvert.convert_file Runs.simple_config "scan.png" "txt" None
                               (boot Runs.always_pending Runs.files) in
  fst run = Exit 1
  /\ log (snd run)
     = [Request (PostConvert "scan.png" "txt");
        Sleep 2;
        Request (GetJob (JStr "j1"));
        Print "[ERROR] Timeout: OCR is taking longer than expected";
        PrintF "Check status with: python ../job-management/check-status.py "
               (JStr "j1")]
  /\ polls (log (snd run)) = 1%nat
  /\ OcrConvert.max_attempts = 150%nat
  /\ in_strs (JStr "pending") waiting = true
  /\ polls (log (snd simple)) = SimpleConvert.max_attempts.
Proof. vm_compute. repeat split; reflexivity. Qed.

(** The loop shared by convert.py, convert-from-url.py and
    upload-large-file.py stops at an HTTP error. *)
Lemma monitor_stops_at_http_error status_of :
  stops_at_http_error (monitor status_of).
Proof.
  intros n job_id status job_status s resp Hn Hcode Hsent.
  destruct (in_strs status waiting) eqn:Hw.
  - rewrite (monitor_http_error status_of job_id n status job_status s resp)
      by assumption.
    exists 1. cbn. repeat split; lia.
  - rewrite monitor_stops in Hsent by assumption. now cbn in Hsent.
Qed.

(** One iteration of the OCR loop on any response: the status code plays
    no part, the loop goes on with what [absorb] keeps of the body. *)
Lemma ocr_poll_round n job_id status job_status s resp :
  in_strs status ["processing"; "queued"] = true ->
  net s (sent s) = Response resp ->
  OcrConvert.poll (S n) job_id status job_status s
  = OcrConvert.poll n job_id
      (fst (OcrConvert.absorb status job_status resp))
      (snd (OcrConvert.absorb status job_status resp))
      (advance job_id s).
Proof.
  intros Hw Hn. cbn [OcrConvert.poll]. rewrite Hw. cbn [negb].
  unfold bind at 1. cbn [sleep emit].
  unfold bind at 1. unfold try_except, bind at 1, http at 1.
  cbn [net sent log fs]. rewrite Hn. cbn [ret].
  unfold advance. now rewrite <- app_assoc.
Qed.

(** C2, as stated, fails on the OCR loop: answered 503 with a body that is
    no JSON, it sleeps and polls again, and here ends without any exit. *)
Lemma ocr_polls_past_http_error :
  let run :=
    OcrConvert.poll 2 (JStr "j1") (JStr "processing") None
                    (boot Runs.flaky Runs.files) in
  Runs.flaky 0 = Runs.unavailable
  /\ status_code (mkResponse 503 NotJson HAbsent []) >= 400
  /\ fst run = Ret (JStr "failed", Some (job_in "failed"))
  /\ requests_of (log (snd run))
     = [GetJob (JStr "j1"); GetJob (JStr "j1")]
  /\ ~ stops_at_http_error OcrConvert.poll.
Proof.
  cbv zeta. repeat split; try (vm_compute; congruence).
  intros H.
  destruct (H 1%nat (JStr "j1") (JStr "processing") None
              (boot Runs.flaky Runs.files)
              (mkResponse 503 NotJson HAbsent []))
    as (code & E & _).
  - reflexivity.
  - vm_compute. congruence.
  - vm_compute. congruence.
  - vm_compute in E. discriminate.
Qed.

Lemma waiting_not_final st :
  in_strs st waiting = true ->
  eq_str st "completed" = false /\ eq_str st "failed" = false.
Proof.
  destruct st as [| | |t| |]; cbn; try discriminate.
  intros H. rewrite !orb_true_iff in H.
  destruct H as [H|[H|[H|H]]]; try discriminate;
    apply String.eqb_eq in H; subst t; split; reflexivity.
Qed.

(** A job reported failed is told apart from a failed request by the line
    the result handler prints before the process exits. *)
Lemma handle_results_failed fetch advice fields s cancelled :
  exists s' rest,
    try_except
      (handle_results fetch advice (JStr "failed") (Some (JObj fields)))
      (handlers cancelled) s
    = (Exit 1, s')
    /\ log s' = (log s ++ Print "✗ Conversion failed" :: rest)%list.
Proof.
  unfold handle_results, try_except, bind, lift, print, printf, emit, exit,
    ret, get_opt, get, handlers.
  cbn.
  destruct (assoc "error" fields) as [err|]; cbn.
  - destruct (truthy err); cbn.
    + destruct err; cbn; eexists _, _; (split; [reflexivity|]); cbn;
        rewrite <- ?app_assoc; reflexivity.
    + eexists _, _; (split; [reflexivity|]); cbn; rewrite <- ?app_assoc;
        reflexivity.
  - eexists _, _; (split; [reflexivity|]); cbn; rewrite <- ?app_assoc;
      reflexivity.
Qed.

(** The result handler on a status still waiting: the timeout branch. *)
Lemma handle_results_waiting fetch advice st job_status s :
  in_strs st waiting = true ->
  handle_results fetch advice st job_status s
  = bind (print "✗ Timeout: Conversion is taking longer than expected")
         (fun _ => bind advice (fun _ => exit 1)) s.
Proof.
  intros Hw. destruct (waiting_not_final st Hw) as [Hc Hf].
  unfold handle_results. rewrite Hc, Hf. reflexivity.
Qed.

(** convert.py up to its monitoring loop: the key is set, the file is there
    and small enough, the submission is accepted with a status still
    waiting. *)
Lemma convert_file_reaches_poll cfg input_file target_format output
      server files data resp job job_id st :
  truthy_str (SimpleConvert.API_KEY cfg) = true ->
  files !! input_file = Some data ->
  Z.of_nat (length data) <= 52428800 ->
  server 0%nat = Response resp ->
  status_code resp < 400 ->
  payload resp = Json job ->
  index job "job_id" = Ret job_id ->
  get job "status" (JStr "processing") = Ret st ->
  in_strs st waiting = true ->
  SimpleConvert.convert_file cfg input_file target_format output
                             (boot server files)
  = try_except
      (bind (SimpleConvert.poll job_id st)
            (fun waited =>
               handle_results
                 (download (SimpleConvert.locked cfg) output (SimpleConvert.answer cfg)
                           (SimpleConvert.generated_name cfg))
                 (printf "Check status with: python job-management/check-status.py "
                         job_id)
                 (fst waited) (snd waited)))
      (handlers "✗ Conversion cancelled by user")
      (mkState server 1 [Request (PostConvert input_file target_format)] files).
Proof.
  intros Hkey Hfile Hsize Hsrv Hcode Hbody Hid Hst Hw.
  destruct (waiting_not_final st Hw) as [Hc _].
  unfold SimpleConvert.convert_file. rewrite Hkey. cbn [negb].
  unfold bind at 1, lookup_file at 1, boot. cbn [fs]. rewrite Hfile.
  assert ((Z.of_nat (length data) >? 50 * 1048576) = false) as -> by lia.
  unfold try_except, SimpleConvert.submit_and_wait.
  unfold bind at 1, http at 1. cbn [net sent log fs]. rewrite Hsrv.
  assert ((status_code resp >=? 400) = false) as -> by lia.
  unfold bind at 1, lift at 1, json_of. rewrite Hbody.
  unfold bind at 1, lift at 1. rewrite Hid.
  unfold bind at 1, lift at 1. rewrite Hst.
  rewrite Hc. unfold bind at 1, ret at 1.
  reflexivity.
Qed.

(** Waiting for [n] rounds on a job that stays waiting, then handling the
    result: the timeout branch, after exactly [n] rounds. *)
Lemma wait_times_out status_of n job_id st s fetch advice cancelled :
  in_strs st waiting = true ->
  (forall i, (i < n)%nat ->
     exists st' v, conveyed status_of (net s (sent s + i)) = Some (st', v)
                   /\ in_strs st' waiting = true) ->
  try_except
    (bind (monitor status_of n job_id st None)
          (fun waited => handle_results fetch advice (fst waited) (snd waited)))
    (handlers cancelled) s
  = try_except
      (bind (print "✗ Timeout: Conversion is taking longer than expected")
            (fun _ => bind advice (fun _ => exit 1)))
      (handlers cancelled) (advance_n n job_id s).
Proof.
  intros Hw Hall.
  destruct (monitor_times_out status_of job_id n st None s Hw Hall)
    as (st' & js' & E & Hw').
  unfold try_except at 1.
  rewrite (bind_step _ _ _ _ _ E). cbn [fst snd].
  rewrite (handle_results_waiting _ _ _ _ _ Hw'). reflexivity.
Qed.

(** Waiting and meeting an HTTP error at round [k], below the ceiling [n]:
    the wait ends there with [sys.exit(1)]. *)
Lemma wait_stops_at_http_error status_of n k job_id st s bad
      (rest : json * option json -> M unit) cancelled :
  (k < n)%nat ->
  in_strs st waiting = true ->
  (forall i, (i < k)%nat ->
     exists st' v, conveyed status_of (net s (sent s + i)) = Some (st', v)
                   /\ in_strs st' waiting = true) ->
  net s (sent s + k) = Response bad ->
  400 <= status_code bad ->
  try_except (bind (monitor status_of n job_id st None) rest)
             (handlers cancelled) s
  = (Exit 1,
     mkState (net s) (S (sent s + k))
             (log s ++ concat (replicate k [Sleep 2; Request (GetJob job_id)])
              ++ [Sleep 2; Request (GetJob job_id);
                  Print "✗ Failed to check status"])
             (fs s)).
Proof.
  intros Hk Hw Hall Hbad Hge.
  pose proof (monitor_aborts status_of job_id k n st None s bad
                Hk Hw Hall Hbad Hge) as E.
  rewrite (try_except_exit _ _ _ _ _ (bind_exit _ _ _ _ _ E)).
  rewrite advance_n_log. now rewrite <- app_assoc.
Qed.

(** convert.py facing a service that keeps the job waiting up to the
    ceiling: exactly 60 polls, each after a sleep, then the advisory lines
    and exit status 1. *)
Lemma convert_file_times_out cfg input_file target_format output
      server files data resp job job_id st :
  truthy_str (SimpleConvert.API_KEY cfg) = true ->
  files !! input_file = Some data ->
  Z.of_nat (length data) <= 52428800 ->
  server 0%nat = Response resp ->
  status_code resp < 400 ->
  payload resp = Json job ->
  index job "job_id" = Ret job_id ->
  get job "status" (JStr "processing") = Ret st ->
  in_strs st waiting = true ->
  (forall i, (i < SimpleConvert.max_attempts)%nat ->
     exists st' v,
       conveyed (fun d => get d "status" (JStr "processing")) (server (1 + i)%nat)
       = Some (st', v)
       /\ in_strs st' waiting = true) ->
  SimpleConvert.convert_file cfg input_file target_format output
                             (boot server files)
  = (Exit 1,
     mkState server (1 + SimpleConvert.max_attempts)
       (Request (PostConvert input_file target_format)
        :: concat (replicate SimpleConvert.max_attempts
                             [Sleep 2; Request (GetJob job_id)])
        ++ [Print "✗ Timeout: Conversion is taking longer than expected";
            PrintF "Check status with: python job-management/check-status.py "
                   job_id])
       files).
Proof.
  intros Hkey Hfile Hsize Hsrv Hcode Hbody Hid Hst Hw Hall.
  rewrite (convert_file_reaches_poll _ _ _ _ _ _ _ _ _ _ _
             Hkey Hfile Hsize Hsrv Hcode Hbody Hid Hst Hw).
  unfold SimpleConvert.poll.
  generalize dependent SimpleConvert.max_attempts. intros n Hall.
  rewrite wait_times_out by assumption.
  unfold try_except, bind, print, printf, emit, exit.
  cbn [fst snd log sent net fs].
  rewrite advance_n_log, advance_n_sent, advance_n_net, advance_n_fs.
  cbn [log sent net fs]. rewrite <- !app_assoc. reflexivity.
Qed.

(** convert.py meeting an HTTP error at its poll number [S k]: the wait
    ends there and the process exits 1. *)
Lemma convert_file_stops_at_http_error cfg input_file target_format output
      server files data resp job job_id st k bad :
  truthy_str (SimpleConvert.API_KEY cfg) = true ->
  files !! input_file = Some data ->
  Z.of_nat (length data) <= 52428800 ->
  server 0%nat = Response resp ->
  status_code resp < 400 ->
  payload resp = Json job ->
  index job "job_id" = Ret job_id ->
  get job "status" (JStr "processing") = Ret st ->
  in_strs st waiting = true ->
  (k < SimpleConvert.max_attempts)%nat ->
  (forall i, (i < k)%nat ->
     exists st' v,
       conveyed (fun d => get d "status" (JStr "processing")) (server (1 + i)%nat)
       = Some (st', v)
       /\ in_strs st' waiting = true) ->
  server (1 + k)%nat = Response bad ->
  400 <= status_code bad ->
  SimpleConvert.convert_file cfg input_file target_format output
                             (boot server files)
  = (Exit 1,
     mkState server (2 + k)
       (Request (PostConvert input_file target_format)
        :: concat (replicate k [Sleep 2; Request (GetJob job_id)])
        ++ [Sleep 2; Request (GetJob job_id);
            Print "✗ Failed to check status"])
       files).
Proof.
  intros Hkey Hfile Hsize Hsrv Hcode Hbody Hid Hst Hw Hk Hall Hbad Hge.
  rewrite (convert_file_reaches_poll _ _ _ _ _ _ _ _ _ _ _
             Hkey Hfile Hsize Hsrv Hcode Hbody Hid Hst Hw).
  unfold SimpleConvert.poll.
  generalize dependent SimpleConvert.max_attempts. intros n Hk.
  now rewrite (wait_stops_at_http_error _ n k job_id st _ bad).
Qed.

(** C2, amended.  In the loop of convert.py, convert-from-url.py and
    upload-large-file.py a job-status response of status 400 or more ends
    the wait at once: nothing more is slept or requested, the line
    "Failed to check status" is printed and the process exits 1, whereas a
    job reported failed is announced by the result handler under another
    line.  The OCR loop does not look at the HTTP status: it goes on with
    the status the body conveys, and keeps its own when the body does not
    decode. *)
Theorem http_error_stops_the_wait_except_ocr :
  (forall status_of, stops_at_http_error (monitor status_of))
  /\ (forall status_of n k job_id st s bad rest cancelled,
        (k < n)%nat ->
        in_strs st waiting = true ->
        (forall i, (i < k)%nat ->
           exists st' v,
             conveyed status_of (net s (sent s + i)) = Some (st', v)
             /\ in_strs st' waiting = true) ->
        net s (sent s + k) = Response bad ->
        400 <= status_code bad ->
        try_except (bind (monitor status_of n job_id st None) rest)
                   (handlers cancelled) s
        = (Exit 1,
           mkState (net s) (S (sent s + k))
             (log s ++ concat (replicate k [Sleep 2; Request (GetJob job_id)])
              ++ [Sleep 2; Request (GetJob job_id);
                  Print "✗ Failed to check status"])
             (fs s)))
  /\ (forall job_id status,
        SimpleConvert.poll job_id status
        = monitor (fun job_status => get job_status "status" (JStr "processing"))
                  60 job_id status None)
  /\ (forall job_id status,
        UrlConvert.poll job_id status
        = monitor (fun job_status => get job_status "status" (JStr "processing"))
                  90 job_id status None)
  /\ (forall job_id,
        ChunkedUpload.poll job_id
        = monitor (fun job_status => index job_status "status")
                  180 job_id (JStr "processing") None)
  /\ (forall cfg input_file target_format output server files data resp job
             job_id st k bad,
        truthy_str (SimpleConvert.API_KEY cfg) = true ->
        files !! input_file = Some data ->
        Z.of_nat (length data) <= 52428800 ->
        server 0%nat = Response resp ->
        status_code resp < 400 ->
        payload resp = Json job ->
        index job "job_id" = Ret job_id ->
        get job "status" (JStr "processing") = Ret st ->
        in_strs st waiting = true ->
        (k < 60)%nat ->
        (forall i, (i < k)%nat ->
           exists st' v,
             conveyed (fun d => get d "status" (JStr "processing"))
                      (server (1 + i)%nat)
             = Some (st', v)
             /\ in_strs st' waiting = true) ->
        server (1 + k)%nat = Response bad ->
        400 <= status_code bad ->
        SimpleConvert.convert_file cfg input_file target_format output
                                   (boot server files)
        = (Exit 1,
           mkState server (2 + k)
             (Request (PostConvert input_file target_format)
              :: concat (replicate k [Sleep 2; Request (GetJob job_id)])
              ++ [Sleep 2; Request (GetJob job_id);
                  Print "✗ Failed to check status"])
             files))
  /\ (forall fetch advice fields s cancelled,
        exists s' rest,
          try_except
            (handle_results fetch advice (JStr "failed") (Some (JObj fields)))
            (handlers cancelled) s
          = (Exit 1, s')
          /\ log s' = (log s ++ Print "✗ Conversion failed" :: rest)%list)
  /\ (forall n job_id status job_status s resp,
        in_strs status ["processing"; "queued"] = true ->
        net s (sent s) = Response resp ->
        OcrConvert.poll (S n) job_id status job_status s
        = OcrConvert.poll n job_id
            (fst (OcrConvert.absorb status job_status resp))
            (snd (OcrConvert.absorb status job_status resp))
            (advance job_id s))
  /\ (forall status job_status resp,
        payload resp = NotJson ->
        OcrConvert.absorb status job_status resp = (status, job_status)).
Proof.
  split; [exact monitor_stops_at_http_error|].
  split; [intros; eapply wait_stops_at_http_error; eassumption|].
  split; [reflexivity|].
  split; [reflexivity|].
  split; [reflexivity|].
  split; [intros; eapply convert_file_stops_at_http_error; eassumption|].
  split; [intros; apply handle_results_failed|].
  split; [intros; now apply ocr_poll_round|].
  intros status job_status resp H. unfold OcrConvert.absorb, json_of.
  now rewrite H.
Qed.

(** The hypotheses of C2's process-level part hold of a run of convert.py:
    the job is accepted, and the first job-status request is answered
    503. *)
Lemma http_error_stops_the_wait_witness :
  SimpleConvert.convert_file Runs.simple_config "scan.png" "txt" None
                             (boot Runs.rejected_poll Runs.files)
  = (Exit 1,
     mkState Runs.rejected_poll 2
       [Request (PostConvert "scan.png" "txt");
        Sleep 2; Request (GetJob (JStr "j1"));
        Print "✗ Failed to check status"]
       Runs.files).
Proof.
  pose proof http_error_stops_the_wait_except_ocr
    as (_ & _ & _ & _ & _ & H & _).
  apply (H Runs.simple_config "scan.png" "txt" None Runs.rejected_poll
           Runs.files [Byte.x89; Byte.x50]
           (mkResponse 202 (Json (JObj [("job_id", JStr "j1")])) HAbsent [])
           (JObj [("job_id", JStr "j1")]) (JStr "j1") (JStr "processing")
           0%nat (mkResponse 503 NotJson HAbsent []));
    try reflexivity; try (vm_compute; congruence); try lia.
Defined.

End Polling.

(** ** The chunked upload (claims C3, C4 and C5) *)

Section Chunking.
Import Py Proc Common Spec ChunkedUpload.

Lemma sent_chunks_app l1 l2 :
  sent_chunks (l1 ++ l2)%list = (sent_chunks l1 ++ sent_chunks l2)%list.
Proof.
  induction l1 as [|e l1 IH]; [reflexivity|].
  destruct e as [r| | |]; cbn [app sent_chunks]; try assumption.
  destruct r; cbn [app]; try assumption. now rewrite IH.
Qed.

Lemma requests_of_app l1 l2 :
  requests_of (l1 ++ l2)%list = (requests_of l1 ++ requests_of l2)%list.
Proof.
  induction l1 as [|e l1 IH]; [reflexivity|].
  destruct e; cbn [app requests_of]; try assumption. now rewrite IH.
Qed.

(** What the loop sends: chunk [i] is the [size] bytes found [i * size]
    bytes into the file, under index [first + i]. *)
Lemma chunk_posts_sent session_id count : forall first size unread,
  sent_chunks (chunk_posts session_id count first size unread)
  = map (fun i => ((first + i)%nat, take size (drop (i * size) unread)))
        (seq 0 count).
Proof.
  induction count as [|count IH]; intros first size unread; [reflexivity|].
  cbn [chunk_posts sent_chunks seq map]. rewrite IH.
  rewrite Nat.add_0_r. f_equal.
  rewrite <- seq_shift, map_map. apply map_ext. intros i.
  rewrite drop_drop.
  replace (S first + i)%nat with (first + S i)%nat by lia. reflexivity.
Qed.

Lemma chunk_posts_concat session_id count : forall first size unread,
  concat (map snd (sent_chunks (chunk_posts session_id count first size unread)))
  = take (count * size) unread.
Proof.
  induction count as [|count IH]; intros first size unread; [reflexivity|].
  cbn [chunk_posts sent_chunks map snd concat]. rewrite IH.
  rewrite take_take_drop. f_equal.
Qed.

Lemma chunk_posts_requests session_id count : forall first size unread,
  requests_of (chunk_posts session_id count first size unread)
  = map (fun i => PostChunk session_id (first + i)
                            (take size (drop (i * size) unread)))
        (seq 0 count).
Proof.
  induction count as [|count IH]; intros first size unread; [reflexivity|].
  cbn [chunk_posts requests_of seq map]. rewrite IH.
  rewrite Nat.add_0_r. f_equal.
  rewrite <- seq_shift, map_map. apply map_ext. intros i.
  rewrite drop_drop.
  replace (S first + i)%nat with (first + S i)%nat by lia. reflexivity.
Qed.

(** [file.read(size)] at a size one read can deliver: the next [size]
    bytes, or what is left of the file. *)
Lemma read_deliverable limit size unread :
  deliverable limit size ->
  read limit size unread
  = Ret (take (Z.to_nat size) unread, drop (Z.to_nat size) unread).
Proof.
  intros [[H0 Hl] Hs]. unfold read.
  assert ((size <? - 2 ^ 63) = false) as -> by lia.
  assert ((2 ^ 63 - 33 <=? size) = false) as -> by lia.
  assert ((size <? - 1) = false) as -> by lia.
  assert ((size =? - 1) = false) as -> by lia.
  assert ((limit <? size) = false) as -> by lia.
  reflexivity.
Qed.

(** At any other size that is not negative the read raises, whatever the
    file holds: [OverflowError] from 2^63 - 33 bytes on, [MemoryError]
    below. *)
Lemma read_refused limit size :
  0 <= size ->
  ~ deliverable limit size ->
  exists e,
    is_Exception e = true /\ forall unread, read limit size unread = Raise e.
Proof.
  intros H0 Hno. unfold read.
  assert ((size <? - 2 ^ 63) = false) as -> by lia.
  destruct (2 ^ 63 - 33 <=? size) eqn:Hbig.
  - exists OverflowError. split; reflexivity.
  - assert ((size <? - 1) = false) as -> by lia.
    assert ((size =? - 1) = false) as -> by lia.
    assert ((limit <? size) = true) as ->
      by (unfold deliverable in Hno; lia).
    exists MemoryError. split; reflexivity.
Qed.

(** Every chunk accepted: the loop sends them all, one request each. *)
Lemma upload_chunks_accepted limit session_id count :
  forall first size unread s,
  deliverable limit size ->
  accepted_run (net s) (sent s) count ->
  upload_chunks limit count first size session_id unread s
  = (Ret tt,
     mkState (net s) (sent s + count)
             (log s
              ++ chunk_posts session_id count first (Z.to_nat size) unread)
             (fs s)).
Proof.
  induction count as [|count IH]; intros first size unread s Hsize Hacc.
  - cbn. rewrite Nat.add_0_r, app_nil_r. now destruct s.
  - cbn [upload_chunks chunk_posts].
    destruct (Hacc 0%nat ltac:(lia)) as (resp & Hr & Hcode).
    rewrite Nat.add_0_r in Hr.
    unfold bind at 1, lift at 1. rewrite (read_deliverable _ _ _ Hsize).
    cbn [fst snd].
    unfold bind at 1, http at 1. rewrite Hr.
    assert ((status_code resp >=? 400) = false) as -> by lia.
    rewrite IH.
    + cbn [net sent log fs]. rewrite <- app_assoc. cbn [app].
      replace (S (sent s) + count)%nat with (sent s + S count)%nat by lia.
      reflexivity.
    + assumption.
    + intros i Hi. cbn [net sent].
      destruct (Hacc (S i) ltac:(lia)) as (r & Hr' & Hc').
      exists r. split; [|assumption]. rewrite <- Hr'. f_equal. lia.
Qed.

(** A chunk size no read can deliver: the first read raises, before any
    chunk goes up. *)
Lemma upload_chunks_unread limit session_id count first size unread s :
  0 <= size ->
  ~ deliverable limit size ->
  exists e,
    is_Exception e = true
    /\ upload_chunks limit (S count) first size session_id unread s
       = (Raise e, s).
Proof.
  intros H0 Hno. destruct (read_refused limit size H0 Hno) as (e & He & Hr).
  exists e. split; [assumption|].
  cbn [upload_chunks]. unfold bind at 1, lift at 1. now rewrite Hr.
Qed.

(** [math.ceil(file_size / chunk_size)] is the ceiling of the quotient
    when the file is within the limit of the script and the chunk size
    positive and below 2^1000. *)
Lemma ceil_div_spec file_size chunk_size :
  0 <= file_size <= size_limit ->
  0 < chunk_size < 2 ^ 1000 ->
  ceil_div file_size chunk_size = Ret (- (- file_size / chunk_size))
  /\ chunk_size * (- (- file_size / chunk_size) - 1) < file_size
     <= chunk_size * - (- file_size / chunk_size).
Proof.
  intros Hsize Hpos.
  destruct (ceil_div_small file_size chunk_size) as (t & Ht & _ & Heq).
  { unfold size_limit in Hsize. lia. }
  { lia. }
  rewrite Ht, (Heq Hpos). split; [reflexivity|].
  pose proof (Z.div_mod (- file_size) chunk_size ltac:(lia)) as Hdm.
  pose proof (Z.mod_pos_bound (- file_size) chunk_size ltac:(lia)) as Hb.
  nia.
Qed.

(** Whatever the chunk size, the division raises nothing but
    [ZeroDivisionError] on a file within the limit, and that only at
    size zero; a negative size gives no chunk. *)
Lemma ceil_div_total file_size chunk_size :
  0 <= file_size <= size_limit ->
  (chunk_size = 0
   /\ ceil_div file_size chunk_size = Raise ZeroDivisionError)
  \/ (chunk_size <> 0
      /\ exists total,
           ceil_div file_size chunk_size = Ret total
           /\ (chunk_size < 0 -> total <= 0)).
Proof.
  intros Hsize. destruct (Z.eq_dec chunk_size 0) as [->|Hne].
  - left. split; [reflexivity|]. unfold ceil_div, Float.true_divide.
    reflexivity.
  - right. split; [assumption|].
    destruct (ceil_div_small file_size chunk_size) as (t & Ht & Hneg & _).
    { unfold size_limit in Hsize. lia. }
    { assumption. }
    exists t. split; assumption.
Qed.

Lemma map_seq_lookup {A} (f : nat -> A) (n i : nat) (x : A) :
  map f (seq 0 n) !! i = Some x -> (i < n)%nat /\ x = f i.
Proof.
  change (map f (seq 0 n)) with (f <$> seq 0 n).
  rewrite list_lookup_fmap. intros H.
  destruct (seq 0 n !! i) as [j|] eqn:Hj; [|discriminate].
  apply lookup_seq in Hj as [-> Hlt]. cbn in H. injection H as <-.
  split; [assumption|reflexivity].
Qed.

(** The bodies of as many chunks as the ceiling of F / C counts, C bytes
    at a time: their concatenation is the file, every body but the last
    has C bytes, the last has F mod C bytes (C when C divides F), and the
    lengths sum up to F. *)
Lemma chunk_posts_cover session_id (data : list Byte.byte) C total first :
  0 < C ->
  C * (total - 1) < Z.of_nat (length data) <= C * total ->
  let F := Z.of_nat (length data) in
  let bodies :=
    map snd (sent_chunks (chunk_posts session_id (Z.to_nat total) first
                                      (Z.to_nat C) data)) in
  Z.of_nat (length bodies) = total
  /\ concat bodies = data
  /\ (forall i b,
        bodies !! i = Some b ->
        (S i < length bodies)%nat ->
        Z.of_nat (length b) = C)
  /\ (forall b,
        last bodies = Some b ->
        Z.of_nat (length b) = if F mod C =? 0 then C else F mod C)
  /\ Z.of_nat (list_sum (map length bodies)) = F.
Proof.
  intros HC [Hlo Hhi] F. cbv zeta.
  assert (0 <= total) as Htot by (subst F; nia).
  rewrite chunk_posts_sent, map_map. cbn [snd].
  set (n := Z.to_nat total). set (c := Z.to_nat C).
  set (body := fun i : nat => take c (drop (i * c) data)).
  assert (Z.of_nat n = total) as Hn by (subst n; lia).
  assert (Z.of_nat c = C) as Hc by (subst c; lia).
  assert (length (map body (seq 0 n)) = n) as Hlen
    by now rewrite length_map, length_seq.
  assert (length data <= n * c)%nat as Hcover by (subst F; nia).
  assert (concat (map body (seq 0 n)) = data) as Hcat.
  { pose proof (chunk_posts_concat session_id n 0 c data) as E.
    rewrite chunk_posts_sent, map_map in E. cbn [snd] in E.
    fold body in E. rewrite E. now apply take_ge. }
  split; [now rewrite Hlen|]. split; [assumption|].
  split; [|split].
  - intros i b Hb Hi. rewrite Hlen in Hi.
    apply map_seq_lookup in Hb as [_ ->]. unfold body.
    rewrite length_take, length_drop. subst F. nia.
  - intros b Hb. rewrite last_lookup, Hlen in Hb.
    apply map_seq_lookup in Hb as [Hlt ->]. unfold body.
    rewrite length_take, length_drop.
    assert (Z.of_nat (c `min` (length data - Nat.pred n * c))
            = F - C * (total - 1)) as -> by (subst F; nia).
    destruct (Z.eq_dec (F - C * (total - 1)) C) as [E|E].
    + assert (F mod C = 0) as ->.
      { replace F with (total * C) by lia. apply Z_mod_mult. }
      cbn. lia.
    + assert (F - C * (total - 1) = F mod C) as <-.
      { apply (Z.mod_unique_pos F C (total - 1)); lia. }
      assert ((F - C * (total - 1) =? 0) = false) as -> by lia.
      reflexivity.
  - rewrite <- length_concat, Hcat. reflexivity.
Qed.

End Chunking.

Section Aborting.
Import Py Proc Common Spec ChunkedUpload.

(** Lines 160-165 end the loop: no request is issued, and what comes out
    is [sys.exit(1)] or an exception raised while the error is read. *)
Lemma report_chunk_error_outcome chunk_index resp s :
  exists r s',
    report_chunk_error chunk_index resp s = (r, s')
    /\ (r = Exit 1 \/ exists e, r = Raise e /\ is_Exception e = true)
    /\ sent s' = sent s
    /\ net s' = net s
    /\ fs s' = fs s
    /\ requests_of (log s') = requests_of (log s).
Proof.
  unfold report_chunk_error, bind, printf, emit, lift, json_of, exit.
  cbn [net sent log fs].
  destruct (payload resp) as [v|]; cbn.
  - destruct v as [| | | | |fields]; cbn;
      try (eexists _, _; split; [reflexivity|];
           repeat split; try (right; eexists; split; reflexivity);
           cbn [log sent net fs]; rewrite ?requests_of_app; cbn [requests_of]; now rewrite ?app_nil_r).
    destruct (assoc "error" fields) as [err|]; cbn.
    + destruct err as [| | | | |efields]; cbn;
        try (eexists _, _; split; [reflexivity|];
             repeat split; try (right; eexists; split; reflexivity);
             cbn [log sent net fs]; rewrite ?requests_of_app; cbn [requests_of]; now rewrite ?app_nil_r).
      eexists _, _; split; [reflexivity|].
      repeat split; try (now left);
        cbn [log sent net fs]; rewrite ?requests_of_app; cbn [requests_of]; now rewrite ?app_nil_r.
    + eexists _, _; split; [reflexivity|].
      repeat split; try (now left);
        cbn [log sent net fs]; rewrite ?requests_of_app; cbn [requests_of]; now rewrite ?app_nil_r.
  - eexists _, _; split; [reflexivity|].
    repeat split; try (right; eexists; split; reflexivity);
      cbn [log sent net fs]; rewrite ?requests_of_app; cbn [requests_of]; now rewrite ?app_nil_r.
Qed.
Lemma chunk_posts_indices session_id count first size unread :
  map fst (sent_chunks (chunk_posts session_id count first size unread))
  = seq first count.
Proof.
  rewrite chunk_posts_sent, map_map. cbn [fst].
  revert first. induction count as [|count IH]; intros first; [reflexivity|].
  cbn [seq map]. rewrite Nat.add_0_r. f_equal.
  rewrite <- seq_shift, map_map, <- (IH (S first)). apply map_ext.
  intros i. lia.
Qed.

(** Whether a read raises depends on the size asked for and on the
    machine, not on what the file holds; a read never ends the process. *)
Lemma read_raises_alike limit size unread e :
  read limit size unread = Raise e ->
  is_Exception e = true /\ forall u, read limit size u = Raise e.
Proof.
  unfold read.
  destruct ((size <? - 2 ^ 63) || (2 ^ 63 - 33 <=? size));
    [intros [= <-]; split; reflexivity|].
  destruct (size <? - 1); [intros [= <-]; split; reflexivity|].
  destruct (size =? - 1); [discriminate|].
  destruct (limit <? size); [intros [= <-]; split; reflexivity|].
  discriminate.
Qed.

Lemma read_never_exits limit size unread code :
  read limit size unread <> Exit code.
Proof.
  unfold read.
  repeat match goal with
         | |- context [if ?b then _ else _] => destruct b
         end; discriminate.
Qed.

(** The chunk loop on any service and at any chunk size: it issues the
    uploads of the chunks 0, 1, ... in that order, one request each, up to
    and including the first one that is not accepted, and returns normally
    only when every chunk was accepted.  It ends otherwise at the refused
    chunk, or before the first chunk when the read raises. *)
Lemma upload_chunks_trace limit session_id count :
  forall first size unread s,
  exists j r s' bodies,
    upload_chunks limit count first size session_id unread s = (r, s')
    /\ (j <= count)%nat
    /\ length bodies = j
    /\ sent s' = (sent s + j)%nat
    /\ net s' = net s
    /\ fs s' = fs s
    /\ requests_of (log s')
       = (requests_of (log s)
          ++ imap (fun i body => PostChunk session_id (first + i) body)
                  bodies)%list
    /\ (deliverable limit size ->
        bodies
        = map (fun i => take (Z.to_nat size) (drop (i * Z.to_nat size) unread))
              (seq 0 j))
    /\ (r = Ret tt \/ r = Exit 1 \/ exists e, r = Raise e)
    /\ (r = Ret tt -> j = count /\ accepted_run (net s) (sent s) count)
    /\ (r <> Ret tt ->
        ((0 < j)%nat
         /\ accepted_run (net s) (sent s) (j - 1)
         /\ ~ accepts (net s (sent s + (j - 1))%nat))
        \/ (j = 0%nat
            /\ exists e,
                 r = Raise e
                 /\ is_Exception e = true
                 /\ forall u, read limit size u = Raise e)).
Proof.
  induction count as [|count IH]; intros first size unread s.
  - exists 0%nat, (Ret tt), s, []. cbn.
    rewrite Nat.add_0_r, app_nil_r.
    repeat split; try tauto; try lia.
    intros i Hi. lia.
  - cbn [upload_chunks]. unfold bind at 1, lift at 1.
    destruct (read limit size unread) as [chunk|code|e] eqn:Hread.
    2:{ now apply read_never_exits in Hread. }
    2:{ destruct (read_raises_alike _ _ _ _ Hread) as [He Hall].
        exists 0%nat, (Raise e), s, []. cbn [imap length].
        rewrite Nat.add_0_r, app_nil_r.
        repeat split; try lia; eauto; try discriminate.
        intros _. right. split; [reflexivity|]. eauto. }
    unfold bind at 1, http at 1.
    set (s1 := mkState (net s) (S (sent s))
                 (log s ++ [Request (PostChunk session_id first (fst chunk))])
                 (fs s)).
    assert (deliverable limit size ->
            chunk = (take (Z.to_nat size) unread,
                     drop (Z.to_nat size) unread)) as Hchunk.
    { intros Hd. rewrite (read_deliverable _ _ _ Hd) in Hread.
      now injection Hread as <-. }
    assert (forall e, ~ (forall u, read limit size u = Raise e)) as Hreads.
    { intros e Hall. rewrite Hall in Hread. discriminate. }
    destruct (net s (sent s)) as [resp| |] eqn:Hn.
    + destruct (status_code resp >=? 400) eqn:Hcode.
      * destruct (report_chunk_error_outcome first resp s1)
          as (r & s' & E & Hr & Hs & Hnet & Hfs & Hreq).
        exists 1%nat, r, s', [fst chunk]. rewrite E.
        split; [reflexivity|]. split; [lia|]. split; [reflexivity|].
        split; [rewrite Hs; cbn; lia|].
        split; [now rewrite Hnet|]. split; [now rewrite Hfs|].
        split.
        { rewrite Hreq. cbn [s1 log]. rewrite requests_of_app.
          cbn [requests_of imap]. now rewrite Nat.add_0_r. }
        split.
        { intros Hd. rewrite (Hchunk Hd). reflexivity. }
        split; [destruct Hr as [->|(e & -> & _)]; eauto|].
        split.
        { intros ->. destruct Hr as [?|(e & ? & _)]; discriminate. }
        intros _. left. split; [lia|]. split; [intros i Hi; lia|].
        cbn. rewrite Nat.add_0_r, Hn. intros (r' & [= <-] & Hlt). lia.
      * destruct (IH (S first) size (snd chunk) s1)
          as (j & r & s' & bodies & E & Hj & Hlen & Hs & Hnet & Hfs & Hreq
              & Hbodies & Hr & Hok & Hko).
        exists (S j), r, s', (fst chunk :: bodies). rewrite E.
        assert (accepts (net s (sent s))) as Hacc0
          by (rewrite Hn; exists resp; split; [reflexivity|lia]).
        split; [reflexivity|]. split; [lia|].
        split; [cbn [length]; now rewrite Hlen|].
        split; [rewrite Hs; cbn; lia|].
        split; [now rewrite Hnet|]. split; [now rewrite Hfs|].
        split.
        { rewrite Hreq. cbn [s1 log]. rewrite requests_of_app.
          cbn [requests_of imap]. rewrite <- app_assoc. cbn [app].
          rewrite Nat.add_0_r. do 2 f_equal. apply imap_ext.
          intros i body _. cbn. f_equal. lia. }
        split.
        { intros Hd. rewrite (Hbodies Hd), (Hchunk Hd). cbn [fst snd seq map].
          f_equal. rewrite <- seq_shift, map_map. apply map_ext. intros i.
          now rewrite drop_drop. }
        split; [assumption|].
        split.
        { intros Hret. destruct (Hok Hret) as [-> Hrun].
          split; [reflexivity|].
          intros [|i] Hi; [now rewrite Nat.add_0_r|].
          replace (sent s + S i)%nat with (sent s1 + i)%nat by (cbn; lia).
          apply Hrun. lia. }
        intros Hne. left.
        destruct (Hko Hne) as [(Hpos & Hrun & Hbad)|(_ & e & _ & _ & Hall)];
          [|now destruct (Hreads e)].
        split; [lia|]. split.
        { intros [|i] Hi; [now rewrite Nat.add_0_r|].
          replace (sent s + S i)%nat with (sent s1 + i)%nat by (cbn; lia).
          apply Hrun. lia. }
        replace (sent s + (S j - 1))%nat with (sent s1 + (j - 1))%nat
          by (cbn; lia).
        exact Hbad.
    + exists 1%nat, (Raise RequestException), s1, [fst chunk].
      split; [reflexivity|]. split; [lia|]. split; [reflexivity|].
      split; [cbn; lia|]. split; [reflexivity|]. split; [reflexivity|].
      split.
      { cbn [s1 log]. rewrite requests_of_app. cbn [requests_of imap].
        now rewrite Nat.add_0_r. }
      split; [intros Hd; rewrite (Hchunk Hd); reflexivity|].
      split; [eauto|]. split; [discriminate|].
      intros _. left. split; [lia|]. split; [intros i Hi; lia|].
      cbn. rewrite Nat.add_0_r, Hn. intros (r' & [=] & _).
    + exists 1%nat, (Raise KeyboardInterrupt), s1, [fst chunk].
      split; [reflexivity|]. split; [lia|]. split; [reflexivity|].
      split; [cbn; lia|]. split; [reflexivity|]. split; [reflexivity|].
      split.
      { cbn [s1 log]. rewrite requests_of_app. cbn [requests_of imap].
        now rewrite Nat.add_0_r. }
      split; [intros Hd; rewrite (Hchunk Hd); reflexivity|].
      split; [eauto|]. split; [discriminate|].
      intros _. left. split; [lia|]. split; [intros i Hi; lia|].
      cbn. rewrite Nat.add_0_r, Hn. intros (r' & [=] & _).
Qed.

(** The requests of the chunks a deliverable size cuts. *)
Lemma chunk_posts_requests_imap session_id j : forall first size unread,
  imap (fun i body => PostChunk session_id (first + i) body)
       (map (fun i => take size (drop (i * size) unread)) (seq 0 j))
  = requests_of (chunk_posts session_id j first size unread).
Proof.
  induction j as [|j IH]; intros first size unread; [reflexivity|].
  cbn [seq map imap chunk_posts requests_of].
  rewrite Nat.add_0_r. f_equal.
  rewrite <- IH, <- seq_shift, map_map.
  erewrite (map_ext _ (fun i => take size (drop (i * size) (drop size unread)))).
  - apply imap_ext. intros i body _. cbn. f_equal. lia.
  - intros i. now rewrite drop_drop.
Qed.

(** Leaving through the three [except] clauses: [sys.exit(1)] whatever was
    raised, one more line, no more request. *)
Lemma handlers_exit (m : M unit) cancelled (r : res unit) s s' :
  m s = (r, s') ->
  r = Exit 1 \/ (exists e, r = Raise e) ->
  exists s'',
    try_except m (handlers cancelled) s = (Exit 1, s'')
    /\ sent s'' = sent s'
    /\ net s'' = net s'
    /\ fs s'' = fs s'
    /\ requests_of (log s'') = requests_of (log s').
Proof.
  intros E [->|(e & ->)]; unfold try_except; rewrite E.
  - exists s'. repeat split.
  - destruct e; cbn [handlers]; unfold bind, print, emit, exit;
      cbn [net sent log fs]; eexists; (split; [reflexivity|]);
      cbn [net sent log fs]; rewrite requests_of_app; cbn [requests_of];
      now rewrite app_nil_r.
Qed.

Lemma bind_leaves {A B} (m : M A) (k : A -> M B) s s' (r : res A) :
  m s = (r, s') ->
  (r = Exit 1 \/ exists e, r = Raise e) ->
  exists r' : res B,
    bind m k s = (r', s') /\ (r' = Exit 1 \/ exists e, r' = Raise e).
Proof.
  intros E [->|(e & ->)]; unfold bind; rewrite E.
  - exists (Exit 1). split; [reflexivity|now left].
  - exists (Raise e). split; [reflexivity|right; now exists e].
Qed.

(** upload-large-file.py up to its [try]: key set, file found and within
    the limit, chunk size not zero. *)
Lemma upload_reaches_session cfg input_file target_format flag webhook
      server files data total :
  truthy_str (API_KEY cfg) = true ->
  files !! input_file = Some data ->
  Z.of_nat (length data) <= size_limit ->
  ceil_div (Z.of_nat (length data)) (chunk_size_mb_of flag * 1048576)
  = Ret total ->
  upload_large_file cfg input_file target_format flag webhook
                    (boot server files)
  = try_except
      (session cfg input_file target_format webhook data
               (chunk_size_mb_of flag * 1048576) total)
      (handlers "✗ Upload cancelled by user")
      (boot server files).
Proof.
  intros Hkey Hfile Hsize Hceil.
  unfold upload_large_file. rewrite Hkey. cbn [negb].
  unfold bind at 1, lookup_file at 1, boot at 1. cbn [fs]. rewrite Hfile.
  assert ((Z.of_nat (length data) >? size_limit) = false) as -> by lia.
  unfold upload_checked. rewrite Hceil. reflexivity.
Qed.

(** The session up to its chunk loop: the init request is answered by a
    session identifier. *)
Lemma session_reaches_chunks cfg filename target_format webhook data
      chunk_size total s resp opened session_id :
  net s (sent s) = Response resp ->
  status_code resp < 400 ->
  payload resp = Json opened ->
  index opened "session_id" = Ret session_id ->
  session cfg filename target_format webhook data chunk_size total s
  = bind (upload_chunks (buffer_limit cfg) (Z.to_nat total) 0 chunk_size
                        session_id data)
         (fun _ => finalize cfg webhook session_id)
         (mkState (net s) (S (sent s))
            (log s ++ [Request (PostUploadInit filename
                                  (Z.of_nat (length data)) total
                                  target_format)])
            (fs s)).
Proof.
  intros Hn Hcode Hbody Hid.
  unfold session. unfold bind at 1, http at 1. rewrite Hn.
  assert ((status_code resp >=? 400) = false) as -> by lia.
  unfold bind at 1, lift at 1, json_of. rewrite Hbody.
  unfold bind at 1, lift at 1. rewrite Hid.
  unfold bind at 1, lift at 1.
  destruct opened as [| | | | |fields]; try discriminate.
  reflexivity.
Qed.

(** The count is positive only at a positive chunk size. *)
Lemma chunks_counted_at_positive_size file_size chunk_size total :
  0 <= file_size <= size_limit ->
  ceil_div file_size chunk_size = Ret total ->
  0 < total ->
  0 < chunk_size.
Proof.
  intros Hsize Hceil Htotal.
  destruct (ceil_div_total file_size chunk_size Hsize)
    as [[_ E]|(Hne & t & E & Hneg)]; rewrite E in Hceil; [discriminate|].
  injection Hceil as ->.
  destruct (Z.lt_trichotomy chunk_size 0) as [H|[H|H]]; [|lia|assumption].
  specialize (Hneg H). lia.
Qed.

(** The first chunk answered by an HTTP error ends the whole run: exit
    status 1, and the requests issued are the init and the chunks up to
    the refused one, each once.  At a chunk size no read can deliver the
    run ends as well, after the init request alone. *)
Lemma upload_aborts_at_refused_chunk cfg input_file target_format flag
      webhook server files data total resp opened session_id j bad :
  truthy_str (API_KEY cfg) = true ->
  files !! input_file = Some data ->
  Z.of_nat (length data) <= size_limit ->
  ceil_div (Z.of_nat (length data)) (chunk_size_mb_of flag * 1048576)
  = Ret total ->
  server 0%nat = Response resp ->
  status_code resp < 400 ->
  payload resp = Json opened ->
  index opened "session_id" = Ret session_id ->
  (j < Z.to_nat total)%nat ->
  accepted_run server 1 j ->
  server (1 + j)%nat = Response bad ->
  400 <= status_code bad ->
  exists s',
    upload_large_file cfg input_file target_format flag webhook
                      (boot server files)
    = (Exit 1, s')
    /\ fs s' = files
    /\ (deliverable (buffer_limit cfg) (chunk_size_mb_of flag * 1048576) ->
        sent s' = (2 + j)%nat
        /\ requests_of (log s')
           = PostUploadInit input_file (Z.of_nat (length data)) total
                            target_format
             :: requests_of
                  (chunk_posts session_id (S j) 0
                     (Z.to_nat (chunk_size_mb_of flag * 1048576)) data))
    /\ (~ deliverable (buffer_limit cfg) (chunk_size_mb_of flag * 1048576) ->
        sent s' = 1%nat
        /\ requests_of (log s')
           = [PostUploadInit input_file (Z.of_nat (length data)) total
                             target_format]).
Proof.
  intros Hkey Hfile Hsize Hceil Hsrv Hcode Hbody Hid Hj Hrun Hbad Hge.
  rewrite (upload_reaches_session _ _ _ _ _ _ _ _ _ Hkey Hfile Hsize Hceil).
  set (C := chunk_size_mb_of flag * 1048576) in *.
  set (init := PostUploadInit input_file (Z.of_nat (length data)) total
                              target_format).
  set (s1 := mkState server 1 [Request init] files).
  assert (0 < C) as HC.
  { apply (chunks_counted_at_positive_size (Z.of_nat (length data)) C total);
      [lia|assumption|lia]. }
  destruct (upload_chunks_trace (buffer_limit cfg) session_id
                                (Z.to_nat total) 0 C data s1)
    as (j' & r & s' & bodies & E & Hle & Hlen & Hs & Hnet & Hfs & Hreq
        & Hbodies & Hr & Hok & Hko).
  assert (r <> Ret tt) as Hne.
  { intros Hret. destruct (Hok Hret) as [_ Hall].
    destruct (Hall j Hj) as (r' & Hr' & Hlt). cbn [s1 net sent] in Hr'.
    rewrite Hbad in Hr'. injection Hr' as <-. lia. }
  assert (r = Exit 1 \/ exists e, r = Raise e) as Hout
    by (destruct Hr as [?|?]; [contradiction|assumption]).
  destruct (bind_leaves _ (fun _ => finalize cfg webhook session_id)
              _ _ _ E Hout) as (r' & E' & Hout').
  assert (session cfg input_file target_format webhook data C total
                  (boot server files) = (r', s')) as Es.
  { rewrite (session_reaches_chunks _ _ _ _ _ _ _ _ resp opened session_id);
      assumption. }
  destruct (handlers_exit _ "✗ Upload cancelled by user" _ _ _ Es Hout')
    as (s'' & Ef & Hs'' & Hnet'' & Hfs'' & Hreq'').
  exists s''. split; [exact Ef|].
  split; [now rewrite Hfs'', Hfs|].
  split.
  - intros Hd.
    destruct (Hko Hne) as [(Hpos & Hacc & Hrej)|(_ & e & _ & _ & Hall)].
    2:{ specialize (Hall []). rewrite (read_deliverable _ _ _ Hd) in Hall.
        discriminate. }
    assert (j' = S j) as ->.
    { destruct (Nat.lt_trichotomy (j' - 1) j) as [Hlt|[Heq|Hgt]]; [|lia|].
      - exfalso. apply Hrej. cbn [s1 net sent]. now apply Hrun.
      - exfalso. destruct (Hacc j Hgt) as (r'' & Hr'' & Hlt).
        cbn [s1 net sent] in Hr''. rewrite Hbad in Hr''.
        injection Hr'' as <-. lia. }
    split; [rewrite Hs'', Hs; cbn; lia|].
    rewrite Hreq'', Hreq, (Hbodies Hd), chunk_posts_requests_imap.
    reflexivity.
  - intros Hno.
    destruct (upload_chunks_unread (buffer_limit cfg) session_id
                (Nat.pred (Z.to_nat total)) 0 C data s1 ltac:(lia) Hno)
      as (e & He & Eu).
    replace (S (Nat.pred (Z.to_nat total))) with (Z.to_nat total) in Eu
      by lia.
    rewrite Eu in E. injection E as <- <-.
    split; [rewrite Hs''; reflexivity|].
    rewrite Hreq''. reflexivity.
Qed.

(** C4.  On any service and at any chunk size the chunk loop issues the
    uploads of chunks 0, 1, 2, ... in that order, one request each, the
    next one only after the previous was answered with a status below 400;
    it returns normally only when all were, and ends otherwise at the
    first chunk not accepted or, when the read raises, before the first
    chunk; at a size one read can deliver the bodies are the successive
    slices of the file.  The finalize request is bound after the loop and
    so is issued only when the loop returned.  The first chunk answered
    with a status of 400 or more ends the run with exit status 1: the
    requests are the init and the chunks up to the refused one, which is
    not sent again, and nothing follows; at a chunk size no read can
    deliver, the run ends with exit status 1 after the init request
    alone. *)
Theorem chunks_go_up_in_order_until_refused :
  (forall limit session_id count first size unread s,
     exists j r s' bodies,
       upload_chunks limit count first size session_id unread s = (r, s')
       /\ (j <= count)%nat
       /\ length bodies = j
       /\ sent s' = (sent s + j)%nat
       /\ requests_of (log s')
          = (requests_of (log s)
             ++ imap (fun i body => PostChunk session_id (first + i) body)
                     bodies)%list
       /\ (deliverable limit size ->
           bodies
           = map (fun i =>
                    take (Z.to_nat size) (drop (i * Z.to_nat size) unread))
                 (seq 0 j))
       /\ (r = Ret tt -> j = count /\ accepted_run (net s) (sent s) count)
       /\ (r <> Ret tt ->
           ((0 < j)%nat
            /\ accepted_run (net s) (sent s) (j - 1)
            /\ ~ accepts (net s (sent s + (j - 1))%nat))
           \/ (j = 0%nat
               /\ exists e,
                    r = Raise e
                    /\ is_Exception e = true
                    /\ forall u, read limit size u = Raise e)))
  /\ (forall session_id count first size unread,
        map fst (sent_chunks (chunk_posts session_id count first size unread))
        = seq first count)
  /\ (forall cfg filename target_format webhook data chunk_size total s resp
             opened session_id,
        net s (sent s) = Response resp ->
        status_code resp < 400 ->
        payload resp = Json opened ->
        index opened "session_id" = Ret session_id ->
        session cfg filename target_format webhook data chunk_size total s
        = bind (upload_chunks (buffer_limit cfg) (Z.to_nat total) 0
                              chunk_size session_id data)
               (fun _ => finalize cfg webhook session_id)
               (mkState (net s) (S (sent s))
                  (log s ++ [Request (PostUploadInit filename
                                        (Z.of_nat (length data)) total
                                        target_format)])
                  (fs s)))
  /\ (forall cfg webhook session_id,
        exists after,
          forall s,
            finalize cfg webhook session_id s
            = bind (http (PostComplete session_id)) after
                   (mkState (net s) (sent s)
                      (log s ++ [Print "✓ All chunks uploaded successfully"])
                      (fs s)))
  /\ (forall cfg input_file target_format flag webhook server files data
             total resp opened session_id j bad,
        truthy_str (API_KEY cfg) = true ->
        files !! input_file = Some data ->
        Z.of_nat (length data) <= size_limit ->
        ceil_div (Z.of_nat (length data)) (chunk_size_mb_of flag * 1048576)
        = Ret total ->
        server 0%nat = Response resp ->
        status_code resp < 400 ->
        payload resp = Json opened ->
        index opened "session_id" = Ret session_id ->
        (j < Z.to_nat total)%nat ->
        accepted_run server 1 j ->
        server (1 + j)%nat = Response bad ->
        400 <= status_code bad ->
        exists s',
          upload_large_file cfg input_file target_format flag webhook
                            (boot server files)
          = (Exit 1, s')
          /\ fs s' = files
          /\ (deliverable (buffer_limit cfg)
                          (chunk_size_mb_of flag * 1048576) ->
              sent s' = (2 + j)%nat
              /\ requests_of (log s')
                 = PostUploadInit input_file (Z.of_nat (length data)) total
                                  target_format
                   :: requests_of
                        (chunk_posts session_id (S j) 0
                           (Z.to_nat (chunk_size_mb_of flag * 1048576))
                           data))
          /\ (~ deliverable (buffer_limit cfg)
                            (chunk_size_mb_of flag * 1048576) ->
              sent s' = 1%nat
              /\ requests_of (log s')
                 = [PostUploadInit input_file (Z.of_nat (length data)) total
                                   target_format])).
Proof.
  split.
  { intros limit session_id count first size unread s.
    destruct (upload_chunks_trace limit session_id count first size unread s)
      as (j & r & s' & bodies & E & Hle & Hlen & Hs & _ & _ & Hreq & Hbodies
          & _ & Hok & Hko).
    exists j, r, s', bodies. repeat split; try assumption;
      first [now apply Hok | idtac]. }
  split; [intros; apply chunk_posts_indices|].
  split; [intros; eapply session_reaches_chunks; eassumption|].
  split.
  { intros cfg webhook session_id. eexists. intros s. reflexivity. }
  intros. eapply upload_aborts_at_refused_chunk; eassumption.
Qed.

(** C5.  With the key set and the input file found, the size is the next
    thing looked at: a file of more than 2147483648 bytes makes the script
    print its error and exit 1 before any request, and a file of at most
    that many bytes goes on to the chunk computation and, the chunk size
    not being zero, to the init request. *)
Theorem size_limit_is_checked_before_any_request cfg input_file
        target_format flag webhook server files data :
  truthy_str (API_KEY cfg) = true ->
  files !! input_file = Some data ->
  size_limit = 2147483648
  /\ (size_limit < Z.of_nat (length data) ->
      upload_large_file cfg input_file target_format flag webhook
                        (boot server files)
      = (Exit 1,
         mkState server 0 [Print "Error: File size exceeds 2GB limit."]
                 files))
  /\ (Z.of_nat (length data) <= size_limit ->
      upload_large_file cfg input_file target_format flag webhook
                        (boot server files)
      = upload_checked cfg input_file target_format flag webhook data
                       (boot server files))
  /\ (Z.of_nat (length data) <= size_limit ->
      chunk_size_mb_of flag <> 0 ->
      exists total after,
        upload_large_file cfg input_file target_format flag webhook
                          (boot server files)
        = try_except
            (bind (http (PostUploadInit input_file (Z.of_nat (length data))
                                        total target_format))
                  after)
            (handlers "✗ Upload cancelled by user")
            (boot server files)).
Proof.
  intros Hkey Hfile. split; [reflexivity|].
  assert (forall b,
            (Z.of_nat (length data) >? size_limit) = b ->
            upload_large_file cfg input_file target_format flag webhook
                              (boot server files)
            = if b
              then (Exit 1,
                    mkState server 0
                            [Print "Error: File size exceeds 2GB limit."]
                            files)
              else upload_checked cfg input_file target_format flag webhook
                                  data (boot server files)) as Hrun.
  { intros b Hb. unfold upload_large_file. rewrite Hkey. cbn [negb].
    unfold bind at 1, lookup_file at 1, boot at 1. cbn [fs]. rewrite Hfile.
    rewrite Hb. destruct b; reflexivity. }
  split; [intros H; apply (Hrun true); lia|].
  split; [intros H; apply (Hrun false); lia|].
  intros Hle Hmb. rewrite (Hrun false) by lia.
  destruct (ceil_div_total (Z.of_nat (length data))
                           (chunk_size_mb_of flag * 1048576) ltac:(lia))
    as [[H0 _]|(_ & total & Hceil & _)]; [lia|].
  unfold upload_checked. rewrite Hceil.
  do 2 eexists. reflexivity.
Qed.

End Aborting.

Section UploadWitnesses.
Import Py Proc Common Spec ChunkedUpload.

(** The run of upload-large-file.py on a clip of 1 MiB and a byte with
    chunks of 1 MiB: the first chunk is taken, the second refused with a
    500. *)
Lemma chunks_go_up_in_order_witness :
  exists s',
    upload_large_file Runs.upload_config "long.mov" "mp4" (Flag (Some 1)) None
                      (boot Runs.refusing_second Runs.long_files)
    = (Exit 1, s')
    /\ fs s' = Runs.long_files
    /\ sent s' = 3%nat
    /\ requests_of (log s')
       = PostUploadInit "long.mov" 1048577 2 "mp4"
         :: requests_of (chunk_posts (JStr "s1") 2 0 (Z.to_nat 1048576)
                                     Runs.long_file).
Proof.
  pose proof chunks_go_up_in_order_until_refused as (_ & _ & _ & _ & H).
  assert (Z.of_nat (length Runs.long_file) = 1048577) as Hlen.
  { unfold Runs.long_file. rewrite length_replicate. lia. }
  destruct (H Runs.upload_config "long.mov" "mp4" (Flag (Some 1)) None
              Runs.refusing_second Runs.long_files Runs.long_file 2
              (mkResponse 200 (Json (JObj [("session_id", JStr "s1")]))
                          HAbsent [])
              (JObj [("session_id", JStr "s1")]) (JStr "s1") 1%nat
              (mkResponse 500 NotJson HAbsent []))
    as (s' & E & Hfs & Hsent & _).
  - reflexivity.
  - apply lookup_singleton_eq.
  - rewrite Hlen. unfold size_limit. lia.
  - rewrite Hlen. vm_compute. reflexivity.
  - reflexivity.
  - cbn. lia.
  - reflexivity.
  - reflexivity.
  - cbn. lia.
  - intros [|i] Hi; [|lia]. eexists. split; [reflexivity|]. cbn. lia.
  - reflexivity.
  - cbn. lia.
  - exists s'. split; [exact E|]. split; [exact Hfs|].
    destruct Hsent as [Hsent Hreq].
    + cbn. unfold deliverable. lia.
    + rewrite Hlen in Hreq. split; [exact Hsent|exact Hreq].
Defined.

(** A file one byte over the limit: refused before any request. *)
Lemma size_limit_witness :
  upload_large_file Runs.upload_config "big.bin" "mp4" NoFlag None
                    (boot Runs.refusing {[ "big.bin" := Runs.big_file ]})
  = (Exit 1,
     mkState Runs.refusing 0 [Print "Error: File size exceeds 2GB limit."]
             {[ "big.bin" := Runs.big_file ]}).
Proof.
  refine (proj1 (proj2 (size_limit_is_checked_before_any_request
                          Runs.upload_config "big.bin" "mp4" NoFlag None
                          Runs.refusing {[ "big.bin" := Runs.big_file ]}
                          Runs.big_file _ _)) _).
  - reflexivity.
  - apply lookup_singleton_eq.
  - unfold Runs.big_file. rewrite length_replicate.
    rewrite Z2Nat.id by lia. unfold size_limit. lia.
Defined.

End UploadWitnesses.

(** ** The webhook receiver (claims C6 and C7) *)

Section Signatures.
Import Py Digest.

(** The library model against published vectors: SHA-256 of [abc] (FIPS
    180-4) and HMAC-SHA256 of RFC 4231, test case 2. *)
Example sha256_abc :
  Sha256.hex (Sha256.sha256 (Sha256.numbers (list_byte_of_string "abc")))
  = "ba7816bf8f01cfea414140de5dae2223b00361a396177a9cb410ff61f20015ad".
Proof. vm_compute. reflexivity. Qed.

Example hmac_sha256_rfc4231_2 :
  Sha256.hmac_hexdigest (list_byte_of_string "Jefe")
                        (list_byte_of_string "what do ya want for nothing?")
  = "5bdcc146bf60754e6a042426089575c75a003f089d2739839dec58b964ec3843".
Proof. vm_compute. reflexivity. Qed.

Lemma accumulate_spec right : forall result steps left,
  length left = length right ->
  (fst (accumulate result steps left right) = 0%N
   <-> result = 0%N /\ left = right)
  /\ snd (accumulate result steps left right) = (steps + length right)%nat.
Proof.
  induction right as [|r right IH]; intros result steps left Hlen;
    destruct left as [|l left]; try discriminate.
  - cbn. split; [|lia]. split; [intros ->; now split|now intros [-> _]].
  - cbn [accumulate]. injection Hlen as Hlen.
    destruct (IH (N.lor result (N.lxor l r)) (S steps) left Hlen)
      as [Hiff Hsteps].
    split.
    + rewrite Hiff, N.lor_eq_0_iff. split.
      * intros [[-> Hx] ->]. apply N.lxor_eq in Hx. now subst.
      * intros [-> [= -> ->]]. now rewrite N.lxor_nilpotent.
    + rewrite Hsteps. cbn. lia.
Qed.

(** [_tscmp] decides equality, in as many loop iterations as the second
    argument is long, whatever the first argument is. *)
Lemma tscmp_spec a b :
  (fst (tscmp a b) = true <-> a = b)
  /\ snd (tscmp a b) = length b.
Proof.
  unfold tscmp. destruct (length a =? length b)%nat eqn:Hlen.
  - apply Nat.eqb_eq in Hlen.
    destruct (accumulate_spec b 0%N 0%nat a Hlen) as [Hiff Hsteps].
    cbn [fst snd]. split; [|exact Hsteps].
    rewrite N.eqb_eq, Hiff. tauto.
  - apply Nat.eqb_neq in Hlen.
    destruct (accumulate_spec b 1%N 0%nat b eq_refl) as [Hiff Hsteps].
    cbn [fst snd]. split; [|exact Hsteps].
    rewrite N.eqb_eq, Hiff. split.
    + intros [[=] _].
    + intros ->. contradiction.
Qed.

Lemma codes_inj a b : codes a = codes b -> a = b.
Proof.
  unfold codes. intros H.
  rewrite <- (string_of_list_ascii_of_string a),
          <- (string_of_list_ascii_of_string b).
  f_equal. revert H.
  generalize (list_ascii_of_string a) (list_ascii_of_string b).
  induction l as [|x l IH]; intros [|y l'] H; try discriminate;
    [reflexivity|].
  cbn in H. injection H as Hx Hl. f_equal; [|now apply IH].
  rewrite <- (ascii_N_embedding x), <- (ascii_N_embedding y).
  now rewrite Hx.
Qed.

Lemma hex_digit_is_ascii d :
  0 <= d < 16 -> (N_of_ascii (Sha256.hex_digit d) <? 128)%N = true.
Proof.
  intros H.
  assert (In d [0; 1; 2; 3; 4; 5; 6; 7; 8; 9; 10; 11; 12; 13; 14; 15]) as Hin
    by (cbn; lia).
  cbn in Hin. repeat (destruct Hin as [<-|Hin]; [reflexivity|]).
  contradiction.
Qed.

(** A hex digest is made of ASCII characters. *)
Lemma hex_is_ascii bytes : is_ascii (Sha256.hex bytes) = true.
Proof.
  unfold is_ascii, codes.
  induction bytes as [|b bytes IH]; [reflexivity|].
  cbn [Sha256.hex list_ascii_of_string map forallb].
  rewrite !hex_digit_is_ascii, IH; [reflexivity| |].
  - change 15 with (Z.ones 4). rewrite Z.land_ones by lia.
    apply Z.mod_pos_bound. lia.
  - change 15 with (Z.ones 4). rewrite Z.land_ones by lia.
    apply Z.mod_pos_bound. lia.
Qed.

(** [hmac.compare_digest] with a hex digest as first argument returns
    [True] exactly on that digest. *)
Lemma compare_digest_hex bytes signature :
  compare_digest (Sha256.hex bytes) signature = Ret true
  <-> signature = Sha256.hex bytes.
Proof.
  unfold compare_digest. rewrite hex_is_ascii. cbn [andb].
  destruct (tscmp_spec (codes (Sha256.hex bytes)) (codes signature))
    as [Hiff _].
  destruct (is_ascii signature) eqn:Hascii.
  - split.
    + intros [= H]. apply Hiff in H. now apply codes_inj in H.
    + intros ->. f_equal. now apply Hiff.
  - split; [discriminate|].
    intros ->. now rewrite hex_is_ascii in Hascii.
Qed.

End Signatures.

Section Webhook.
Import Py Digest WebhookReceiver.

(** C6.  With a secret configured, [verify_signature] returns [True]
    exactly when the signature it is given is the hex HMAC-SHA256 of the raw
    body under the secret; the comparison is [hmac.compare_digest], whose
    loop runs once per character of the supplied signature whatever the
    expected digest is.  With no secret configured it returns [True] for
    every body and signature, and the route does not look at the header. *)
Theorem signature_verifies_iff_hmac_matches secret payload signature :
  (secret <> "" ->
   (verify_signature secret payload signature = Ret true
    <-> signature
        = Sha256.hmac_hexdigest (list_byte_of_string secret) payload))
  /\ (secret <> "" ->
      verify_signature secret payload signature
      = compare_digest
          (Sha256.hmac_hexdigest (list_byte_of_string secret) payload)
          signature)
  /\ (forall expected supplied : list N,
        snd (tscmp expected supplied) = length supplied)
  /\ verify_signature "" payload signature = Ret true
  /\ (forall json_loads format header,
        handle "" json_loads format payload header
        = handle "" json_loads format payload None).
Proof.
  assert (secret <> "" ->
          verify_signature secret payload signature
          = compare_digest
              (Sha256.hmac_hexdigest (list_byte_of_string secret) payload)
              signature) as Hdef.
  { intros Hs. unfold verify_signature.
    destruct (String.eqb secret "") eqn:E; [|reflexivity].
    apply String.eqb_eq in E. contradiction. }
  split.
  { intros Hs. rewrite (Hdef Hs). apply compare_digest_hex. }
  split; [exact Hdef|].
  split; [intros; apply tscmp_spec|].
  split; reflexivity.
Qed.

(** The test vector of HMAC-SHA256 for the key [key]: the right digest
    verifies. *)
Lemma signature_verifies_witness :
  verify_signature
    "key"
    (list_byte_of_string "The quick brown fox jumps over the lazy dog")
    "f7bc83f430538424b13298e6aa6fb143ef4d59a14946175997479dbc2d1a3cd8"
  = Ret true.
Proof.
  apply (proj1 (signature_verifies_iff_hmac_matches "key" _ _)).
  - discriminate.
  - vm_compute. reflexivity.
Defined.

(** What [process_webhook_event] returns is a dict with the keys status,
    message and job_id. *)
Lemma process_webhook_event_keys format event_data result :
  process_webhook_event format event_data = Ret result ->
  exists status message job_id rest,
    result = JObj (("status", JStr status) :: ("message", JStr message)
                   :: ("job_id", job_id) :: rest).
Proof.
  unfold process_webhook_event.
  destruct event_data as [| | | | |fields]; try discriminate.
  cbn [get and_then].
  repeat match goal with
         | |- context [if ?c then _ else _] => destruct c
         | |- context [get ?d _ _] =>
             destruct d; cbn [get and_then]; try discriminate
         end;
    intros [= <-]; eauto 10.
Qed.

(** [process_webhook_event] raises nothing but the [AttributeError] of a
    [.get] on something that is no dict. *)
Lemma process_webhook_event_raises format event_data e :
  process_webhook_event format event_data = Raise e -> e = AttributeError.
Proof.
  unfold process_webhook_event.
  destruct event_data as [| | | | |fields]; cbn [get and_then];
    try (now intros [= <-]).
  repeat match goal with
         | |- context [if ?c then _ else _] => destruct c
         | |- context [get ?d _ _] =>
             destruct d; cbn [get and_then]; try (now intros [= <-])
         end;
    discriminate.
Qed.

(** The route once the signature is out of the way. *)
Lemma webhook_verified secret json_loads format raw header :
  secret = "" \/
  verify_signature secret raw
    (match header with Some v => v | None => "" end) = Ret true ->
  handle secret json_loads format raw header
  = match json_loads raw with
    | Raise JSONDecodeError => Ret (JObj [("error", JStr "Invalid JSON")], 400)
    | decoded =>
        and_then decoded (fun event_data =>
        and_then (process_webhook_event format event_data) (fun result =>
        Ret (result, 200)))
    end.
Proof.
  intros H. unfold handle.
  destruct (String.eqb secret "") eqn:E; cbn [negb and_then].
  - reflexivity.
  - destruct H as [Hs | Hv]; [subst; discriminate | now rewrite Hv].
Qed.

(** [hmac.compare_digest] against a hex digest: a verdict for a plain
    ASCII text, [TypeError] for any other. *)
Lemma compare_digest_outcome bytes signature :
  (is_ascii signature = true ->
   signature <> Sha256.hex bytes ->
   compare_digest (Sha256.hex bytes) signature = Ret false)
  /\ (is_ascii signature = false ->
      compare_digest (Sha256.hex bytes) signature = Raise TypeError).
Proof.
  split.
  - intros Ha Hne. pose proof (compare_digest_hex bytes signature) as Hiff.
    unfold compare_digest in *. rewrite hex_is_ascii, Ha in *. cbn [andb] in *.
    destruct (fst (tscmp (codes (Sha256.hex bytes)) (codes signature)));
      [|reflexivity].
    destruct Hne. now apply Hiff.
  - intros Ha. unfold compare_digest. rewrite Ha, andb_false_r. reflexivity.
Qed.

Lemma verify_signature_outcome secret raw signature :
  secret <> "" ->
  (signature = Sha256.hmac_hexdigest (list_byte_of_string secret) raw ->
   verify_signature secret raw signature = Ret true)
  /\ (is_ascii signature = true ->
      signature <> Sha256.hmac_hexdigest (list_byte_of_string secret) raw ->
      verify_signature secret raw signature = Ret false)
  /\ (is_ascii signature = false ->
      verify_signature secret raw signature = Raise TypeError).
Proof.
  intros Hs. unfold verify_signature.
  destruct (String.eqb secret "") eqn:E;
    [apply String.eqb_eq in E; contradiction|].
  split; [intros ->; now apply compare_digest_hex|].
  apply compare_digest_outcome.
Qed.




End Webhook.

(** ** The result handlers (claim C8) *)

Section Outcomes.
Import Py Proc Common Spec CheckStatus.

Lemma not_terminal_cases st :
  in_strs st terminal = false ->
  eq_str st "completed" = false
  /\ eq_str st "failed" = false
  /\ eq_str st "cancelled" = false.
Proof.
  unfold in_strs, terminal. cbn [existsb].
  rewrite !orb_false_iff. tauto.
Qed.

(** One iteration of the watch loop on a job not yet terminal: one request,
    at most a line, and the loop goes on. *)
Lemma watch_step_unsettled job_id previous_status s :
  unsettled (net s (sent s)) ->
  in_strs previous_status terminal = false ->
  exists previous_status' lines,
    watch_step job_id previous_status s
    = (Ret (Continue previous_status'),
       mkState (net s) (S (sent s))
               (log s ++ Request (GetJob job_id) :: lines) (fs s))
    /\ requests_of lines = []
    /\ in_strs previous_status' terminal = false.
Proof.
  intros (resp & job & st & Hn & Hcode & Hbody & Hst & Hterm) Hprev.
  destruct (not_terminal_cases st Hterm) as (Hc & Hf & Hx).
  unfold watch_step. unfold bind at 1, http at 1. rewrite Hn.
  assert ((status_code resp >=? 400) = false) as -> by lia.
  unfold bind at 1, lift at 1, json_of. rewrite Hbody.
  unfold bind at 1, lift at 1. rewrite Hst.
  rewrite Hc, Hf, Hx, Hterm.
  destruct (changed st previous_status);
    [destruct (eq_str st "queued"); [|destruct (eq_str st "processing")]|];
    unfold bind, print, emit, ret; cbn [net sent log fs];
    rewrite <- ?app_assoc; eexists _, _;
    (split; [reflexivity|]); split; try reflexivity; assumption.
Qed.

Lemma polls_no_requests lines : requests_of lines = [] -> polls lines = 0%nat.
Proof.
  induction lines as [|e lines IH]; [reflexivity|].
  destruct e; cbn [requests_of]; try discriminate; exact IH.
Qed.

(** The watch loop on a job that stays short of a terminal status: it uses
    up its attempts, one request each. *)
Lemma watch_loop_unsettled job_id n : forall attempts previous_status s,
  (forall i, (i < n)%nat -> unsettled (net s (sent s + i))) ->
  in_strs previous_status terminal = false ->
  exists s',
    watch_loop n attempts job_id previous_status s
    = (Ret (attempts + n)%nat, s')
    /\ sent s' = (sent s + n)%nat
    /\ net s' = net s
    /\ fs s' = fs s
    /\ polls (log s') = (polls (log s) + n)%nat.
Proof.
  induction n as [|n IH]; intros attempts previous_status s Hall Hprev.
  - exists s. cbn. rewrite !Nat.add_0_r. repeat split.
  - destruct (watch_step_unsettled job_id previous_status s)
      as (prev' & lines & E & Hreq & Hprev'); [|assumption|].
    { now rewrite <- (Nat.add_0_r (sent s)) at 1; apply Hall; lia. }
    cbn [watch_loop]. rewrite (bind_step _ _ _ _ _ E).
    unfold bind at 1, sleep at 1, emit at 1. cbn [net sent log fs].
    edestruct (IH (S attempts) prev') as (s' & E' & Hs & Hnet & Hfs & Hp);
      [|exact Hprev'|].
    2:{ rewrite E'. exists s'. split; [f_equal; f_equal; lia|].
        cbn [sent net fs log] in *. repeat split; try assumption; try lia.
        rewrite Hp, !polls_app.
        change (Request (GetJob job_id) :: lines)
          with ([Request (GetJob job_id)] ++ lines)%list.
        rewrite polls_app, (polls_no_requests _ Hreq). cbn. lia. }
    intros i Hi. cbn [net sent].
    replace (S (sent s) + i)%nat with (sent s + S i)%nat by lia.
    apply Hall. lia.
Qed.

(** One iteration of the watch loop that learns of the cancellation:
    one line and [sys.exit(0)]. *)
Lemma watch_step_cancelled job_id previous_status s :
  tells_cancelled (net s (sent s)) ->
  in_strs previous_status terminal = false ->
  watch_step job_id previous_status s
  = (Exit 0,
     mkState (net s) (S (sent s))
             (log s ++ [Request (GetJob job_id); Print "⚠️  Job cancelled"])
             (fs s)).
Proof.
  intros (resp & job & Hn & Hcode & Hbody & Hst) Hprev.
  unfold watch_step. unfold bind at 1, http at 1. rewrite Hn.
  assert ((status_code resp >=? 400) = false) as -> by lia.
  unfold bind at 1, lift at 1, json_of. rewrite Hbody.
  unfold bind at 1, lift at 1. rewrite Hst.
  assert (changed (JStr "cancelled") previous_status = true) as ->.
  { destruct previous_status as [| | |p| |]; try reflexivity.
    unfold changed. destruct (String.eqb "cancelled" p) eqn:E; [|reflexivity].
    apply String.eqb_eq in E. subst p. vm_compute in Hprev. discriminate. }
  cbn [eq_str String.eqb Ascii.eqb Bool.eqb].
  unfold bind, print, emit, exit. cbn [net sent log fs].
  now rewrite <- app_assoc.
Qed.

(** The watch loop that finds the job cancelled at its poll number [S k]. *)
Lemma watch_loop_cancelled job_id k : forall n attempts previous_status s,
  (k < n)%nat ->
  (forall i, (i < k)%nat -> unsettled (net s (sent s + i))) ->
  tells_cancelled (net s (sent s + k)) ->
  in_strs previous_status terminal = false ->
  exists s',
    watch_loop n attempts job_id previous_status s = (Exit 0, s')
    /\ sent s' = (sent s + S k)%nat
    /\ fs s' = fs s
    /\ last (log s') = Some (Print "⚠️  Job cancelled").
Proof.
  induction k as [|k IH]; intros n attempts previous_status s Hk Hall Hc Hprev;
    (destruct n as [|n]; [lia|]); cbn [watch_loop].
  - rewrite Nat.add_0_r in Hc.
    rewrite (bind_exit _ _ _ _ _ (watch_step_cancelled _ _ _ Hc Hprev)).
    eexists. split; [reflexivity|]. cbn [sent fs log].
    repeat split; [lia|]. now rewrite last_app.
  - destruct (watch_step_unsettled job_id previous_status s)
      as (prev' & lines & E & Hreq & Hprev'); [|assumption|].
    { now rewrite <- (Nat.add_0_r (sent s)) at 1; apply Hall; lia. }
    rewrite (bind_step _ _ _ _ _ E).
    unfold bind at 1, sleep at 1, emit at 1. cbn [net sent log fs].
    edestruct (IH n (S attempts) prev') as (s' & E' & Hs & Hfs & Hlast);
      [| | |exact Hprev'|].
    4:{ rewrite E'. exists s'. cbn [sent fs] in *.
        repeat split; try assumption. lia. }
    + lia.
    + intros i Hi. cbn [net sent].
      replace (S (sent s) + i)%nat with (sent s + S i)%nat by lia.
      apply Hall. lia.
    + cbn [net sent].
      now replace (S (sent s) + k)%nat with (sent s + S k)%nat by lia.
Qed.

(** check-status.py --watch up to its loop. *)
Lemma check_status_watches key job_id s :
  truthy_str key = true ->
  check_status key job_id true s
  = try_except (watch (JStr job_id))
               (handlers "✗ Operation cancelled by user") s.
Proof. intros Hkey. unfold check_status. now rewrite Hkey. Qed.

(** The watch flow on a job found cancelled at poll [S k]: exit status 0
    after the line saying so. *)
Lemma check_status_cancelled key job_id server files k :
  truthy_str key = true ->
  (k < max_attempts)%nat ->
  (forall i, (i < k)%nat -> unsettled (server i)) ->
  tells_cancelled (server k) ->
  exists s',
    check_status key job_id true (boot server files) = (Exit 0, s')
    /\ sent s' = S k
    /\ fs s' = files
    /\ last (log s') = Some (Print "⚠️  Job cancelled").
Proof.
  intros Hkey Hk Hall Hc. rewrite check_status_watches by assumption.
  unfold watch. generalize dependent max_attempts. intros n Hk.
  destruct (watch_loop_cancelled (JStr job_id) k n 0%nat JNull
              (boot server files) Hk Hall Hc eq_refl)
    as (s' & E & Hs & Hfs & Hlast).
  exists s'.
  rewrite (try_except_exit _ _ _ _ _ (bind_exit _ _ _ _ _ E)).
  repeat split; assumption.
Qed.

(** The watch flow on a job that is not terminal at any of its polls: the
    advisory lines, and the process ends normally, with status 0. *)
Lemma check_status_watch_times_out key job_id server files :
  truthy_str key = true ->
  (forall i, (i < max_attempts)%nat -> unsettled (server i)) ->
  exists s' before,
    check_status key job_id true (boot server files) = (Ret tt, s')
    /\ sent s' = max_attempts
    /\ polls (log s') = max_attempts
    /\ log s'
       = (before
          ++ [Print "⚠️  Timeout: Job is taking longer than expected";
              Print "The job may still be processing. Check again later."])%list.
Proof.
  intros Hkey Hall. rewrite check_status_watches by assumption.
  unfold watch. generalize dependent max_attempts. intros n Hall.
  destruct (watch_loop_unsettled (JStr job_id) n 0%nat JNull
              (boot server files) Hall eq_refl)
    as (s' & E & Hs & Hnet & Hfs & Hp).
  unfold try_except. rewrite (bind_step _ _ _ _ _ E).
  cbn [Nat.add]. rewrite Nat.leb_refl.
  unfold bind, print, emit. cbn [net sent log fs].
  eexists _, (log s'). split; [reflexivity|]. cbn [sent log].
  split; [exact Hs|]. split.
  - rewrite !polls_app, Hp. cbn. lia.
  - now rewrite <- app_assoc.
Qed.

(** In convert.py a job found cancelled falls into the last branch of the
    result handler: the timeout line, and exit status 1. *)
Lemma convert_file_takes_cancelled_for_timeout :
  let run := SimpleConvert.convert_file Runs.simple_config "scan.png" "pdf"
               None (boot Runs.cancelled_service Runs.files) in
  fst run = Exit 1
  /\ log (snd run)
     = [Request (PostConvert "scan.png" "pdf");
        Sleep 2;
        Request (GetJob (JStr "j1"));
        Print "✗ Timeout: Conversion is taking longer than expected";
        PrintF "Check status with: python job-management/check-status.py "
               (JStr "j1")].
Proof. vm_compute. split; reflexivity. Qed.

(** The exit statuses in general.  In the watch flow of check-status.py
    a job found cancelled ends the process with an informational line and
    exit status 0, and the ceiling reached on a job still not terminal
    prints the advisory lines and lets the process end with status 0.  In
    convert.py the ceiling reached on a job still waiting prints the
    timeout advisory and the process exits 1. *)
Theorem exit_status_follows_the_outcome :
  (forall key job_id server files k,
     truthy_str key = true ->
     (k < max_attempts)%nat ->
     (forall i, (i < k)%nat -> unsettled (server i)) ->
     tells_cancelled (server k) ->
     exists s',
       check_status key job_id true (boot server files) = (Exit 0, s')
       /\ exit_status (@Exit unit 0) = 0
       /\ sent s' = S k
       /\ last (log s') = Some (Print "⚠️  Job cancelled"))
  /\ (forall key job_id server files,
        truthy_str key = true ->
        (forall i, (i < max_attempts)%nat -> unsettled (server i)) ->
        exists s' before,
          check_status key job_id true (boot server files) = (Ret tt, s')
          /\ exit_status (Ret tt) = 0
          /\ polls (log s') = max_attempts
          /\ log s'
             = (before
                ++ [Print "⚠️  Timeout: Job is taking longer than expected";
                    Print "The job may still be processing. Check again later."])%list)
  /\ (forall cfg input_file target_format output server files data resp job
             job_id st,
        truthy_str (SimpleConvert.API_KEY cfg) = true ->
        files !! input_file = Some data ->
        Z.of_nat (length data) <= 52428800 ->
        server 0%nat = Response resp ->
        status_code resp < 400 ->
        payload resp = Json job ->
        index job "job_id" = Ret job_id ->
        get job "status" (JStr "processing") = Ret st ->
        in_strs st waiting = true ->
        (forall i, (i < SimpleConvert.max_attempts)%nat ->
           exists st' v,
             conveyed (fun d => get d "status" (JStr "processing"))
                      (server (1 + i)%nat)
             = Some (st', v)
             /\ in_strs st' waiting = true) ->
        exists s',
          SimpleConvert.convert_file cfg input_file target_format output
                                     (boot server files)
          = (Exit 1, s')
          /\ exit_status (@Exit unit 1) = 1
          /\ polls (log s') = SimpleConvert.max_attempts
          /\ drop (1 + 2 * SimpleConvert.max_attempts) (log s')
             = [Print "✗ Timeout: Conversion is taking longer than expected";
                PrintF "Check status with: python job-management/check-status.py "
                       job_id]).
Proof.
  split.
  { intros key job_id server files k Hkey Hk Hall Hc.
    destruct (check_status_cancelled key job_id server files k
                Hkey Hk Hall Hc) as (s' & E & Hs & _ & Hlast).
    exists s'. repeat split; assumption. }
  split.
  { intros key job_id server files Hkey Hall.
    destruct (check_status_watch_times_out key job_id server files Hkey Hall)
      as (s' & before & E & _ & Hp & Hlog).
    exists s', before. repeat split; assumption. }
  intros cfg input_file target_format output server files data resp job
         job_id st Hkey Hfile Hsize Hsrv Hcode Hbody Hid Hst Hw Hall.
  eexists. split.
  { eapply convert_file_times_out; eassumption. }
  cbn [log]. split; [reflexivity|].
  generalize SimpleConvert.max_attempts. intros n. split.
  - change (Request (PostConvert input_file target_format)
            :: concat (replicate n [Sleep 2; Request (GetJob job_id)]) ++ ?x)
      with ([Request (PostConvert input_file target_format)]
            ++ concat (replicate n [Sleep 2; Request (GetJob job_id)]) ++ x)%list.
    rewrite !polls_app, polls_rounds. cbn. lia.
  - change (Request (PostConvert input_file target_format)
            :: concat (replicate n [Sleep 2; Request (GetJob job_id)]) ++ ?x)
      with ((Request (PostConvert input_file target_format)
            :: concat (replicate n [Sleep 2; Request (GetJob job_id)])) ++ x)%list.
    apply drop_app_length'. cbn [length].
    assert (length (concat (replicate n [Sleep 2; Request (GetJob job_id)]))
            = (2 * n)%nat) as ->; [|lia].
    induction n as [|n IH]; [reflexivity|].
    cbn [replicate concat]. rewrite length_app, IH. cbn. lia.
Qed.

(** The watch flow finding the job cancelled at its first poll. *)
Lemma exit_status_follows_the_outcome_witness :
  exists s',
    check_status (Some "key") "j1" true
                 (boot (fun _ => ok (job_in "cancelled")) ∅)
    = (Exit 0, s')
    /\ exit_status (@Exit unit 0) = 0
    /\ sent s' = 1%nat
    /\ last (log s') = Some (Print "⚠️  Job cancelled").
Proof.
  apply (proj1 exit_status_follows_the_outcome (Some "key") "j1"
               (fun _ => ok (job_in "cancelled")) ∅ 0%nat).
  - reflexivity.
  - unfold max_attempts. lia.
  - intros i Hi. lia.
  - do 2 eexists. repeat split; try reflexivity; cbn; lia.
Defined.

(** C8, at its failing input.  check-status.py --watch on a job that is
    processing at each of the 300 polls: the advisory is printed and the
    process ends normally, with exit status 0, where the claim has a
    non-zero exit.  convert.py, convert-from-url.py, upload-large-file.py
    and ocr-image-to-text.py, on a job processing up to their ceilings of
    60, 90, 180 and 150 polls, print their timeout advisory and exit 1.
    A job the watch flow finds cancelled ends it with a line saying so and
    exit status 0. *)
Theorem watch_flow_ends_with_status_0_at_its_ceiling :
  let run := check_status (Some "key") "j1" true
                          (boot Runs.always_processing ∅) in
  let convert :=
    SimpleConvert.convert_file Runs.simple_config "scan.png" "pdf" None
                               (boot Runs.always_busy Runs.files) in
  let from_url :=
    UrlConvert.convert_from_url Runs.url_config "https://example.com/scan.png"
                                "pdf" None None (boot Runs.always_busy ∅) in
  let upload :=
    ChunkedUpload.upload_large_file Runs.upload_config "clip.mov" "mp4"
                                    ChunkedUpload.NoFlag None
                                    (boot Runs.upload_busy Runs.upload_files) in
  let ocr :=
    OcrConvert.main Runs.ocr_config "scan.png" "eng"
                    (boot Runs.always_busy Runs.files) in
  let cancelled :=
    check_status (Some "key") "j1" true
                 (boot (fun _ => ok (job_in "cancelled")) ∅) in
  in_strs (JStr "processing") terminal = false
  /\ (polls (log (snd run)) = max_attempts
      /\ max_attempts = 300%nat
      /\ drop 601 (log (snd run))
         = [Print "⚠️  Timeout: Job is taking longer than expected";
            Print "The job may still be processing. Check again later."]
      /\ fst run = Ret tt
      /\ exit_status (fst run) = 0)
  /\ (polls (log (snd convert)) = SimpleConvert.max_attempts
      /\ drop 121 (log (snd convert))
         = [Print "✗ Timeout: Conversion is taking longer than expected";
            PrintF "Check status with: python job-management/check-status.py "
                   (JStr "j1")]
      /\ exit_status (fst convert) = 1)
  /\ (polls (log (snd from_url)) = UrlConvert.max_attempts
      /\ drop 181 (log (snd from_url))
         = [Print "✗ Timeout: Conversion is taking longer than expected";
            Print "URL downloads may take more time for large files.";
            PrintF "Check status with: python job-management/check-status.py "
                   (JStr "j1")]
      /\ exit_status (fst from_url) = 1)
  /\ (polls (log (snd upload)) = ChunkedUpload.max_attempts
      /\ drop 365 (log (snd upload))
         = [Print "✗ Timeout: Conversion is taking longer than expected";
            Print "Large files may take more time to process.";
            PrintF "Check status later with: python job-management/check-status.py "
                   (JStr "j1")]
      /\ exit_status (fst upload) = 1)
  /\ (polls (log (snd ocr)) = OcrConvert.max_attempts
      /\ take 1 (drop 301 (log (snd ocr)))
         = [Print "[ERROR] Timeout: OCR is taking longer than expected"]
      /\ exit_status (fst ocr) = 1)
  /\ (log (snd cancelled)
      = [Request (GetJob (JStr "j1")); Print "⚠️  Job cancelled"]
      /\ exit_status (fst cancelled) = 0).
Proof. vm_compute. repeat split; reflexivity. Qed.

End Outcomes.

(** ** Downloads (claims C9 and C10) *)

Section Downloads.
Import Py Proc Common Spec.

(** Streaming chunks into the open file until Ctrl-C: the chunks that came
    before the interrupt are in the file when [KeyboardInterrupt] is
    raised. *)
Lemma save_stream_cut path chunks rest : forall s old,
  fs s !! path = Some old ->
  exists s',
    save_stream path (map Data chunks ++ Sigint :: rest) s
    = (Raise KeyboardInterrupt, s')
    /\ fs s' !! path = Some (old ++ concat chunks)%list
    /\ sent s' = sent s
    /\ log s' = log s
    /\ net s' = net s.
Proof.
  induction chunks as [|chunk chunks IH]; intros s old Hold.
  - exists s. cbn. rewrite app_nil_r. repeat split. assumption.
  - cbn [map app save_stream concat].
    destruct chunk as [|b chunk].
    + unfold bind at 1, ret at 1. cbn [app]. now apply IH.
    + unfold bind at 1, write at 1.
      edestruct (IH (mkState (net s) (sent s) (log s)
                       (alter (fun old0 => (old0 ++ b :: chunk)%list) path
                              (fs s))))
        as (s' & E & Hfs & Hs & Hl & Hn).
      { cbn [fs]. rewrite lookup_alter_eq, Hold. reflexivity. }
      exists s'. rewrite E. rewrite <- app_assoc in Hfs.
      repeat split; assumption.
Qed.

(** A stream that arrives whole: the file grows by the chunks, in order;
    empty chunks leave no trace. *)
Lemma save_stream_whole path chunks : forall s old,
  fs s !! path = Some old ->
  save_stream path (map Data chunks) s
  = (Ret tt,
     mkState (net s) (sent s) (log s)
             (<[path := (old ++ concat chunks)%list]> (fs s))).
Proof.
  induction chunks as [|chunk chunks IH]; intros s old Hold.
  - cbn. rewrite app_nil_r, insert_id by assumption. now destruct s.
  - cbn [map save_stream concat].
    destruct chunk as [|b chunk].
    + unfold bind at 1, ret at 1. cbn [app]. now apply IH.
    + unfold bind at 1, write at 1.
      erewrite IH.
      2:{ cbn [fs]. rewrite lookup_alter_eq, Hold. reflexivity. }
      cbn [net sent log fs]. f_equal. f_equal.
      rewrite <- app_assoc.
      rewrite <- (insert_id (fs s) path old) at 1 by assumption.
      now rewrite alter_insert_eq, insert_insert_eq.
Qed.

Lemma truthy_path path : path <> "" -> truthy_str (Some path) = true.
Proof. intros H. cbn. now destruct (String.eqb_spec path ""). Qed.

(** download-result.py, its download cut by Ctrl-C: the handler removes
    the file, whatever had been written. *)
Lemma download_result_removes_partial_file locked path result s url resp
      chunks rest size :
  path <> "" ->
  locked path = false ->
  get result "download_url" (JStr "") = Ret url ->
  truthy url = true ->
  net s (sent s) = Response resp ->
  status_code resp = 200 ->
  total_size_of resp = Ret size ->
  Float.int_too_large size = false ->
  content resp = (map Data chunks ++ Sigint :: rest)%list ->
  exists s',
    try_except (DownloadResult.fetch locked path result)
               (DownloadResult.handlers locked (Some path)) s
    = (Exit 1, s')
    /\ fs s' !! path = None.
Proof.
  intros Hpath Hfree Hurl Htruthy Hn Hcode Hsize Hfloat Hcontent.
  unfold DownloadResult.fetch, try_except.
  unfold bind at 1, lift at 1. rewrite Hurl, Htruthy. cbn [negb].
  unfold bind at 1, http at 1. rewrite Hn, Hcode. cbn [Z.eqb Pos.eqb negb].
  unfold bind at 1, lift at 1. rewrite Hsize.
  unfold bind at 1, open_wb at 1. rewrite Hfree. cbn [net sent log fs].
  unfold bind at 1, lift at 1, progress_bar. rewrite Hfloat.
  rewrite Hcontent.
  edestruct (save_stream_cut path chunks rest) as (s' & E & Hfs & _).
  2:{ rewrite (bind_raise _ _ _ _ _ E).
      unfold DownloadResult.handlers, DownloadResult.interrupted.
      rewrite (truthy_path _ Hpath).
      unfold bind at 1, print at 1, emit at 1.
      unfold bind at 1. unfold bind at 1, lookup_file at 1. cbn [fs].
      rewrite Hfs.
      unfold bind, unlink, print, emit, exit. cbn [net sent log fs].
      rewrite Hfree, Hfs.
      eexists. split; [reflexivity|]. cbn [fs]. apply lookup_delete_eq. }
  cbn [fs]. apply lookup_insert_eq.
Qed.

(** convert.py and convert-from-url.py, their download cut by Ctrl-C: the
    handler prints its line and exits, and what had been written stays on
    disk. *)
Lemma conversion_download_keeps_partial_file locked path answer
      generated_name result s url resp chunks rest size cancelled :
  path <> "" ->
  locked path = false ->
  index result "download_url" = Ret url ->
  net s (sent s) = Response resp ->
  status_code resp = 200 ->
  total_size_of resp = Ret size ->
  content resp = (map Data chunks ++ Sigint :: rest)%list ->
  exists s',
    try_except (download locked (Some path) answer generated_name result)
               (handlers cancelled) s
    = (Exit 1, s')
    /\ fs s' !! path = Some (concat chunks).
Proof.
  intros Hpath Hfree Hurl Hn Hcode Hsize Hcontent.
  unfold download, try_except.
  rewrite !(truthy_path _ Hpath).
  unfold bind at 1, lift at 1. rewrite Hurl.
  unfold bind at 1, http at 1. rewrite Hn, Hcode. cbn [Z.eqb Pos.eqb].
  unfold bind at 1, lift at 1. rewrite Hsize.
  unfold bind at 1, open_wb at 1. rewrite Hfree. cbn [net sent log fs].
  rewrite Hcontent.
  destruct (save_stream_cut path chunks rest
              (mkState (net s) (S (sent s)) (log s ++ [Request (GetUrl url)])
                       (<[path:=[]]> (fs s))) [])
    as (s' & E & Hfs & _); [cbn [fs]; apply lookup_insert_eq|].
  rewrite (bind_raise _ _ _ _ _ E). cbn [handlers].
  unfold bind, print, emit, exit. cbn [net sent log fs].
  eexists. split; [reflexivity|]. cbn [fs]. exact Hfs.
Qed.

(** C9, at its failing input.  convert.py is asked to save the result as
    out.pdf; the job is completed, and Ctrl-C arrives after the first of
    the two chunks of the download.  The script prints that the conversion
    was cancelled and exits 1, and out.pdf stays on disk with the two bytes
    written so far.  download-result.py, cut at the same place, deletes the
    file before it exits. *)
Theorem convert_file_leaves_partial_download :
  let run :=
    SimpleConvert.convert_file Runs.simple_config "scan.png" "pdf"
                               (Some "out.pdf")
                               (boot Runs.interrupted_service Runs.files) in
  let sibling :=
    DownloadResult.download_result Runs.download_config "j1" (Some "out.pdf")
                                   (boot Runs.interrupted_service ∅) in
  fst run = Exit 1
  /\ last (log (snd run)) = Some (Print "✗ Conversion cancelled by user")
  /\ fs (snd run) !! "out.pdf" = Some [Byte.x25; Byte.x50]
  /\ fst sibling = Exit 1
  /\ last (log (snd sibling)) = Some (Print "Partial file deleted")
  /\ fs (snd sibling) !! "out.pdf" = None.
Proof. vm_compute. repeat split; reflexivity. Qed.

(** What the body of the job-status reply answers with is the job the
    script goes on with. *)
Lemma pick_job_answers body job s :
  answers_with body job -> DownloadResult.pick_job body s = (Ret job, s).
Proof.
  intros [(others & ->)|(-> & fields & ->)]; reflexivity.
Qed.

(** download-result.py up to the inspection of the job descriptor. *)
Lemma download_result_reaches_locate cfg job_id output_file server files
      resp body job :
  truthy_str (DownloadResult.API_KEY cfg) = true ->
  server 0%nat = Response resp ->
  status_code resp < 400 ->
  payload resp = Json body ->
  answers_with body job ->
  DownloadResult.download_result cfg job_id output_file (boot server files)
  = bind (try_except
            (DownloadResult.locate cfg job_id output_file job)
            (DownloadResult.handlers (DownloadResult.locked cfg) output_file))
         (fun target =>
            try_except
              (DownloadResult.fetch (DownloadResult.locked cfg) (fst target)
                                    (snd target))
              (DownloadResult.handlers (DownloadResult.locked cfg)
                                       (Some (fst target))))
         (mkState server 1 [Request (GetJob (JStr job_id))] files).
Proof.
  intros Hkey Hn Hcode Hbody Hjob.
  unfold DownloadResult.download_result. rewrite Hkey. cbn [negb].
  unfold bind at 1. unfold try_except at 1.
  unfold bind at 1, http at 1. unfold boot.
  cbn [net sent log fs]. rewrite Hn.
  assert ((status_code resp >=? 400) = false) as -> by lia.
  unfold bind at 1, lift at 1, json_of. rewrite Hbody.
  unfold bind at 1. rewrite (pick_job_answers _ _ _ Hjob).
  reflexivity.
Qed.

(** The answer is an empty list: an error, and the script leaves. *)
Lemma download_result_empty_list cfg job_id output_file server files resp :
  truthy_str (DownloadResult.API_KEY cfg) = true ->
  server 0%nat = Response resp ->
  status_code resp < 400 ->
  payload resp = Json (JArr []) ->
  DownloadResult.download_result cfg job_id output_file (boot server files)
  = (Exit 1,
     mkState server 1
             [Request (GetJob (JStr job_id));
              Print "✗ Error: Empty response from API"]
             files).
Proof.
  intros Hkey Hn Hcode Hbody.
  unfold DownloadResult.download_result. rewrite Hkey. cbn [negb].
  unfold bind at 1. unfold try_except at 1.
  unfold bind at 1, http at 1. unfold boot.
  cbn [net sent log fs]. rewrite Hn.
  assert ((status_code resp >=? 400) = false) as -> by lia.
  unfold bind at 1, lift at 1, json_of. rewrite Hbody.
  reflexivity.
Qed.

(** Lines 83-100 on a job that is not completed: two lines at least,
    no request, and out, by [sys.exit(1)] or by the [AttributeError] of an
    error that is no dict. *)
Lemma inspect_unfinished job st s :
  get job "status" (JStr "unknown") = Ret st ->
  eq_str st "completed" = false ->
  exists r rest,
    DownloadResult.inspect job s
    = (r,
       mkState (net s) (sent s)
               (log s ++ Print "⚠️  File not available"
                      :: PrintF "Job status: " st :: rest)
               (fs s))
    /\ (r = Exit 1 \/ r = Raise AttributeError)
    /\ requests_of rest = [].
Proof.
  intros Hst Hno.
  assert (forall (r : res json) l,
            (r = Exit 1 \/ r = Raise AttributeError) ->
            requests_of l = [] ->
            exists r' rest,
              (r, mkState (net s) (sent s)
                    ((log s ++ [Print "⚠️  File not available"])
                     ++ [PrintF "Job status: " st] ++ l)
                    (fs s))
              = (r',
                 mkState (net s) (sent s)
                   (log s ++ Print "⚠️  File not available"
                          :: PrintF "Job status: " st :: rest)
                   (fs s))
              /\ (r' = Exit 1 \/ r' = Raise AttributeError)
              /\ requests_of rest = []) as Hdone.
  { intros r l Hr Hl. exists r, l. rewrite <- app_assoc. cbn [app].
    repeat split; assumption. }
  destruct job as [| | | | |fields]; try discriminate.
  unfold DownloadResult.inspect.
  unfold bind at 1, lift at 1. rewrite Hst, Hno. cbn [negb].
  unfold bind at 1. unfold DownloadResult.not_available.
  unfold bind at 1, print at 1, emit at 1. cbn [net sent log fs].
  unfold bind at 1, printf at 1, emit at 1. cbn [net sent log fs].
  unfold bind at 1.
  destruct (eq_str st "processing").
  { cbn. rewrite <- !app_assoc. cbn [app].
    eexists _, _. split; [reflexivity|]. split; [now left|reflexivity]. }
  destruct (eq_str st "queued").
  { cbn. rewrite <- !app_assoc. cbn [app].
    eexists _, _. split; [reflexivity|]. split; [now left|reflexivity]. }
  destruct (eq_str st "failed").
  2:{ destruct (eq_str st "cancelled"); cbn; rewrite <- !app_assoc;
        cbn [app]; eexists _, _;
        (split; [reflexivity|]); (split; [now left|reflexivity]). }
  unfold bind at 1, print at 1, emit at 1. cbn [net sent log fs].
  unfold bind at 1, lift at 1. cbn [get].
  destruct (assoc "error" fields) as [err|].
  2:{ cbn. rewrite <- !app_assoc. cbn [app].
      eexists _, _. split; [reflexivity|]. split; [now left|reflexivity]. }
  destruct (truthy err).
  2:{ cbn. rewrite <- !app_assoc. cbn [app].
      eexists _, _. split; [reflexivity|]. split; [now left|reflexivity]. }
  destruct err; cbn; rewrite <- !app_assoc; cbn [app]; eexists _, _;
    (split; [reflexivity|]); (split; [tauto|reflexivity]).
Qed.

(** download-result.py on a job that is not completed: exit status 1
    after the lines that say so, and no request but the first. *)
Lemma download_result_unfinished cfg job_id output_file server files resp
      body job st :
  truthy_str (DownloadResult.API_KEY cfg) = true ->
  server 0%nat = Response resp ->
  status_code resp < 400 ->
  payload resp = Json body ->
  answers_with body job ->
  get job "status" (JStr "unknown") = Ret st ->
  eq_str st "completed" = false ->
  exists rest,
    DownloadResult.download_result cfg job_id output_file (boot server files)
    = (Exit 1,
       mkState server 1
               (Request (GetJob (JStr job_id))
                :: Print "⚠️  File not available"
                :: PrintF "Job status: " st :: rest)
               files)
    /\ requests_of rest = [].
Proof.
  intros Hkey Hn Hcode Hbody Hjob Hst Hno.
  rewrite (download_result_reaches_locate _ _ _ _ _ _ _ _
             Hkey Hn Hcode Hbody Hjob).
  destruct (inspect_unfinished job st
              (mkState server 1 [Request (GetJob (JStr job_id))] files)
              Hst Hno) as (r & rest & E & Hr & Hrest).
  cbn [net sent log fs app] in E.
  unfold bind at 1, try_except at 1, DownloadResult.locate.
  unfold bind at 1. rewrite E.
  destruct Hr as [-> | ->].
  - exists rest. split; [reflexivity|assumption].
  - cbn [DownloadResult.handlers].
    unfold bind, print, emit, exit. cbn [net sent log fs app].
    eexists. split; [reflexivity|].
    rewrite requests_of_app, Hrest. reflexivity.
Qed.

(** Lines 80-120 on a job the script can go on with: nothing is
    requested or written, and the result comes out. *)
Lemma inspect_ready job result url s :
  downloadable job result url ->
  DownloadResult.inspect job s = (Ret result, s).
Proof.
  intros (Hst & Hres & Hurl & Htruthy & Hformat & Hsize & Hsource).
  destruct job as [| | | | |fields]; try discriminate.
  destruct result as [| | | | |entries]; try discriminate.
  unfold DownloadResult.inspect.
  unfold bind at 1, lift at 1. rewrite Hst.
  cbn [eq_str String.eqb Ascii.eqb Bool.eqb negb].
  unfold bind at 1, lift at 1. rewrite Hres.
  unfold bind at 1, lift at 1. rewrite Hurl, Htruthy. cbn [negb].
  unfold bind at 1, lift at 1.
  destruct (get (JObj entries) "format" (JStr "N/A")) as [v| |] eqn:Ef;
    try discriminate.
  destruct (Hformat v eq_refl) as (format & ->).
  unfold bind at 1, lift at 1. cbn [DownloadResult.upper].
  unfold bind at 1, lift at 1.
  destruct (get (JObj entries) "file_size" (JNum 0)) as [v| |] eqn:Es;
    try discriminate.
  destruct (Hsize v eq_refl) as (size & -> & Hfloat).
  unfold bind at 1, lift at 1, format_file_size. rewrite Hfloat.
  unfold bind at 1, lift at 1.
  destruct (get (JObj fields) "source_format" JNull) as [v| |] eqn:Eo;
    try discriminate.
  unfold bind at 1.
  destruct (truthy v) eqn:Ht.
  - destruct (Hsource v eq_refl Ht) as (source & ->). reflexivity.
  - reflexivity.
Qed.

(** A key that holds something truthy holds it whatever the default. *)
Lemma get_truthy d k v default :
  get d k JNull = Ret v -> truthy v = true -> get d k default = Ret v.
Proof.
  destruct d as [| | | | |fields]; try discriminate. cbn [get].
  destruct (assoc k fields); [trivial|].
  intros [= <-]. discriminate.
Qed.

(** The download proper, answered 200 with a stream that arrives whole,
    into a path that is not locked. *)
Lemma fetch_whole locked path result url resp chunks size s :
  locked path = false ->
  get result "download_url" (JStr "") = Ret url ->
  truthy url = true ->
  net s (sent s) = Response resp ->
  status_code resp = 200 ->
  total_size_of resp = Ret size ->
  Float.int_too_large size = false ->
  content resp = map Data chunks ->
  DownloadResult.fetch locked path result s
  = (Ret tt,
     mkState (net s) (S (sent s))
       (log s ++ [Request (GetUrl url); Print "✓ Download complete!"]
              ++ (if negb (Z.of_nat (length (concat chunks)) =? size)
                     && (size >? 0)
                  then [Print "⚠️  Warning: File size mismatch"]
                  else []))
       (<[path := concat chunks]> (fs s))).
Proof.
  intros Hfree Hurl Htruthy Hn Hcode Hsize Hfloat Hcontent.
  unfold DownloadResult.fetch.
  unfold bind at 1, lift at 1. rewrite Hurl, Htruthy. cbn [negb].
  unfold bind at 1, http at 1. rewrite Hn, Hcode. cbn [Z.eqb Pos.eqb negb].
  unfold bind at 1, lift at 1. rewrite Hsize.
  rewrite Hcontent.
  unfold bind at 1, open_wb at 1. rewrite Hfree. cbn [net sent log fs].
  unfold bind at 1, lift at 1, progress_bar. rewrite Hfloat.
  unfold bind at 1.
  rewrite (save_stream_whole path chunks _ []) by apply lookup_insert_eq.
  cbn [net sent log fs app]. rewrite insert_insert_eq.
  unfold bind at 1, lookup_file at 1. cbn [fs]. rewrite lookup_insert_eq.
  unfold bind at 1, print at 1, emit at 1. cbn [net sent log fs].
  destruct (negb (Z.of_nat (length (concat chunks)) =? size) && (size >? 0)).
  - unfold bind, print, emit, lift, format_file_size. rewrite Hfloat.
    cbn [net sent log fs]. now rewrite <- !app_assoc.
  - unfold ret. now rewrite <- !app_assoc.
Qed.

(** download-result.py on a job it can go on with, the download answered
    200 with a stream that arrives whole. *)
Lemma download_result_ready cfg job_id path server files resp body job
      result url download size chunks :
  truthy_str (DownloadResult.API_KEY cfg) = true ->
  server 0%nat = Response resp ->
  status_code resp < 400 ->
  payload resp = Json body ->
  answers_with body job ->
  downloadable job result url ->
  path <> "" ->
  DownloadResult.locked cfg path = false ->
  server 1%nat = Response download ->
  status_code download = 200 ->
  total_size_of download = Ret size ->
  Float.int_too_large size = false ->
  content download = map Data chunks ->
  DownloadResult.download_result cfg job_id (Some path) (boot server files)
  = (Ret tt,
     mkState server 2
       ([Request (GetJob (JStr job_id))]
        ++ [Request (GetUrl url); Print "✓ Download complete!"]
        ++ (if negb (Z.of_nat (length (concat chunks)) =? size)
               && (size >? 0)
            then [Print "⚠️  Warning: File size mismatch"]
            else []))
       (<[path := concat chunks]> files)).
Proof.
  intros Hkey Hn Hcode Hbody Hjob Hready Hpath Hfree Hd Hdcode Hsize Hfloat
         Hcontent.
  rewrite (download_result_reaches_locate _ _ _ _ _ _ _ _
             Hkey Hn Hcode Hbody Hjob).
  unfold bind at 1, try_except at 1, DownloadResult.locate.
  unfold bind at 1. rewrite (inspect_ready _ _ _ _ Hready).
  unfold bind at 1, DownloadResult.name_output.
  rewrite (truthy_path _ Hpath). unfold ret at 1. unfold ret at 1.
  cbn [fst snd]. unfold try_except.
  destruct Hready as (_ & _ & Hurl & Htruthy & _).
  rewrite (fetch_whole _ path result url download chunks size); try assumption.
  - reflexivity.
  - now apply get_truthy.
Qed.

(** C10.  The body of the reply to the job-status request of
    download-result.py is a list.  An empty list makes the script print
    its error and exit 1, the job-status request being the only request
    made and no file touched.  Otherwise the first element is the job
    descriptor, and the script goes on with it as it does with a job
    answered as an object.  A job that is not completed is reported as
    not available with its status and the script exits 1 without a
    second request or a change to the files.  A job that is completed
    and holds a download URL is downloaded: the second request is for
    that URL and, answered 200 with a stream that arrives whole, it
    leaves the chunks in the output file and the script ends normally. *)
Theorem list_response_stands_for_its_first_job cfg job_id output_file
        server files resp body :
  truthy_str (DownloadResult.API_KEY cfg) = true ->
  server 0%nat = Response resp ->
  status_code resp < 400 ->
  payload resp = Json body ->
  let run :=
    DownloadResult.download_result cfg job_id output_file
                                   (boot server files) in
  (body = JArr [] ->
   run = (Exit 1,
          mkState server 1
                  [Request (GetJob (JStr job_id));
                   Print "✗ Error: Empty response from API"]
                  files))
  /\ (forall job status,
        answers_with body job ->
        get job "status" (JStr "unknown") = Ret status ->
        eq_str status "completed" = false ->
        fst run = Exit 1
        /\ requests_of (log (snd run)) = [GetJob (JStr job_id)]
        /\ fs (snd run) = files
        /\ exists rest,
             log (snd run)
             = Request (GetJob (JStr job_id))
               :: Print "⚠️  File not available"
               :: PrintF "Job status: " status :: rest)
  /\ (forall job result url path download size chunks,
        answers_with body job ->
        downloadable job result url ->
        output_file = Some path ->
        path <> "" ->
        DownloadResult.locked cfg path = false ->
        server 1%nat = Response download ->
        status_code download = 200 ->
        total_size_of download = Ret size ->
        Float.int_too_large size = false ->
        content download = map Data chunks ->
        fst run = Ret tt
        /\ requests_of (log (snd run))
           = [GetJob (JStr job_id); GetUrl url]
        /\ fs (snd run) = <[path := concat chunks]> files).
Proof.
  intros Hkey Hn Hcode Hbody run. subst run.
  split; [|split].
  - intros ->. now apply download_result_empty_list with (resp := resp).
  - intros job status Hjob Hst Hno.
    destruct (download_result_unfinished cfg job_id output_file server files
                resp body job status Hkey Hn Hcode Hbody Hjob Hst Hno)
      as (rest & -> & Hrest).
    cbn [fst snd log fs requests_of]. rewrite Hrest.
    repeat split. now exists rest.
  - intros job result url path download size chunks Hjob Hready -> Hpath
           Hfree Hd Hdcode Hsize Hfloat Hcontent.
    rewrite (download_result_ready cfg job_id path server files resp body job
               result url download size chunks); try assumption.
    cbn [fst snd log fs]. repeat split.
    rewrite !requests_of_app. cbn [requests_of app].
    now destruct (negb _ && _).
Qed.

(** A list of two jobs, the first converted and the second failed: the
    first is downloaded to out.pdf.  An empty list: an error, exit status
    1, and nothing downloaded. *)
Lemma list_response_witness :
  (let run :=
     DownloadResult.download_result Runs.download_config "j1"
                                    (Some "out.pdf")
                                    (boot Runs.long_listing_service ∅) in
   fst run = Ret tt
   /\ requests_of (log (snd run))
      = [GetJob (JStr "j1"); GetUrl (JStr "https://cdn.example/j1.pdf")]
   /\ fs (snd run)
      = <["out.pdf" := concat [[Byte.x25; Byte.x50]; [Byte.x44]]]> ∅)
  /\ DownloadResult.download_result Runs.download_config "j1" None
                                    (boot Runs.empty_listing_service ∅)
     = (Exit 1,
        mkState Runs.empty_listing_service 1
                [Request (GetJob (JStr "j1"));
                 Print "✗ Error: Empty response from API"]
                ∅).
Proof.
  split.
  - refine (proj2 (proj2 (list_response_stands_for_its_first_job
                            Runs.download_config "j1" (Some "out.pdf")
                            Runs.long_listing_service ∅
                            (mkResponse 200
                               (Json (JArr [Runs.converted_job;
                                            job_in "failed"]))
                               HAbsent [])
                            (JArr [Runs.converted_job; job_in "failed"])
                            _ _ _ _))
                  Runs.converted_job
                  (JObj [("download_url", JStr "https://cdn.example/j1.pdf");
                         ("format", JStr "pdf");
                         ("file_size", JNum 3);
                         ("expires_at", JStr "2030-01-01T00:00:00Z")])
                  (JStr "https://cdn.example/j1.pdf") "out.pdf"
                  (mkResponse 200 NotJson (HInt 3)
                     [Data [Byte.x25; Byte.x50]; Data [Byte.x44]])
                  3 [[Byte.x25; Byte.x50]; [Byte.x44]]
                  _ _ _ _ _ _ _ _ _ _).
    + reflexivity.
    + reflexivity.
    + cbn. lia.
    + reflexivity.
    + left. eexists. reflexivity.
    + repeat split; try reflexivity.
      * intros v [= <-]. eexists. reflexivity.
      * intros v [= <-]. eexists. split; reflexivity.
      * intros v [= <-]. discriminate.
    + reflexivity.
    + discriminate.
    + reflexivity.
    + reflexivity.
    + reflexivity.
    + reflexivity.
    + reflexivity.
    + reflexivity.
  - refine (proj1 (list_response_stands_for_its_first_job
                     Runs.download_config "j1" None
                     Runs.empty_listing_service ∅
                     (mkResponse 200 (Json (JArr [])) HAbsent [])
                     (JArr []) _ _ _ _) _).
    + reflexivity.
    + reflexivity.
    + cbn. lia.
    + reflexivity.
    + reflexivity.
Defined.

(** A one-element list and no output name: the download goes through
    with its element, under the name made up for it. *)
Lemma list_response_is_downloaded :
  let run :=
    DownloadResult.download_result Runs.download_config "j1" None
                                   (boot Runs.listing_service ∅) in
  fst run = Ret tt
  /\ requests_of (log (snd run))
     = [GetJob (JStr "j1"); GetUrl (JStr "https://cdn.example/j1.pdf")]
  /\ fs (snd run) !! "converted_j1.pdf"
     = Some [Byte.x25; Byte.x50; Byte.x44].
Proof. vm_compute. repeat split; reflexivity. Qed.

End Downloads.

(** ** Bounds on the scripts *)

Section EffectFacts.
Import Py Proc Common Effects.

Variable events : event -> bool.
Variable codes : Z -> bool.
Variable exns : exn -> bool.
Variable frozen : bool.

(** A step that leaves the state as it is. *)
Lemma within_silent {A} (m : M A) :
  (forall s, snd (m s) = s) ->
  (forall s, match fst (m s) with
             | Ret _ => True
             | Exit code => codes code = true
             | Raise e => exns e = true
             end) ->
  within events codes exns frozen m.
Proof.
  intros Hs Hr s. rewrite Hs.
  split; [exists []; cbn; rewrite app_nil_r; repeat split; lia|].
  split; [reflexivity|]. split; [reflexivity|apply Hr].
Qed.

Lemma within_ret {A} (a : A) : within events codes exns frozen (ret a).
Proof. now apply within_silent. Qed.

Lemma within_exit {A} c :
  codes c = true -> within events codes exns frozen (@exit A c).
Proof. intros H. now apply within_silent. Qed.

Lemma within_raise {A} e :
  exns e = true -> within events codes exns frozen (@raise A e).
Proof. intros H. now apply within_silent. Qed.

Lemma within_lift {A} (r : res A) :
  raises_within exns r -> within events codes exns frozen (lift r).
Proof.
  intros H. apply within_silent; [reflexivity|]. intros s.
  destruct r; cbn in *; tauto.
Qed.

Lemma within_lookup_file path :
  within events codes exns frozen (lookup_file path).
Proof. now apply within_silent. Qed.

Lemma within_bind {A B} (m : M A) (k : A -> M B) :
  within events codes exns frozen m ->
  (forall a, within events codes exns frozen (k a)) ->
  within events codes exns frozen (bind m k).
Proof.
  intros Hm Hk s. unfold bind.
  destruct (Hm s) as ((l & Hl & Hev & Hsent) & Hnet & Hfs & Hr).
  destruct (m s) as [[a|c|e] s1]; cbn [fst snd] in *.
  - destruct (Hk a s1) as ((l2 & Hl2 & Hev2 & Hsent2) & Hnet2 & Hfs2 & Hr2).
    split; [|split; [congruence|split; [|exact Hr2]]].
    + exists (l ++ l2)%list. rewrite Hl2, Hl, <- app_assoc.
      split; [reflexivity|]. split; [now rewrite forallb_app, Hev, Hev2|].
      rewrite Hsent2, Hsent, requests_of_app, length_app. lia.
    + intros Hf. now rewrite Hfs2, Hfs.
  - split; [now exists l|auto].
  - split; [now exists l|auto].
Qed.

Lemma within_print line :
  events (Print line) = true -> within events codes exns frozen (print line).
Proof.
  intros H s. cbn [print emit fst snd log sent net fs].
  split; [|auto]. exists [Print line]. cbn. rewrite H.
  repeat split; lia.
Qed.

Lemma within_printf line v :
  events (PrintF line v) = true ->
  within events codes exns frozen (printf line v).
Proof.
  intros H s. cbn [printf emit fst snd log sent net fs].
  split; [|auto]. exists [PrintF line v]. cbn. rewrite H.
  repeat split; lia.
Qed.

Lemma within_sleep seconds :
  events (Sleep seconds) = true ->
  within events codes exns frozen (sleep seconds).
Proof.
  intros H s. cbn [sleep emit fst snd log sent net fs].
  split; [|auto]. exists [Sleep seconds]. cbn. rewrite H.
  repeat split; lia.
Qed.

Lemma within_http r :
  events (Request r) = true ->
  exns RequestException = true -> exns KeyboardInterrupt = true ->
  within events codes exns frozen (http r).
Proof.
  intros H H1 H2 s. unfold http.
  destruct (net s (sent s)); cbn [fst snd log sent net fs];
    (split; [exists [Request r]; cbn; rewrite H; repeat split; lia|]); auto.
Qed.

End EffectFacts.

Section FileEffects.
Import Py Proc Common Effects.

Variable events : event -> bool.
Variable codes : Z -> bool.
Variable exns : exn -> bool.

Lemma within_touch {A} (m : M A) :
  (forall s, exists files a,
     m s = (Ret a, mkState (net s) (sent s) (log s) files)) ->
  within events codes exns false m.
Proof.
  intros H s. destruct (H s) as (files & a & ->). cbn [fst snd log sent net fs].
  split; [exists []; cbn; rewrite app_nil_r; repeat split; lia|].
  split; [reflexivity|]. split; [discriminate|exact I].
Qed.

(** An operation on a path that the operating system may refuse: the
    files change or [OSError] comes out, and nothing else happens. *)
Lemma within_refusable {A} (m : M A) :
  exns IOError = true ->
  (forall s,
     m s = (Raise IOError, s)
     \/ exists files a,
          m s = (Ret a, mkState (net s) (sent s) (log s) files)) ->
  within events codes exns false m.
Proof.
  intros Hio H s. destruct (H s) as [->|(files & a & ->)];
    cbn [fst snd log sent net fs];
    (split; [exists []; cbn; rewrite app_nil_r; repeat split; lia|]);
    (split; [reflexivity|]); (split; [discriminate|]);
    [exact Hio|exact I].
Qed.

Lemma within_open_wb locked path :
  exns IOError = true ->
  within events codes exns false (open_wb locked path).
Proof.
  intros Hio. apply within_refusable; [assumption|]. intros s.
  unfold open_wb. destruct (locked path); [now left|right; now eexists _, _].
Qed.

Lemma within_write path chunk :
  within events codes exns false (write path chunk).
Proof. apply within_touch. intros s. now eexists _, _. Qed.

Lemma within_unlink locked path :
  exns IOError = true ->
  within events codes exns false (unlink locked path).
Proof.
  intros Hio. apply within_refusable; [assumption|]. intros s.
  unfold unlink. destruct (locked path); [now left|].
  destruct (fs s !! path); [right; now eexists _, _|now left].
Qed.

(** A [try] with handlers: what the body lets out and no handler takes
    stays out; what a handler takes is replaced by the handler's effects. *)
Lemma within_try_except {A} exns' frozen (m : M A) h :
  within events codes exns frozen m ->
  (forall e, exns e = true ->
     match h e with
     | Some handler => within events codes exns' frozen handler
     | None => exns' e = true
     end) ->
  within events codes exns' frozen (try_except m h).
Proof.
  intros Hm Hh s. unfold try_except.
  destruct (Hm s) as ((l & Hl & Hev & Hsent) & Hnet & Hfs & Hr).
  destruct (m s) as [[a|c|e] s1]; cbn [fst snd] in *.
  - split; [now exists l|auto].
  - split; [now exists l|auto].
  - specialize (Hh e Hr). destruct (h e) as [handler|].
    + destruct (Hh s1) as ((l2 & Hl2 & Hev2 & Hsent2) & Hnet2 & Hfs2 & Hr2).
      split; [|split; [congruence|split; [|exact Hr2]]].
      * exists (l ++ l2)%list. rewrite Hl2, Hl, <- app_assoc.
        split; [reflexivity|]. split; [now rewrite forallb_app, Hev, Hev2|].
        rewrite Hsent2, Hsent, requests_of_app, length_app. lia.
      * intros Hf. now rewrite Hfs2, Hfs.
    + split; [now exists l|auto].
Qed.

End FileEffects.

Section Weakening.
Import Py Proc Common Effects.

Lemma within_weaken {A} (events events' : event -> bool)
      (codes codes' : Z -> bool) (exns exns' : exn -> bool) frozen
      (m : M A) :
  (forall e, events e = true -> events' e = true) ->
  (forall c, codes c = true -> codes' c = true) ->
  (forall e, exns e = true -> exns' e = true) ->
  within events codes exns frozen m -> within events' codes' exns' frozen m.
Proof.
  intros He Hc Hx Hm s.
  destruct (Hm s) as ((l & Hl & Hev & Hsent) & Hnet & Hfs & Hr).
  split; [|split; [assumption|split; [assumption|]]].
  - exists l. split; [assumption|]. split; [|assumption].
    rewrite forallb_forall in *. auto.
  - destruct (fst (m s)); auto.
Qed.

(** What may not touch the file system may as well be allowed to. *)
Lemma within_thaw {A} events codes exns frozen (m : M A) :
  within events codes exns true m -> within events codes exns frozen m.
Proof.
  intros Hm s.
  destruct (Hm s) as (Hl & Hnet & Hfs & Hr).
  split; [assumption|]. split; [assumption|]. split; [|assumption].
  intros _. now apply Hfs.
Qed.

End Weakening.

Section ResFacts.
Import Py Proc Common Effects.

Lemma get_stays d k v : raises_within any_exn (get d k v).
Proof. now destruct d. Qed.

Lemma index_stays d k : raises_within any_exn (index d k).
Proof. destruct d; try exact eq_refl. cbn. now destruct (assoc k fields). Qed.

Lemma get_opt_stays o k v : raises_within any_exn (get_opt o k v).
Proof. destruct o; [apply get_stays|exact eq_refl]. Qed.

Lemma index_opt_stays o k : raises_within any_exn (index_opt o k).
Proof. destruct o; [apply index_stays|exact eq_refl]. Qed.

Lemma json_of_stays r : raises_within any_exn (json_of r).
Proof. unfold json_of. now destruct (payload r). Qed.

Lemma total_size_of_stays r : raises_within any_exn (total_size_of r).
Proof. unfold total_size_of. now destruct (content_length r). Qed.

Lemma format_file_size_stays v : raises_within any_exn (format_file_size v).
Proof.
  destruct v; try exact eq_refl; try exact I. cbn.
  now destruct (Float.int_too_large n).
Qed.

Lemma progress_bar_stays total : raises_within any_exn (progress_bar total).
Proof. unfold progress_bar. now destruct (Float.int_too_large total). Qed.

Lemma read_stays limit size unread :
  raises_within any_exn (read limit size unread).
Proof.
  unfold read.
  repeat match goal with
         | |- context [if ?b then _ else _] => destruct b
         end; try exact eq_refl; exact I.
Qed.

Lemma print_items_stays v : raises_within any_exn (print_items v).
Proof. now destruct v. Qed.

Lemma upper_stays v : raises_within any_exn (DownloadResult.upper v).
Proof. now destruct v. Qed.

End ResFacts.

Create HintDb within.

#[local] Hint Resolve get_stays index_stays get_opt_stays index_opt_stays
  json_of_stays total_size_of_stays format_file_size_stays print_items_stays
  upper_stays progress_bar_stays read_stays : within.

(** One step through the text of a script. *)
Ltac within_step :=
  lazymatch goal with
  | |- Effects.within _ _ _ _ (Proc.ret _) => apply within_ret
  | |- Effects.within _ _ _ _ (Proc.bind _ _) => apply within_bind; [|intros ?]
  | |- Effects.within _ _ _ _ (Proc.exit _) =>
      apply within_exit; first [assumption|reflexivity]
  | |- Effects.within _ _ _ _ (Proc.raise _) => apply within_raise; reflexivity
  | |- Effects.within _ _ _ _ (Proc.lift _) =>
      apply within_lift; auto with within
  | |- Effects.within _ _ _ _ (Proc.print _) => apply within_print; auto
  | |- Effects.within _ _ _ _ (Proc.printf _ _) => apply within_printf; auto
  | |- Effects.within _ _ _ _ (Proc.sleep _) => apply within_sleep; auto
  | |- Effects.within _ _ _ _ (Proc.http _) =>
      apply within_http; [auto|reflexivity|reflexivity]
  | |- Effects.within _ _ _ _ (Proc.lookup_file _) => apply within_lookup_file
  | |- Effects.within _ _ _ _ (Proc.open_wb _ _) =>
      apply within_open_wb; reflexivity
  | |- Effects.within _ _ _ _ (Proc.write _ _) => apply within_write
  | |- Effects.within _ _ _ _ (Proc.unlink _ _) =>
      apply within_unlink; reflexivity
  | |- Effects.within _ _ _ _ (if ?b then _ else _) => destruct b
  | |- Effects.within _ _ _ _ (match ?x with _ => _ end) => destruct x
  | |- Effects.within _ _ _ _ (let _ := _ in _) => cbv zeta
  end.

Ltac within_walk := repeat first [solve [auto with within] | within_step].

Ltac any_event_side := first [reflexivity | intros; reflexivity].

Section Bounds.
Import Py Proc Common Effects.

Variable events : event -> bool.
Variable codes : Z -> bool.

(** The exit codes and the events a script needs allowed; each lemma
    depends on the ones its script uses. *)
Hypothesis Hone : codes 1 = true.
Hypothesis Hzero : codes 0 = true.
Hypothesis Hprint : forall line, events (Print line) = true.
Hypothesis Hprintf : forall line v, events (PrintF line v) = true.
Hypothesis Hsleep : forall seconds, events (Sleep seconds) = true.
Hypothesis Hpoll : forall job_id, events (Request (GetJob job_id)) = true.
Hypothesis Hfetch : forall url, events (Request (GetUrl url)) = true.
Hypothesis Hconvert :
  forall filename target_format,
    events (Request (PostConvert filename target_format)) = true.
Hypothesis Hconvert_url :
  forall url target_format filename,
    events (Request (PostConvertUrl url target_format filename)) = true.
Hypothesis Hinit :
  forall filename file_size total_chunks target_format,
    events (Request (PostUploadInit filename file_size total_chunks
                                    target_format)) = true.
Hypothesis Hchunk :
  forall session_id chunk_index chunk_data,
    events (Request (PostChunk session_id chunk_index chunk_data)) = true.
Hypothesis Hcomplete :
  forall session_id, events (Request (PostComplete session_id)) = true.

(** What lets no exception out stays within any bound on exceptions. *)
Lemma within_no_exn {A} exns frozen (m : M A) :
  within events codes no_exn frozen m -> within events codes exns frozen m.
Proof. apply within_weaken; auto. discriminate. Qed.

Lemma within_lets_out {A} exns frozen (h : option (M A)) e :
  match h with
  | Some handler => within events codes no_exn frozen handler
  | None => no_exn e = true
  end ->
  match h with
  | Some handler => within events codes exns frozen handler
  | None => exns e = true
  end.
Proof. destruct h as [handler|]; [apply within_no_exn|discriminate]. Qed.

(** *** The pieces the conversion scripts share *)

Lemma within_save_stream path items :
  within events codes any_exn false (save_stream path items).
Proof.
  induction items as [|item items IH]; cbn [save_stream]; within_walk.
Qed.

#[local] Hint Resolve within_save_stream : within.

Lemma within_download locked output answer name result :
  within events codes any_exn false
         (download locked output answer name result).
Proof. unfold download. cbv zeta. within_walk. Qed.

Lemma within_handle_results frozen fetch advice status job_status :
  (forall result, within events codes any_exn frozen (fetch result)) ->
  within events codes any_exn frozen advice ->
  within events codes any_exn frozen
         (handle_results fetch advice status job_status).
Proof. intros Hf Ha. unfold handle_results. within_walk. Qed.

Lemma within_handlers frozen cancelled e :
  match handlers cancelled e with
  | Some handler => within events codes no_exn frozen handler
  | None => no_exn e = true
  end.
Proof. destruct e; cbn [handlers]; within_walk. Qed.

Lemma within_try_handlers frozen (m : M unit) cancelled :
  within events codes any_exn frozen m ->
  within events codes no_exn frozen (try_except m (handlers cancelled)).
Proof.
  intros Hm. eapply within_try_except; [exact Hm|].
  intros e _. apply within_handlers.
Qed.

Lemma within_monitor frozen status_of n job_id : forall status job_status,
  (forall v, raises_within any_exn (status_of v)) ->
  within events codes any_exn frozen
         (monitor status_of n job_id status job_status).
Proof.
  induction n as [|n IH]; intros status job_status Hs; cbn [monitor];
    within_walk.
Qed.

Ltac script_step :=
  lazymatch goal with
  | |- within _ _ _ _ (monitor _ _ _ _ _) => apply within_monitor; intros ?
  | |- within _ _ _ _ (handle_results _ _ _ _) =>
      apply within_handle_results; [intros ?|]
  | |- within _ _ _ _ (download _ _ _ _ _) => apply within_download
  | |- within _ _ _ _ (try_except _ (handlers _)) => apply within_try_handlers
  | |- _ => within_step
  end.

Ltac script_walk := repeat first [solve [auto with within] | script_step].

(** *** convert.py and convert-from-url.py *)

Lemma within_simple_report_error frozen response :
  within events codes any_exn frozen (SimpleConvert.report_error response).
Proof. unfold SimpleConvert.report_error. within_walk. Qed.

#[local] Hint Resolve within_simple_report_error : within.

Lemma within_simple_submit cfg filename target_format output :
  within events codes any_exn false
         (SimpleConvert.submit_and_wait cfg filename target_format output).
Proof.
  unfold SimpleConvert.submit_and_wait, SimpleConvert.poll. script_walk.
Qed.

#[local] Hint Resolve within_simple_submit : within.

Lemma within_convert_file cfg input_file target_format output :
  within events codes no_exn false
         (SimpleConvert.convert_file cfg input_file target_format output).
Proof. unfold SimpleConvert.convert_file. script_walk. Qed.

Lemma within_url_report_error frozen response :
  within events codes any_exn frozen (UrlConvert.report_error response).
Proof.
  unfold UrlConvert.report_error.
  apply within_bind; [|intros ?; within_walk].
  eapply within_try_except with (exns := any_exn); [within_walk|].
  intros e _. within_walk.
Qed.

#[local] Hint Resolve within_url_report_error : within.

Lemma within_url_submit cfg url filename target_format output webhook :
  within events codes any_exn false
         (UrlConvert.submit_and_wait cfg url filename target_format output
                                     webhook).
Proof.
  unfold UrlConvert.submit_and_wait, UrlConvert.poll. script_walk.
Qed.

#[local] Hint Resolve within_url_submit : within.

Lemma within_convert_from_url cfg url target_format output webhook :
  within events codes no_exn false
         (UrlConvert.convert_from_url cfg url target_format output webhook).
Proof. unfold UrlConvert.convert_from_url. script_walk. Qed.

(** *** check-status.py *)

Lemma within_check_report_error frozen response :
  within events codes any_exn frozen (CheckStatus.report_error response).
Proof. unfold CheckStatus.report_error. within_walk. Qed.

Lemma within_display_job_details frozen job :
  within events codes any_exn frozen (CheckStatus.display_job_details job).
Proof. unfold CheckStatus.display_job_details. within_walk. Qed.

Lemma within_print_job_error frozen job :
  within events codes any_exn frozen (CheckStatus.print_job_error job).
Proof. unfold CheckStatus.print_job_error. within_walk. Qed.

#[local] Hint Resolve within_check_report_error within_display_job_details
  within_print_job_error : within.

Lemma within_watch_step frozen job_id previous_status :
  within events codes any_exn frozen
         (CheckStatus.watch_step job_id previous_status).
Proof. unfold CheckStatus.watch_step. script_walk. Qed.

#[local] Hint Resolve within_watch_step : within.

Lemma within_watch_loop frozen job_id n : forall attempts previous_status,
  within events codes any_exn frozen
         (CheckStatus.watch_loop n attempts job_id previous_status).
Proof.
  induction n as [|n IH]; intros attempts previous_status;
    cbn [CheckStatus.watch_loop]; script_walk.
Qed.

#[local] Hint Resolve within_watch_loop : within.

Lemma within_check_status frozen key job_id watching :
  within events codes no_exn frozen
         (CheckStatus.check_status key job_id watching).
Proof.
  unfold CheckStatus.check_status, CheckStatus.watch, CheckStatus.single_check.
  script_walk.
Qed.

(** *** download-result.py *)

Lemma within_download_handlers {A} locked output_file e :
  match @DownloadResult.handlers A locked output_file e with
  | Some handler => within events codes io_error false handler
  | None => io_error e = true
  end.
Proof.
  destruct e; cbn [DownloadResult.handlers]; unfold DownloadResult.interrupted;
    script_walk.
Qed.

Lemma within_fetch locked path result :
  within events codes any_exn false (DownloadResult.fetch locked path result).
Proof. unfold DownloadResult.fetch. script_walk. Qed.

#[local] Hint Resolve within_fetch : within.

Lemma within_locate cfg job_id output_file job :
  within events codes any_exn false
         (DownloadResult.locate cfg job_id output_file job).
Proof.
  unfold DownloadResult.locate, DownloadResult.inspect,
    DownloadResult.not_available, DownloadResult.name_output,
    DownloadResult.make_name.
  script_walk.
Qed.

#[local] Hint Resolve within_locate : within.

(** The one exception download-result.py lets out is the [OSError] its
    interrupt handler meets when it removes the file. *)
Lemma within_download_result cfg job_id output_file :
  within events codes io_error false
         (DownloadResult.download_result cfg job_id output_file).
Proof.
  unfold DownloadResult.download_result.
  destruct (negb _); [script_walk|].
  apply within_bind; [|intros target];
    (eapply within_try_except with (exns := any_exn);
     [|intros e _; apply within_download_handlers]).
  - unfold DownloadResult.report_error, DownloadResult.pick_job.
    script_walk.
  - script_walk.
Qed.

(** *** upload-large-file.py *)

Lemma within_upload_chunks frozen limit session_id size count :
  forall chunk_index unread,
  within events codes any_exn frozen
         (ChunkedUpload.upload_chunks limit count chunk_index size session_id
                                      unread).
Proof.
  induction count as [|count IH]; intros chunk_index unread;
    cbn [ChunkedUpload.upload_chunks];
    unfold ChunkedUpload.report_chunk_error; script_walk.
Qed.

Lemma within_download_large_file cfg url :
  within events codes any_exn false
         (ChunkedUpload.download_large_file cfg url).
Proof.
  unfold ChunkedUpload.download_large_file.
  eapply within_try_except with (exns := any_exn); [script_walk|].
  intros e _. destruct (is_Exception e); script_walk.
Qed.

#[local] Hint Resolve within_download_large_file : within.

Lemma within_finalize cfg webhook session_id :
  within events codes any_exn false
         (ChunkedUpload.finalize cfg webhook session_id).
Proof.
  unfold ChunkedUpload.finalize, ChunkedUpload.poll,
    ChunkedUpload.display_results.
  script_walk.
Qed.

#[local] Hint Resolve within_finalize : within.

Lemma within_session cfg filename target_format webhook data chunk_size
      total_chunks :
  within events codes any_exn false
         (ChunkedUpload.session cfg filename target_format webhook data
                                chunk_size total_chunks).
Proof.
  pose proof (within_upload_chunks false).
  unfold ChunkedUpload.session, ChunkedUpload.report_init_error.
  script_walk.
Qed.

#[local] Hint Resolve within_session : within.

Lemma within_upload_large_file cfg input_file target_format flag webhook :
  within events codes zero_division false
         (ChunkedUpload.upload_large_file cfg input_file target_format flag
                                          webhook).
Proof.
  unfold ChunkedUpload.upload_large_file.
  destruct (negb _); [within_walk|].
  apply within_bind; [within_walk|intros [data|]]; [|within_walk].
  cbv zeta.
  destruct (Z.of_nat (length data) >? ChunkedUpload.size_limit) eqn:Hsize;
    [within_walk|].
  unfold ChunkedUpload.upload_checked.
  apply within_bind; [|intros total].
  - apply within_lift.
    destruct (ceil_div_total (Z.of_nat (length data))
                (ChunkedUpload.chunk_size_mb_of flag * 1048576) ltac:(lia))
      as [[_ ->]|(_ & total & -> & _)]; [exact eq_refl|exact I].
  - apply within_no_exn, within_try_handlers. script_walk.
Qed.

(** *** ocr-image-to-text.py *)

Lemma within_save_all path items :
  within events codes any_exn false (OcrConvert.save_all path items).
Proof.
  induction items as [|item items IH]; cbn [OcrConvert.save_all]; script_walk.
Qed.

#[local] Hint Resolve within_save_all : within.

Lemma within_download_and_display cfg url :
  within events codes any_exn false (OcrConvert.download_and_display cfg url).
Proof. unfold OcrConvert.download_and_display. script_walk. Qed.

#[local] Hint Resolve within_download_and_display : within.

Lemma within_ocr_poll frozen job_id n : forall status job_status,
  within events codes any_exn frozen
         (OcrConvert.poll n job_id status job_status).
Proof.
  induction n as [|n IH]; intros status job_status; cbn [OcrConvert.poll].
  - script_walk.
  - destruct (negb _); [script_walk|].
    apply within_bind; [script_walk|intros _].
    apply within_bind; [|intros ?; apply IH].
    eapply within_try_except with (exns := any_exn); [script_walk|].
    intros e _. destruct (is_Exception e); script_walk.
Qed.

#[local] Hint Resolve within_ocr_poll : within.

Lemma within_ocr_main cfg input_file language :
  within events codes any_exn false (OcrConvert.main cfg input_file language).
Proof.
  unfold OcrConvert.main, OcrConvert.handle_result.
  repeat first
    [ solve [auto with within]
    | eapply within_try_except with (exns := any_exn);
        [|intros e _; destruct e]
    | script_walk ].
Qed.

Lemma within_ocr_script cfg input_file language :
  within events codes is_Exception false
         (OcrConvert.script cfg input_file language).
Proof.
  unfold OcrConvert.script.
  eapply within_try_except; [apply within_ocr_main|].
  intros e _. destruct e; script_walk.
Qed.

(** A session of no chunk: [range(total_chunks)] is empty. *)
Lemma within_session_of_no_chunk cfg filename target_format webhook data
      chunk_size total_chunks :
  Z.to_nat total_chunks = 0%nat ->
  within events codes any_exn false
         (ChunkedUpload.session cfg filename target_format webhook data
                                chunk_size total_chunks).
Proof.
  intros Hnone.
  unfold ChunkedUpload.session, ChunkedUpload.report_init_error.
  rewrite Hnone. cbn [ChunkedUpload.upload_chunks]. script_walk.
Qed.

(** *** What a script sends first *)

Lemma log_grows {A} exns frozen (m : M A) s :
  within events codes exns frozen m ->
  exists l, log (snd (m s)) = (log s ++ l)%list.
Proof. intros Hm. destruct (Hm s) as ((l & Hl & _) & _). now exists l. Qed.

Lemma sends_first {A} exns frozen r (k : response -> M A) s :
  (forall resp, within events codes exns frozen (k resp)) ->
  exists l, log (snd (bind (http r) k s)) = (log s ++ Request r :: l)%list.
Proof.
  intros Hk. unfold bind, http.
  destruct (net s (sent s)) as [resp| |]; cbn [snd log]; [|now exists []..].
  match goal with |- context [k resp ?s1] =>
    destruct (log_grows _ _ (k resp) s1 (Hk resp)) as (l & ->)
  end.
  exists l. cbn [log]. now rewrite <- app_assoc.
Qed.

Lemma simple_submit_sends_first cfg filename target_format output s :
  exists l,
    log (snd (SimpleConvert.submit_and_wait cfg filename target_format output
                                            s))
    = (log s ++ Request (PostConvert filename target_format) :: l)%list.
Proof.
  unfold SimpleConvert.submit_and_wait, SimpleConvert.poll.
  apply sends_first with (exns := any_exn) (frozen := false).
  intros resp. script_walk.
Qed.

Lemma session_sends_first cfg filename target_format webhook data chunk_size
      total_chunks s :
  exists l,
    log (snd (ChunkedUpload.session cfg filename target_format webhook data
                                    chunk_size total_chunks s))
    = (log s
       ++ Request (PostUploadInit filename (Z.of_nat (length data))
                                  total_chunks target_format) :: l)%list.
Proof.
  pose proof (within_upload_chunks false).
  unfold ChunkedUpload.session, ChunkedUpload.report_init_error.
  apply sends_first with (exns := any_exn) (frozen := false).
  intros resp. script_walk.
Qed.

Lemma ocr_main_sends_first cfg input_file language s data :
  truthy_str (OcrConvert.api_key cfg) = true ->
  fs s !! input_file = Some data ->
  existsb (String.eqb (OcrConvert.extension cfg)) OcrConvert.SUPPORTED_FORMATS
  = true ->
  (Z.of_nat (length data) >? 52428800) = false ->
  exists l,
    log (snd (OcrConvert.main cfg input_file language s))
    = (log s ++ Request (PostConvert input_file "txt") :: l)%list.
Proof.
  intros Hkey Hfile Hext Hsize. unfold OcrConvert.main.
  rewrite Hkey. cbn [negb].
  unfold bind at 1, lookup_file at 1. rewrite Hfile, Hext, Hsize. cbn [negb].
  unfold bind at 1, try_except at 1, http at 1.
  destruct (net s (sent s)) as [resp| |]; cbn [snd log].
  2:{ unfold bind, print, emit, exit. cbn [snd log]. rewrite <- app_assoc.
      now eexists. }
  2:{ now exists []. }
  match goal with |- context [log (snd (?k ?s1))] =>
    destruct (log_grows any_exn false k s1) as (l & ->)
  end.
  { unfold OcrConvert.handle_result. script_walk. }
  exists l. cbn [log]. now rewrite <- app_assoc.
Qed.

End Bounds.

Section Endings.
Import Py Proc Common Effects.

Lemma ends_normally_or_exits_1 (m : M unit) s :
  within any_event (Z.eqb 1) no_exn false m ->
  fst (m s) = Ret tt \/ fst (m s) = Exit 1.
Proof.
  intros Hm. destruct (Hm s) as (_ & _ & _ & Hr).
  destruct (fst (m s)) as [[]|c|e]; [now left| |discriminate].
  right. f_equal. lia.
Qed.


(** What the interrupt clause of download-result.py ends in:
    [sys.exit(1)], or the [OSError] of an [unlink] on a path that is
    locked, raised right after the line that tells of the interrupt. *)
Lemma interrupted_outcome {A} locked output_file s :
  exists r s',
    @DownloadResult.interrupted A locked output_file s = (r, s')
    /\ (r = Exit 1
        \/ (r = Raise IOError
            /\ (exists path, locked path = true)
            /\ last (log s') = Some (Print "✗ Download cancelled by user"))).
Proof.
  unfold DownloadResult.interrupted.
  unfold bind at 1, print at 1, emit at 1.
  destruct output_file as [path|]; [|eexists _, _; split; [reflexivity|now left]].
  destruct (truthy_str (Some path));
    [|eexists _, _; split; [reflexivity|now left]].
  unfold bind at 1. unfold bind at 1, lookup_file at 1. cbn [fs].
  destruct (fs s !! path) as [data|] eqn:Hfile;
    [|eexists _, _; split; [reflexivity|now left]].
  unfold bind at 1, unlink at 1. cbn [fs].
  destruct (locked path) eqn:Hlocked.
  - eexists _, _. split; [reflexivity|]. right.
    split; [reflexivity|]. split; [now exists path|].
    cbn [log]. now rewrite last_app.
  - rewrite Hfile. eexists _, _. split; [reflexivity|now left].
Qed.

Lemma download_handlers_outcome {A} (m : M A) locked output_file s :
  within any_event (Z.eqb 1) any_exn false m ->
  let run := try_except m (DownloadResult.handlers locked output_file) s in
  (exists a, fst run = Ret a)
  \/ fst run = Exit 1
  \/ (fst run = Raise IOError
      /\ (exists path, locked path = true)
      /\ last (log (snd run)) = Some (Print "✗ Download cancelled by user")).
Proof.
  intros Hm. cbv zeta. unfold try_except.
  destruct (Hm s) as (_ & _ & _ & Hr).
  destruct (m s) as [[a|c|e] s1]; cbn [fst snd] in *.
  - left. now exists a.
  - right; left. f_equal. lia.
  - right.
    destruct e; cbn [DownloadResult.handlers];
      try (unfold bind, print, emit, exit; cbn [fst]; now left).
    destruct (interrupted_outcome (A := A) locked output_file s1)
      as (r & s' & -> & [->|(-> & Hpath & Hlast)]); cbn [fst snd]; auto.
Qed.



(** X3.  check-status.py, with or without [--watch], returns normally or
    leaves through [sys.exit] with status 0 or 1, whatever the service
    does; no exception gets out. *)
Theorem check_status_exits_0_or_1 key job_id watching s :
  let run := CheckStatus.check_status key job_id watching s in
  fst run = Ret tt \/ fst run = Exit 0 \/ fst run = Exit 1.
Proof.
  cbv zeta.
  destruct (within_check_status any_event (fun c => (c =? 0) || (c =? 1)))
    with (frozen := true) (key := key) (job_id := job_id) (watching := watching) (s := s)
    as (_ & _ & _ & Hr); try any_event_side.
  destruct (fst (CheckStatus.check_status key job_id watching s))
    as [[]|c|e]; [now left| |discriminate].
  right. apply orb_true_iff in Hr as [H|H]; [left|right]; f_equal; lia.
Qed.

(** X4.  Ctrl-C never gets out of the OCR script: it returns normally,
    exits 1, or dies of an exception that is not [KeyboardInterrupt]. *)
Theorem ocr_script_handles_interrupt cfg input_file language s :
  let run := OcrConvert.script cfg input_file language s in
  fst run = Ret tt \/ fst run = Exit 1
  \/ exists e, fst run = Raise e /\ e <> KeyboardInterrupt.
Proof.
  cbv zeta.
  destruct (within_ocr_script any_event (Z.eqb 1))
    with (cfg := cfg) (input_file := input_file) (language := language)
         (s := s) as (_ & _ & _ & Hr); try any_event_side.
  destruct (fst (OcrConvert.script cfg input_file language s))
    as [[]|c|e]; [now left| |].
  - right; left. f_equal. lia.
  - right; right. exists e. split; [reflexivity|]. now intros ->.
Qed.


End Endings.

Section LoopBounds.
Import Py Proc Common Effects.

(** The trace of a waiting loop, from a run: the events added to the log
    hold [k] rounds at most. *)
Lemma polls_at_most_intro {A} n job_id (m : M A) :
  (forall s r s', m s = (r, s') ->
     exists l,
       log s' = (log s ++ l)%list
       /\ (polls l <= n)%nat
       /\ sleeps l = polls l
       /\ requests_of l = replicate (polls l) (GetJob job_id)
       /\ sent s' = (sent s + polls l)%nat
       /\ fs s' = fs s) ->
  polls_at_most n job_id m.
Proof.
  intros H s. destruct (m s) as [r s'] eqn:E. exact (H s r s' E).
Qed.

Ltac one_round job_id :=
  exists [Sleep 2; Request (GetJob job_id)]; cbn [fst snd log sent fs];
  rewrite <- ?app_assoc; repeat split; cbn; lia.

Lemma polls_at_most_monitor status_of job_id n : forall status job_status,
  polls_at_most n job_id (monitor status_of n job_id status job_status).
Proof.
  induction n as [|n IH]; intros status job_status;
    apply polls_at_most_intro; intros s r s' E.
  - injection E as <- <-. exists []. cbn. rewrite app_nil_r.
    repeat split; lia.
  - cbn [monitor] in E. destruct (in_strs status waiting).
    2:{ injection E as <- <-. exists []. cbn. rewrite app_nil_r.
        repeat split; lia. }
    unfold bind at 1, sleep at 1, emit at 1 in E.
    unfold bind at 1, http at 1 in E. cbn [net sent log fs] in E.
    destruct (net s (sent s)) as [resp| |].
    2,3: injection E as <- <-; one_round job_id.
    destruct (status_code resp >=? 400).
    { unfold bind, print, emit, exit in E. cbn [fst snd log sent fs] in E.
      injection E as <- <-.
      exists [Sleep 2; Request (GetJob job_id);
              Print "✗ Failed to check status"].
      cbn [log sent fs]. rewrite <- !app_assoc. repeat split; cbn; lia. }
    unfold bind at 1, lift at 1 in E.
    destruct (json_of resp) as [v| |].
    2,3: injection E as <- <-; one_round job_id.
    unfold bind at 1, lift at 1 in E.
    destruct (status_of v) as [st| |].
    2,3: injection E as <- <-; one_round job_id.
    match type of E with monitor _ _ _ _ _ ?s1 = _ =>
      destruct (IH st (Some v) s1) as (l & Hl & Hp & Hsl & Hr & Hs & Hf)
    end.
    rewrite E in Hl, Hs, Hf. cbn [fst snd log sent fs] in Hl, Hs, Hf.
    exists ([Sleep 2; Request (GetJob job_id)] ++ l)%list.
    rewrite Hl, Hs, Hf.
    rewrite <- !app_assoc, polls_app, sleeps_app, requests_of_app.
    change (polls [Sleep 2; Request (GetJob job_id)]) with 1%nat.
    change (sleeps [Sleep 2; Request (GetJob job_id)]) with 1%nat.
    cbn [requests_of app]. rewrite Hr, Hsl.
    repeat split; cbn [replicate Nat.add]; try lia.
Qed.

(** X6.  The waiting loops of convert.py, convert-from-url.py and
    upload-large-file.py ask for the job at most 60, 90 and 180 times,
    whatever the service answers; they sleep once for each request, ask
    for nothing but the status of their job and leave the file system
    alone. *)
Theorem waiting_loops_poll_at_most_their_ceiling job_id status :
  polls_at_most 60 job_id (SimpleConvert.poll job_id status)
  /\ polls_at_most 90 job_id (UrlConvert.poll job_id status)
  /\ polls_at_most 180 job_id (ChunkedUpload.poll job_id).
Proof.
  split; [|split]; apply polls_at_most_monitor.
Qed.

Lemma ocr_poll_run job_id n : forall status job_status s r s',
  OcrConvert.poll n job_id status job_status s = (r, s') ->
  (exists l,
     log s' = (log s ++ l)%list
     /\ (polls l <= n)%nat
     /\ sleeps l = polls l
     /\ requests_of l = replicate (polls l) (GetJob job_id)
     /\ sent s' = (sent s + polls l)%nat
     /\ fs s' = fs s)
  /\ net s' = net s
  /\ ((exists v, r = Ret v)
      \/ r = Raise KeyboardInterrupt
         /\ exists i, (sent s <= i)%nat /\ net s i = Interrupted).
Proof.
  induction n as [|n IH]; intros status job_status s r s' E.
  - injection E as <- <-. split; [|split; [reflexivity|left; eauto]].
    exists []. cbn. rewrite app_nil_r. repeat split; lia.
  - cbn [OcrConvert.poll] in E.
    destruct (negb (in_strs status ["processing"; "queued"])).
    { injection E as <- <-. split; [|split; [reflexivity|left; eauto]].
      exists []. cbn. rewrite app_nil_r. repeat split; lia. }
    unfold bind at 1, sleep at 1, emit at 1 in E.
    unfold bind at 1, try_except at 1, bind at 1, http at 1 in E.
    cbn [net sent log fs] in E.
    destruct (net s (sent s)) as [resp| |] eqn:Hn; cbn [is_Exception] in E.
    3:{ injection E as <- <-. split; [one_round job_id|].
        split; [reflexivity|]. right. split; [reflexivity|].
        exists (sent s). split; [lia|assumption]. }
    all: unfold ret at 1 in E;
      match type of E with OcrConvert.poll _ _ ?st ?js ?s1 = _ =>
        destruct (IH st js s1 r s' E)
          as ((l & Hl & Hp & Hsl & Hr & Hs & Hf) & Hnet & Hres)
      end;
      cbn [net sent log fs] in *;
      (split;
       [exists ([Sleep 2; Request (GetJob job_id)] ++ l)%list;
        rewrite Hl, Hs, Hf;
        rewrite <- !app_assoc, polls_app, sleeps_app, requests_of_app;
        change (polls [Sleep 2; Request (GetJob job_id)]) with 1%nat;
        change (sleeps [Sleep 2; Request (GetJob job_id)]) with 1%nat;
        cbn [requests_of app]; rewrite Hr, Hsl;
        repeat split; cbn [replicate Nat.add]; try lia
       |split; [assumption|];
        destruct Hres as [Hv|(-> & i & Hi & Hint)]; [now left|];
        right; split; [reflexivity|]; exists i; split; [lia|assumption]]).
Qed.

(** X7.  The polling loop of the OCR script asks for the job at most 150
    times, sleeping once for each request, and nothing but Ctrl-C gets out
    of it: a network error, an HTTP error or a body that does not decode
    leaves the loop running, and the loop ends normally. *)
Theorem ocr_poll_outlasts_every_error job_id status job_status s :
  let run :=
    OcrConvert.poll OcrConvert.max_attempts job_id status job_status s in
  polls_at_most 150 job_id
                (OcrConvert.poll OcrConvert.max_attempts job_id status
                                 job_status)
  /\ ((exists v, fst run = Ret v)
      \/ fst run = Raise KeyboardInterrupt
         /\ exists i, net s i = Interrupted).
Proof.
  cbv zeta. split.
  - apply polls_at_most_intro. intros s0 r s' E.
    now apply (ocr_poll_run _ _ _ _ _ _ _ E).
  - destruct (OcrConvert.poll OcrConvert.max_attempts job_id status
                              job_status s) as [r s'] eqn:E.
    destruct (ocr_poll_run _ _ _ _ _ _ _ E) as (_ & _ & [Hv|(-> & i & _ & Hi)]).
    + now left.
    + right. split; [reflexivity|now exists i].
Qed.

End LoopBounds.

Section Watching.
Import Py Proc Common Effects.

Ltac prints_side := first [reflexivity | intros; reflexivity].

(** Through the text of check-status.py once the reply is in: nothing
    but diagnostic lines. *)
Ltac print_walk :=
  repeat first
    [ solve [auto with within]
    | lazymatch goal with
      | |- within _ _ _ _ (CheckStatus.report_error _) =>
          apply within_check_report_error; prints_side
      | |- within _ _ _ _ (CheckStatus.display_job_details _) =>
          apply within_display_job_details; prints_side
      | |- within _ _ _ _ (CheckStatus.print_job_error _) =>
          apply within_print_job_error; prints_side
      | |- _ => within_step
      end ].

Lemma prints_are_quiet l :
  forallb is_print l = true ->
  polls l = 0%nat /\ sleeps l = 0%nat /\ requests_of l = [].
Proof.
  induction l as [|e l IH]; [now repeat split|].
  cbn [forallb]. intros [He Hl]%andb_true_iff.
  destruct (IH Hl) as (Hp & Hs & Hr).
  destruct e as [r|n|line|line v]; try discriminate; cbn in *; auto.
Qed.

(** What a computation that only prints leaves behind. *)
Lemma printing_run {A} codes exns (m : M A) s r s' :
  within is_print codes exns true m ->
  m s = (r, s') ->
  exists l,
    log s' = (log s ++ l)%list
    /\ forallb is_print l = true
    /\ sent s' = sent s
    /\ fs s' = fs s
    /\ match r with Exit c => codes c = true | _ => True end.
Proof.
  intros Hm E.
  destruct (Hm s) as ((l & Hl & Hev & Hsent) & _ & Hfs & Hr).
  rewrite E in *. cbn [fst snd] in *.
  exists l. destruct (prints_are_quiet l Hev) as (_ & _ & Hreq).
  rewrite Hreq in Hsent. cbn in Hsent.
  repeat split; auto; try lia.
  destruct r; auto.
Qed.

Lemma watch_step_run job_id previous_status s r s' :
  CheckStatus.watch_step job_id previous_status s = (r, s') ->
  exists l,
    log s' = (log s ++ Request (GetJob job_id) :: l)%list
    /\ forallb is_print l = true
    /\ sent s' = S (sent s)
    /\ fs s' = fs s.
Proof.
  unfold CheckStatus.watch_step. unfold bind at 1, http at 1.
  destruct (net s (sent s)) as [resp| |].
  2,3: intros [= <- <-]; exists []; cbn; now repeat split.
  intros E.
  apply (printing_run zero_or_one any_exn) in E.
  - destruct E as (l & Hl & Hev & Hsent & Hfs & _).
    cbn [log sent fs] in *. exists l. rewrite Hl, <- app_assoc.
    now repeat split.
  - print_walk.
Qed.

Lemma watch_loop_run job_id n : forall attempts previous_status s r s',
  CheckStatus.watch_loop n attempts job_id previous_status s = (r, s') ->
  exists l,
    log s' = (log s ++ l)%list
    /\ (polls l <= n)%nat
    /\ (sleeps l <= polls l)%nat
    /\ requests_of l = replicate (polls l) (GetJob job_id)
    /\ sent s' = (sent s + polls l)%nat
    /\ fs s' = fs s.
Proof.
  induction n as [|n IH]; intros attempts previous_status s r s' E.
  - injection E as <- <-. exists []. cbn. rewrite app_nil_r.
    repeat split; lia.
  - cbn [CheckStatus.watch_loop] in E. unfold bind at 1 in E.
    destruct (CheckStatus.watch_step job_id previous_status s)
      as [r1 s1] eqn:E1.
    destruct (watch_step_run _ _ _ _ _ E1) as (l1 & Hl1 & Hev1 & Hs1 & Hf1).
    destruct (prints_are_quiet l1 Hev1) as (Hp & Hsl & Hr).
    assert (exists l,
              log s1 = (log s ++ l)%list
              /\ polls l = 1%nat /\ sleeps l = 0%nat
              /\ requests_of l = [GetJob job_id]) as (l0 & Hl0 & Hp0 & Hsl0 & Hr0).
    { exists (Request (GetJob job_id) :: l1). split; [assumption|].
      change (Request (GetJob job_id) :: l1)
        with ([Request (GetJob job_id)] ++ l1)%list.
      rewrite polls_app, sleeps_app, requests_of_app, Hp, Hsl, Hr.
      now repeat split. }
    destruct r1 as [[|previous_status']|c|e].
    + injection E as <- <-. exists l0. rewrite Hp0, Hsl0, Hr0.
      repeat split; auto; lia.
    + unfold bind at 1, sleep at 1, emit at 1 in E.
      apply IH in E as (l & Hl & Hpl & Hsll & Hrl & Hsent & Hfs).
      cbn [log sent fs] in *.
      exists (l0 ++ [Sleep 2] ++ l)%list.
      rewrite Hl, Hl0, <- !app_assoc.
      rewrite !polls_app, !sleeps_app, !requests_of_app, Hp0, Hsl0, Hr0, Hrl.
      change (polls [Sleep 2]) with 0%nat.
      change (sleeps [Sleep 2]) with 1%nat.
      cbn [requests_of app Nat.add replicate].
      repeat split; auto; try lia. congruence.
    + injection E as <- <-. exists l0. rewrite Hp0, Hsl0, Hr0.
      repeat split; auto; lia.
    + injection E as <- <-. exists l0. rewrite Hp0, Hsl0, Hr0.
      repeat split; auto; lia.
Qed.

(** The three [except] clauses only print. *)
Lemma handlers_run (m : M unit) cancelled s r s' :
  try_except m (handlers cancelled) s = (r, s') ->
  exists l,
    log s' = (log (snd (m s)) ++ l)%list
    /\ forallb is_print l = true
    /\ sent s' = sent (snd (m s))
    /\ fs s' = fs (snd (m s)).
Proof.
  unfold try_except. destruct (m s) as [[[]|c|e] s1]; cbn [snd].
  1,2: intros [= <- <-]; exists []; rewrite app_nil_r; now repeat split.
  pose proof (within_handlers is_print zero_or_one eq_refl
                ltac:(prints_side) true cancelled e) as Hh.
  destruct (handlers cancelled e) as [handler|]; [|discriminate].
  intros E. apply (printing_run _ _ _ _ _ _ Hh) in E.
  destruct E as (l & Hl & Hev & Hsent & Hfs & _). now exists l.
Qed.

(** X8.  check-status.py only reads: every request it makes is the
    job-status request of the job it was given, at most 300 of them with
    [--watch] and at most one without, with no more sleeps than requests,
    and the file system is left as it was. *)
Theorem check_status_only_reads_the_job key job_id watching s :
  let run := CheckStatus.check_status key job_id watching s in
  exists l,
    log (snd run) = (log s ++ l)%list
    /\ (polls l <= if watching then 300 else 1)%nat
    /\ (sleeps l <= polls l)%nat
    /\ requests_of l = replicate (polls l) (GetJob (JStr job_id))
    /\ sent (snd run) = (sent s + polls l)%nat
    /\ fs (snd run) = fs s.
Proof.
  cbv zeta.
  destruct (CheckStatus.check_status key job_id watching s) as [r s'] eqn:E.
  cbn [fst snd]. unfold CheckStatus.check_status in E.
  destruct (negb (truthy_str key)).
  { unfold bind, print, emit, exit in E. injection E as <- <-.
    eexists [_]. cbn [log sent fs]. split; [reflexivity|].
    cbn. destruct watching; repeat split; lia. }
  apply handlers_run in E as (l2 & Hl2 & Hev2 & Hsent2 & Hfs2).
  destruct (prints_are_quiet l2 Hev2) as (Hp2 & Hsl2 & Hr2).
  assert (exists l1,
            log (snd ((if watching then CheckStatus.watch (JStr job_id)
                       else CheckStatus.single_check (JStr job_id)) s))
            = (log s ++ l1)%list
            /\ (polls l1 <= if watching then 300 else 1)%nat
            /\ (sleeps l1 <= polls l1)%nat
            /\ requests_of l1 = replicate (polls l1) (GetJob (JStr job_id))
            /\ sent (snd ((if watching then CheckStatus.watch (JStr job_id)
                           else CheckStatus.single_check (JStr job_id)) s))
               = (sent s + polls l1)%nat
            /\ fs (snd ((if watching then CheckStatus.watch (JStr job_id)
                         else CheckStatus.single_check (JStr job_id)) s))
               = fs s) as (l1 & Hl1 & Hp1 & Hsl1 & Hr1 & Hsent1 & Hfs1).
  { clear. destruct watching.
    - destruct (CheckStatus.watch (JStr job_id) s) as [r s'] eqn:E.
      cbn [snd]. unfold CheckStatus.watch in E. unfold bind at 1 in E.
      destruct (CheckStatus.watch_loop CheckStatus.max_attempts 0
                                       (JStr job_id) JNull s)
        as [r1 s1] eqn:E1.
      apply watch_loop_run in E1 as (l & Hl & Hp & Hsl & Hr & Hsent & Hfs).
      change CheckStatus.max_attempts with 300%nat in Hp.
      destruct r1 as [attempts|c|e].
      2,3: injection E as <- <-; exists l; now repeat split.
      apply (printing_run zero_or_one any_exn) in E; [|print_walk].
      destruct E as (l' & Hl' & Hev' & Hsent' & Hfs' & _).
      destruct (prints_are_quiet l' Hev') as (Hp' & Hsl' & Hr').
      exists (l ++ l')%list.
      rewrite Hl', Hl, <- app_assoc, polls_app, sleeps_app, requests_of_app.
      rewrite Hp', Hsl', Hr', !Nat.add_0_r, app_nil_r.
      repeat split; auto; congruence.
    - destruct (CheckStatus.single_check (JStr job_id) s) as [r s'] eqn:E.
      cbn [snd]. unfold CheckStatus.single_check in E.
      unfold bind at 1, http at 1 in E.
      destruct (net s (sent s)) as [resp| |].
      2,3: injection E as <- <-; eexists [_]; cbn [log sent fs];
           split; [reflexivity|]; cbn; repeat split; lia.
      apply (printing_run zero_or_one any_exn) in E; [|print_walk].
      destruct E as (l' & Hl' & Hev' & Hsent' & Hfs' & _).
      destruct (prints_are_quiet l' Hev') as (Hp' & Hsl' & Hr').
      cbn [log sent fs] in *.
      exists ([Request (GetJob (JStr job_id))] ++ l')%list.
      rewrite Hl', <- app_assoc, polls_app, sleeps_app, requests_of_app.
      rewrite Hp', Hsl', Hr'. cbn. repeat split; auto; lia. }
  exists (l1 ++ l2)%list.
  rewrite Hl2, Hl1, Hsent2, Hsent1, Hfs2, Hfs1.
  rewrite <- app_assoc, polls_app, sleeps_app, requests_of_app.
  rewrite Hp2, Hsl2, Hr2, !Nat.add_0_r, app_nil_r.
  now repeat split.
Qed.

End Watching.

Section Saving.
Import Py Proc Common Effects.

Lemma save_all_whole path chunks : forall s old,
  fs s !! path = Some old ->
  OcrConvert.save_all path (map Data chunks) s
  = (Ret tt,
     mkState (net s) (sent s) (log s)
             (<[path := (old ++ concat chunks)%list]> (fs s))).
Proof.
  induction chunks as [|chunk chunks IH]; intros s old Hold.
  - cbn. rewrite app_nil_r, insert_id by assumption. now destruct s.
  - cbn [map OcrConvert.save_all concat].
    unfold bind at 1, write at 1.
    erewrite IH.
    2:{ cbn [fs]. rewrite lookup_alter_eq, Hold. reflexivity. }
    cbn [net sent log fs]. f_equal. f_equal.
    rewrite <- app_assoc.
    rewrite <- (insert_id (fs s) path old) at 1 by assumption.
    now rewrite alter_insert_eq, insert_insert_eq.
Qed.

(** Opening the file and streaming into it. *)
Lemma open_and_save locked path chunks s :
  locked path = false ->
  bind (open_wb locked path) (fun _ => save_stream path (map Data chunks)) s
  = (Ret tt,
     mkState (net s) (sent s) (log s) (<[path := concat chunks]> (fs s))).
Proof.
  intros Hfree. unfold bind, open_wb. rewrite Hfree.
  rewrite (save_stream_whole path chunks _ []) by apply lookup_insert_eq.
  cbn [net sent log fs app]. now rewrite insert_insert_eq.
Qed.

End Saving.

Section Downloading.
Import Py Proc Common Effects.

Lemma index_get d k v default : index d k = Ret v -> get d k default = Ret v.
Proof.
  destruct d as [| | | | |fields]; try discriminate. cbn.
  destruct (assoc k fields); [now intros [= ->]|discriminate].
Qed.

Lemma index_dict d k v : index d k = Ret v -> exists fields, d = JObj fields.
Proof. destruct d as [| | | | |fields]; try discriminate. eauto. Qed.

(** X9.  The download of download-result.py.  When the output path can
    be written, the result has a download URL, the request is answered
    200 with a [content-length] that a float can hold (or none) and the
    stream arrives whole, the output file holds exactly the chunks
    received, in order (what the file held before is gone), [Download
    complete] is printed, and the mismatch warning follows exactly when
    the number of bytes written differs from a positive
    [content-length]. *)
Theorem fetch_saves_what_is_streamed locked path result url resp chunks size
        s :
  locked path = false ->
  get result "download_url" (JStr "") = Ret url ->
  truthy url = true ->
  net s (sent s) = Response resp ->
  status_code resp = 200 ->
  total_size_of resp = Ret size ->
  Float.int_too_large size = false ->
  content resp = map Data chunks ->
  let written := Z.of_nat (length (concat chunks)) in
  DownloadResult.fetch locked path result s
  = (Ret tt,
     mkState (net s) (S (sent s))
       (log s ++ [Request (GetUrl url); Print "✓ Download complete!"]
              ++ (if negb (written =? size) && (size >? 0)
                  then [Print "⚠️  Warning: File size mismatch"]
                  else []))
       (<[path := concat chunks]> (fs s))).
Proof.
  intros Hfree Hurl Htruthy Hn Hcode Hsize Hfloat Hcontent written.
  subst written. now apply fetch_whole with (resp := resp).
Qed.

(** The same download answered with a page of the gateway. *)
Lemma fetch_witness :
  DownloadResult.fetch
    unlocked "out.pdf"
    (JObj [("download_url", JStr "https://cdn.example/j1.pdf")])
    (boot (fun _ => Runs.whole_download) ∅)
  = (Ret tt,
     mkState (fun _ => Runs.whole_download) 1
       [Request (GetUrl (JStr "https://cdn.example/j1.pdf"));
        Print "✓ Download complete!"]
       (<["out.pdf" := [Byte.x25; Byte.x50; Byte.x44]]> ∅)).
Proof.
  refine (fetch_saves_what_is_streamed
            unlocked "out.pdf" _ (JStr "https://cdn.example/j1.pdf")
            (mkResponse 200 NotJson (HInt 3)
               [Data [Byte.x25; Byte.x50]; Data [Byte.x44]])
            [[Byte.x25; Byte.x50]; [Byte.x44]] 3
            (boot (fun _ => Runs.whole_download) ∅) _ _ _ _ _ _ _ _);
    reflexivity.
Defined.

(** X10.  upload-large-file.py saves whatever the download request is
    answered with: [download_large_file] never looks at the HTTP status,
    so, the name made up for the download being free to write and the
    [content-length] one a float can hold (or absent), the body of any
    response, an error page included, becomes the converted file and
    [File saved] is printed. *)
Theorem large_download_ignores_http_status cfg url resp chunks size s :
  ChunkedUpload.locked cfg (ChunkedUpload.generated_name cfg) = false ->
  net s (sent s) = Response resp ->
  total_size_of resp = Ret size ->
  Float.int_too_large size = false ->
  content resp = map Data chunks ->
  ChunkedUpload.download_large_file cfg url s
  = (Ret tt,
     mkState (net s) (S (sent s))
       (log s ++ [Request (GetUrl url); Print "✓ File saved"])
       (<[ChunkedUpload.generated_name cfg := concat chunks]> (fs s))).
Proof.
  intros Hfree Hn Hsize Hfloat Hcontent.
  unfold ChunkedUpload.download_large_file, try_except.
  unfold bind at 1, http at 1. rewrite Hn.
  unfold bind at 1, lift at 1. rewrite Hsize.
  rewrite Hcontent.
  unfold bind at 1, open_wb at 1. rewrite Hfree. cbn [net sent log fs].
  unfold bind at 1, lift at 1, progress_bar. rewrite Hfloat.
  unfold bind at 1.
  rewrite (save_stream_whole _ chunks _ []) by apply lookup_insert_eq.
  cbn [net sent log fs app]. rewrite insert_insert_eq.
  unfold print, emit. cbn [net sent log fs]. now rewrite <- !app_assoc.
Qed.

(** The download answered 404: the page is saved as the converted file. *)
Lemma large_download_witness :
  ChunkedUpload.download_large_file
    Runs.upload_config Cases.converted_url
    (boot (fun _ => Response Cases.not_found) ∅)
  = (Ret tt,
     mkState (fun _ => Response Cases.not_found) 1
       [Request (GetUrl Cases.converted_url); Print "✓ File saved"]
       (<["converted_0.mp4" := [Byte.x3c; Byte.x68; Byte.x3e]]> ∅)).
Proof.
  refine (large_download_ignores_http_status
            Runs.upload_config Cases.converted_url Cases.not_found
            [[Byte.x3c; Byte.x68; Byte.x3e]] 3
            (boot (fun _ => Response Cases.not_found) ∅) _ _ _ _ _);
    reflexivity.
Defined.

End Downloading.

Section Cached.
Import Py Proc Common Effects.

Lemma index_truthy d k v : index d k = Ret v -> truthy d = true.
Proof.
  destruct d as [| | | | |fields]; try discriminate. cbn.
  destruct fields; [discriminate|reflexivity].
Qed.

(** The result handler on a finished job whose size a float can hold:
    the line of success, then the download. *)
Lemma handle_results_finished fetch advice job result url s :
  finished job result url ->
  (forall size,
     index result "file_size" = Ret (JNum size) ->
     Float.int_too_large size = false) ->
  handle_results fetch advice (JStr "completed") (Some job) s
  = bind (print "✓ Conversion complete!") (fun _ => fetch result) s.
Proof.
  intros (job_id & format & size & expires_at
          & Hid & Hst & Hres & Hurl & Htruthy & Hfmt & Hsize & Hexp) Hfloat.
  destruct (index_dict _ _ _ Hid) as (fields & ->).
  unfold handle_results. cbn [eq_str String.eqb Ascii.eqb Bool.eqb].
  unfold get_opt, index_opt.
  unfold bind at 1. unfold bind at 1, lift at 1.
  rewrite (index_get _ _ _ (JObj []) Hres).
  unfold bind at 1, lift at 1.
  rewrite (index_get _ _ _ JNull Hurl).
  unfold ret at 1. rewrite Htruthy.
  rewrite Hres.
  unfold bind, lift, print, emit. rewrite Hurl, Hfmt, Hsize, Hexp.
  unfold format_file_size. rewrite (Hfloat size Hsize).
  reflexivity.
Qed.

(** convert.py on a submission answered by a finished job: the cached
    result is announced and handed to the result handler. *)
Lemma convert_file_reaches_cached_result cfg input_file target_format output
      server files data resp job result url :
  truthy_str (SimpleConvert.API_KEY cfg) = true ->
  files !! input_file = Some data ->
  Z.of_nat (length data) <= 52428800 ->
  server 0%nat = Response resp ->
  status_code resp < 400 ->
  payload resp = Json job ->
  finished job result url ->
  exists job_id,
    SimpleConvert.convert_file cfg input_file target_format output
                               (boot server files)
    = try_except
        (handle_results
           (download (SimpleConvert.locked cfg) output
                     (SimpleConvert.answer cfg)
                     (SimpleConvert.generated_name cfg))
           (printf "Check status with: python job-management/check-status.py "
                   job_id)
           (JStr "completed") (Some job))
        (handlers "✗ Conversion cancelled by user")
        (mkState server 1
           [Request (PostConvert input_file target_format);
            Print "✓ Using cached result (instant conversion)"]
           files).
Proof.
  intros Hkey Hfile Hsize Hsrv Hcode Hbody Hfin.
  pose proof Hfin as (job_id & format & size & expires_at
          & Hid & Hst & Hres & Hurl & Htruthy & Hfmt & Hfs & Hexp).
  exists job_id.
  unfold SimpleConvert.convert_file. rewrite Hkey. cbn [negb].
  unfold bind at 1, lookup_file at 1, boot. cbn [fs]. rewrite Hfile.
  assert ((Z.of_nat (length data) >? 50 * 1048576) = false) as -> by lia.
  unfold try_except, SimpleConvert.submit_and_wait.
  unfold bind at 1, http at 1. cbn [net sent log fs]. rewrite Hsrv.
  assert ((status_code resp >=? 400) = false) as -> by lia.
  unfold bind at 1, lift at 1, json_of. rewrite Hbody.
  unfold bind at 1, lift at 1. rewrite Hid.
  unfold bind at 1, lift at 1.
  rewrite (index_get _ _ _ (JStr "processing") Hst).
  cbn [eq_str String.eqb Ascii.eqb Bool.eqb].
  unfold bind at 1. unfold bind at 1, lift at 1.
  rewrite (index_get _ _ _ JNull Hres).
  unfold ret at 1. rewrite (index_truthy _ _ _ Hurl).
  unfold bind at 1. unfold bind at 1, print at 1, emit at 1, ret at 1.
  cbn [fst snd net sent log fs app].
  reflexivity.
Qed.

(** The same, the size of the result being one a float can hold: the
    download is next. *)
Lemma convert_file_served_from_cache cfg input_file target_format output
      server files data resp job result url :
  truthy_str (SimpleConvert.API_KEY cfg) = true ->
  files !! input_file = Some data ->
  Z.of_nat (length data) <= 52428800 ->
  server 0%nat = Response resp ->
  status_code resp < 400 ->
  payload resp = Json job ->
  finished job result url ->
  (forall size,
     index result "file_size" = Ret (JNum size) ->
     Float.int_too_large size = false) ->
  SimpleConvert.convert_file cfg input_file target_format output
                             (boot server files)
  = try_except
      (download (SimpleConvert.locked cfg) output (SimpleConvert.answer cfg)
                (SimpleConvert.generated_name cfg) result)
      (handlers "✗ Conversion cancelled by user")
      (mkState server 1
         [Request (PostConvert input_file target_format);
          Print "✓ Using cached result (instant conversion)";
          Print "✓ Conversion complete!"]
         files).
Proof.
  intros Hkey Hfile Hsize Hsrv Hcode Hbody Hfin Hfloat.
  destruct (convert_file_reaches_cached_result cfg input_file target_format
              output server files data resp job result url
              Hkey Hfile Hsize Hsrv Hcode Hbody Hfin) as (job_id & ->).
  unfold try_except.
  rewrite (handle_results_finished _ _ _ _ _ _ Hfin Hfloat).
  unfold bind at 1, print at 1, emit at 1. cbn [net sent log fs app].
  reflexivity.
Qed.

Lemma no_waiting_is_quiet l :
  forallb no_waiting l = true -> polls l = 0%nat /\ sleeps l = 0%nat.
Proof.
  induction l as [|e l IH]; [now split|].
  cbn [forallb]. intros [He Hl]%andb_true_iff.
  destruct (IH Hl) as (Hp & Hs).
  unfold no_waiting in He. apply andb_true_iff in He as [H1 H2].
  unfold polls, sleeps in *. cbn [List.filter].
  destruct (is_poll e); [discriminate|].
  destruct (is_sleep e); [discriminate|]. now split.
Qed.

(** X11.  A result served from the cache is neither polled nor waited
    for: when the submission of convert.py is answered by a job that is
    already completed and carries its result, the run holds no job-status
    request and no sleep, announces the cached result, and ends normally
    or with status 1. *)
Theorem cached_result_is_not_polled cfg input_file target_format output
        server files data resp job result url :
  truthy_str (SimpleConvert.API_KEY cfg) = true ->
  files !! input_file = Some data ->
  Z.of_nat (length data) <= 52428800 ->
  server 0%nat = Response resp ->
  status_code resp < 400 ->
  payload resp = Json job ->
  finished job result url ->
  let run :=
    SimpleConvert.convert_file cfg input_file target_format output
                               (boot server files) in
  polls (log (snd run)) = 0%nat
  /\ sleeps (log (snd run)) = 0%nat
  /\ In (Print "✓ Using cached result (instant conversion)") (log (snd run))
  /\ (fst run = Ret tt \/ fst run = Exit 1).
Proof.
  intros Hkey Hfile Hsize Hsrv Hcode Hbody Hfin run. subst run.
  destruct (convert_file_reaches_cached_result cfg input_file target_format
              output server files data resp job result url
              Hkey Hfile Hsize Hsrv Hcode Hbody Hfin) as (job_id & ->).
  match goal with |- context [try_except ?m ?h ?s1] =>
    destruct (within_try_handlers no_waiting (Z.eqb 1) eq_refl
                ltac:(intros; reflexivity) false m
                "✗ Conversion cancelled by user"
                ltac:(apply within_handle_results;
                      first [ reflexivity
                            | intros; reflexivity
                            | intros; apply within_download;
                              intros; reflexivity
                            | apply within_printf; intros; reflexivity ])
                s1)
      as ((l & Hl & Hev & _) & _ & _ & Hr);
    destruct (try_except m h s1) as [r s'] eqn:E
  end.
  cbn [fst snd log] in *.
  destruct (no_waiting_is_quiet l Hev) as (Hp & Hs).
  rewrite Hl, polls_app, sleeps_app, Hp, Hs.
  split; [reflexivity|]. split; [reflexivity|].
  split; [apply in_or_app; left; right; now left|].
  destruct r as [[]|c|e]; [now left| |discriminate].
  right. f_equal. lia.
Qed.

(** The image of two bytes, converted at once: one submission, one
    download cut by Ctrl-C, no poll. *)
Lemma cached_result_witness :
  let run :=
    SimpleConvert.convert_file Runs.simple_config "scan.png" "pdf"
                               (Some "out.pdf")
                               (boot Runs.interrupted_service Runs.files) in
  polls (log (snd run)) = 0%nat
  /\ sleeps (log (snd run)) = 0%nat
  /\ In (Print "✓ Using cached result (instant conversion)") (log (snd run))
  /\ (fst run = Ret tt \/ fst run = Exit 1).
Proof.
  apply (cached_result_is_not_polled
           Runs.simple_config "scan.png" "pdf" (Some "out.pdf")
           Runs.interrupted_service Runs.files [Byte.x89; Byte.x50]
           (mkResponse 200 (Json Runs.converted_job) HAbsent [])
           Runs.converted_job Cases.converted_result Cases.converted_url).
  - reflexivity.
  - reflexivity.
  - cbn. lia.
  - reflexivity.
  - cbn. lia.
  - reflexivity.
  - unfold finished. eexists _, _, _, _. repeat split; reflexivity.
Defined.

(** X12.  A download that is refused (a status other than 200) is no
    failure for convert.py: the job being finished and its size one a
    float can hold, the script prints [Download failed] and ends normally,
    with status 0 and no file written.  download-result.py exits 1 on the
    same answer. *)
Theorem refused_download_fails_only_download_result
        cfg input_file target_format path server files data resp job result
        url refusal :
  truthy_str (SimpleConvert.API_KEY cfg) = true ->
  files !! input_file = Some data ->
  Z.of_nat (length data) <= 52428800 ->
  server 0%nat = Response resp ->
  status_code resp < 400 ->
  payload resp = Json job ->
  finished job result url ->
  (forall size,
     index result "file_size" = Ret (JNum size) ->
     Float.int_too_large size = false) ->
  path <> "" ->
  server 1%nat = Response refusal ->
  status_code refusal <> 200 ->
  SimpleConvert.convert_file cfg input_file target_format (Some path)
                             (boot server files)
  = (Ret tt,
     mkState server 2
       [Request (PostConvert input_file target_format);
        Print "✓ Using cached result (instant conversion)";
        Print "✓ Conversion complete!";
        Request (GetUrl url);
        Print "✗ Download failed"]
       files)
  /\ forall locked s,
       net s (sent s) = Response refusal ->
       DownloadResult.fetch locked path result s
       = (Exit 1,
          mkState (net s) (S (sent s))
            (log s ++ [Request (GetUrl url);
                       Print "✗ Failed to download file"])
            (fs s)).
Proof.
  intros Hkey Hfile Hsize Hsrv Hcode Hbody Hfin Hfloat Hpath Hsrv1 Hrefused.
  pose proof Hfin as (job_id & format & size & expires_at
          & Hid & Hst & Hres & Hurl & Htruthy & Hfmt & Hfs & Hexp).
  assert ((status_code refusal =? 200) = false) as Hneq by lia.
  split.
  - rewrite (convert_file_served_from_cache _ _ _ _ _ _ _ _ _ _ _
               Hkey Hfile Hsize Hsrv Hcode Hbody Hfin Hfloat).
    unfold try_except, download. rewrite !(truthy_path _ Hpath).
    unfold bind at 1, lift at 1. rewrite Hurl.
    unfold bind at 1, http at 1. cbn [net sent log fs].
    rewrite Hsrv1, Hneq. reflexivity.
  - intros locked s Hn. unfold DownloadResult.fetch.
    unfold bind at 1, lift at 1.
    rewrite (index_get _ _ _ (JStr "") Hurl), Htruthy. cbn [negb].
    unfold bind at 1, http at 1. rewrite Hn, Hneq. cbn [negb].
    unfold bind, print, emit, exit. cbn [net sent log fs].
    now rewrite <- !app_assoc.
Qed.

(** The converted job, its download answered 404: convert.py leaves with
    status 0 and no file. *)
Lemma refused_download_witness :
  SimpleConvert.convert_file Runs.simple_config "scan.png" "pdf"
                             (Some "out.pdf")
                             (boot Cases.refusing_download Runs.files)
  = (Ret tt,
     mkState Cases.refusing_download 2
       [Request (PostConvert "scan.png" "pdf");
        Print "✓ Using cached result (instant conversion)";
        Print "✓ Conversion complete!";
        Request (GetUrl Cases.converted_url);
        Print "✗ Download failed"]
       Runs.files).
Proof.
  refine (proj1 (refused_download_fails_only_download_result
                   Runs.simple_config "scan.png" "pdf" "out.pdf"
                   Cases.refusing_download Runs.files [Byte.x89; Byte.x50]
                   (mkResponse 200 (Json Runs.converted_job) HAbsent [])
                   Runs.converted_job Cases.converted_result
                   Cases.converted_url Cases.not_found
                   _ _ _ _ _ _ _ _ _ _ _)).
  - reflexivity.
  - reflexivity.
  - cbn. lia.
  - reflexivity.
  - cbn. lia.
  - reflexivity.
  - unfold finished. eexists _, _, _, _. repeat split; reflexivity.
  - intros size [= <-]. reflexivity.
  - discriminate.
  - reflexivity.
  - discriminate.
Defined.

End Cached.

Section Unfinished.
Import Py Proc Common Effects.

(** X13.  download-result.py downloads nothing of a job that is not
    completed: whatever else the status is, it prints [File not
    available] and exits 1, the job-status request being the only request
    made and no file touched. *)
Theorem unfinished_job_is_not_downloaded cfg job_id output_file server files
        resp job st :
  truthy_str (DownloadResult.API_KEY cfg) = true ->
  server 0%nat = Response resp ->
  status_code resp < 400 ->
  payload resp = Json job ->
  get job "status" (JStr "unknown") = Ret st ->
  eq_str st "completed" = false ->
  let run :=
    DownloadResult.download_result cfg job_id output_file
                                   (boot server files) in
  fst run = Exit 1
  /\ requests_of (log (snd run)) = [GetJob (JStr job_id)]
  /\ In (Print "⚠️  File not available") (log (snd run))
  /\ fs (snd run) = files.
Proof.
  intros Hkey Hsrv Hcode Hbody Hst Hno run. subst run.
  assert (Spec.answers_with job job) as Hjob.
  { right. split; [reflexivity|].
    destruct job as [| | | | |fields]; try discriminate. now exists fields. }
  destruct (download_result_unfinished cfg job_id output_file server files
              resp job job st Hkey Hsrv Hcode Hbody Hjob Hst Hno)
    as (rest & -> & Hrest).
  cbn [fst snd log fs requests_of]. rewrite Hrest.
  repeat split. right. now left.
Qed.

(** A job still processing. *)
Lemma unfinished_job_witness :
  let run :=
    DownloadResult.download_result Runs.download_config "j1" None
                                   (boot Runs.always_processing ∅) in
  fst run = Exit 1
  /\ requests_of (log (snd run)) = [GetJob (JStr "j1")]
  /\ In (Print "⚠️  File not available") (log (snd run))
  /\ fs (snd run) = ∅.
Proof.
  apply (unfinished_job_is_not_downloaded
           Runs.download_config "j1" None Runs.always_processing ∅
           (mkResponse 200 (Json (Spec.job_in "processing")) HAbsent [])
           (Spec.job_in "processing") (JStr "processing")).
  - reflexivity.
  - reflexivity.
  - cbn. lia.
  - reflexivity.
  - reflexivity.
  - reflexivity.
Defined.

(** What check-status.py prints about the error of a failed job. *)
Lemma print_job_error_returns job s :
  (forall err,
     get job "error" JNull = Ret err -> truthy err = true ->
     exists fields, err = JObj fields) ->
  (exists fields, job = JObj fields) ->
  exists s', CheckStatus.print_job_error job s = (Ret tt, s').
Proof.
  intros Herr (fields & ->). unfold CheckStatus.print_job_error.
  unfold bind at 1, lift at 1.
  destruct (get (JObj fields) "error" JNull) as [err| |] eqn:E;
    try discriminate.
  destruct (truthy err) eqn:Ht; [|now eexists].
  destruct (Herr err eq_refl Ht) as (f & ->).
  unfold bind, lift, printf, emit, ret. cbn [get].
  match goal with |- context [if ?b then _ else _] => destruct b end;
    eexists; reflexivity.
Qed.

(** The watch loop that finds the job failed at its first request. *)
Lemma watch_loop_failed job_id n attempts s resp job :
  net s (sent s) = Response resp ->
  status_code resp < 400 ->
  payload resp = Json job ->
  index job "status" = Ret (JStr "failed") ->
  (forall err,
     get job "error" JNull = Ret err -> truthy err = true ->
     exists fields, err = JObj fields) ->
  exists s',
    CheckStatus.watch_loop (S n) attempts job_id JNull s = (Exit 1, s').
Proof.
  intros Hsrv Hcode Hbody Hst Herr.
  assert ((status_code resp >=? 400) = false) as Hok by lia.
  cbn [CheckStatus.watch_loop].
  unfold bind at 1. unfold CheckStatus.watch_step.
  unfold bind at 1, http at 1. rewrite Hsrv, Hok.
  unfold bind at 1, lift at 1, json_of. rewrite Hbody.
  unfold bind at 1, lift at 1. rewrite Hst.
  cbn [CheckStatus.changed eq_str String.eqb Ascii.eqb Bool.eqb].
  unfold bind at 1. unfold bind at 1, print at 1, emit at 1.
  cbn [net sent log fs]. unfold bind at 1.
  match goal with |- context [CheckStatus.print_job_error ?j ?s0] =>
    destruct (print_job_error_returns j s0 Herr) as (s1 & ->);
    [exact (index_dict _ _ _ Hst)|]
  end.
  now eexists.
Qed.

(** X14.  A failed job ends check-status.py with status 1 only under
    [--watch]: the single check prints the failure and returns normally,
    with status 0. *)
Theorem single_check_ends_normally_on_a_failed_job key job_id server files
        resp job :
  truthy_str key = true ->
  server 0%nat = Response resp ->
  status_code resp < 400 ->
  payload resp = Json job ->
  index job "status" = Ret (JStr "failed") ->
  (forall err,
     get job "error" JNull = Ret err -> truthy err = true ->
     exists fields, err = JObj fields) ->
  fst (CheckStatus.check_status key job_id false (boot server files)) = Ret tt
  /\ fst (CheckStatus.check_status key job_id true (boot server files))
     = Exit 1.
Proof.
  intros Hkey Hsrv Hcode Hbody Hst Herr.
  assert ((status_code resp >=? 400) = false) as Hok by lia.
  unfold CheckStatus.check_status. rewrite Hkey. cbn [negb].
  split.
  - unfold try_except, CheckStatus.single_check.
    unfold bind at 1, http at 1, boot. cbn [net sent log fs].
    rewrite Hsrv, Hok.
    unfold bind at 1, lift at 1, json_of. rewrite Hbody.
    unfold bind at 1, lift at 1. rewrite Hst.
    cbn [eq_str String.eqb Ascii.eqb Bool.eqb].
    unfold bind at 1. unfold bind at 1, print at 1, emit at 1.
    cbn [net sent log fs].
    match goal with |- context [CheckStatus.print_job_error ?j ?s0] =>
      destruct (print_job_error_returns j s0 Herr) as (s1 & ->);
      [exact (index_dict _ _ _ Hst)|]
    end.
    destruct (index_dict _ _ _ Hst) as (fields & ->). reflexivity.
  - unfold CheckStatus.watch.
    change CheckStatus.max_attempts with (S 299). generalize 299%nat.
    intros n.
    destruct (watch_loop_failed (JStr job_id) n 0%nat (boot server files)
                resp job Hsrv Hcode Hbody Hst Herr) as (s' & E).
    now rewrite (try_except_exit _ _ _ _ _ (bind_exit _ _ _ _ _ E)).
Qed.

(** A failed job that says why. *)
Lemma single_check_witness :
  fst (CheckStatus.check_status (Some "key") "j1" false
         (boot (fun _ => Spec.ok Cases.failed_job) ∅)) = Ret tt
  /\ fst (CheckStatus.check_status (Some "key") "j1" true
            (boot (fun _ => Spec.ok Cases.failed_job) ∅)) = Exit 1.
Proof.
  apply (single_check_ends_normally_on_a_failed_job
           (Some "key") "j1" (fun _ => Spec.ok Cases.failed_job) ∅
           (mkResponse 200 (Json Cases.failed_job) HAbsent [])
           Cases.failed_job).
  - reflexivity.
  - reflexivity.
  - cbn. lia.
  - reflexivity.
  - reflexivity.
  - intros err [= <-] _. now eexists.
Defined.

End Unfinished.

Section Guards.
Import Py Proc Common Effects.


(** X16.  The OCR script sends the image exactly when the key is set, the
    file exists, its extension is one of the eight supported ones and it
    holds at most 50 MiB: then the submission is the first thing logged;
    otherwise the run exits 1 with no request made and the file system as
    it was. *)
Theorem ocr_sends_only_a_checked_image cfg input_file language server files :
  let run := OcrConvert.script cfg input_file language (boot server files) in
  let accepted :=
    truthy_str (OcrConvert.api_key cfg)
    && match files !! input_file with
       | Some data =>
           existsb (String.eqb (OcrConvert.extension cfg))
                   ["png"; "jpg"; "jpeg"; "tiff"; "tif"; "bmp"; "gif"; "webp"]
           && (Z.of_nat (length data) <=? 52428800)
       | None => false
       end in
  if accepted
  then exists l, log (snd run) = Request (PostConvert input_file "txt") :: l
  else fst run = Exit 1
       /\ requests_of (log (snd run)) = []
       /\ sent (snd run) = 0%nat
       /\ fs (snd run) = files.
Proof.
  cbv zeta.
  destruct (OcrConvert.script cfg input_file language (boot server files))
    as [r s'] eqn:E.
  cbn [fst snd]. unfold OcrConvert.script, try_except in E.
  destruct (truthy_str (OcrConvert.api_key cfg)) eqn:Hkey; cbn [andb].
  2:{ unfold OcrConvert.main in E. rewrite Hkey in E.
      unfold bind, print, emit, exit, boot in E. injection E as <- <-.
      now repeat split. }
  destruct (files !! input_file) as [data|] eqn:Hfile.
  2:{ unfold OcrConvert.main in E. rewrite Hkey in E. cbn [negb] in E.
      unfold bind at 1, lookup_file at 1, boot at 1 in E. cbn [fs] in E.
      rewrite Hfile in E.
      unfold bind, print, emit, exit, boot in E. injection E as <- <-.
      now repeat split. }
  change ["png"; "jpg"; "jpeg"; "tiff"; "tif"; "bmp"; "gif"; "webp"]
    with OcrConvert.SUPPORTED_FORMATS.
  destruct (existsb (String.eqb (OcrConvert.extension cfg))
                    OcrConvert.SUPPORTED_FORMATS) eqn:Hext; cbn [andb].
  2:{ unfold OcrConvert.main in E. rewrite Hkey in E. cbn [negb] in E.
      unfold bind at 1, lookup_file at 1, boot at 1 in E. cbn [fs] in E.
      rewrite Hfile, Hext in E.
      unfold bind, print, emit, exit, boot in E. injection E as <- <-.
      now repeat split. }
  destruct (Z.of_nat (length data) <=? 52428800) eqn:Hsize.
  2:{ assert ((Z.of_nat (length data) >? 52428800) = true) as Hgt by lia.
      unfold OcrConvert.main in E. rewrite Hkey in E. cbn [negb] in E.
      unfold bind at 1, lookup_file at 1, boot at 1 in E. cbn [fs] in E.
      rewrite Hfile, Hext, Hgt in E.
      unfold bind, print, emit, exit, boot in E. injection E as <- <-.
      now repeat split. }
  assert ((Z.of_nat (length data) >? 52428800) = false) as Hle by lia.
  destruct (ocr_main_sends_first any_event (Z.eqb 1)) with
    (cfg := cfg) (input_file := input_file) (language := language)
    (s := boot server files) (data := data) as (l1 & Hl1);
    try any_event_side; try assumption.
  destruct (OcrConvert.main cfg input_file language (boot server files))
    as [[[]|c|e] s1]; unfold boot in Hl1; cbn [snd log app] in Hl1.
  1,2: injection E as <- <-; rewrite Hl1; now eexists.
  destruct e; injection E as <- <-; cbn [log]; rewrite Hl1; now eexists.
Qed.

End Guards.

Section DigestShape.
Import Py Digest WebhookReceiver Effects.

Lemma round_length s kw : length (Sha256.round s kw) = length s.
Proof.
  unfold Sha256.round.
  destruct s as [|a [|b [|c [|d [|e [|f [|g [|h [|i s]]]]]]]]]; reflexivity.
Qed.

Lemma rounds_length l : forall s,
  length (fold_left Sha256.round l s) = length s.
Proof.
  induction l as [|kw l IH]; intros s; [reflexivity|].
  cbn [fold_left]. now rewrite IH, round_length.
Qed.

Lemma compress_length h block : length (Sha256.compress h block) = length h.
Proof.
  unfold Sha256.compress.
  rewrite length_map, length_combine, rounds_length. lia.
Qed.

Lemma blocks_length n : forall h bytes,
  length (Sha256.blocks n h bytes) = length h.
Proof.
  induction n as [|n IH]; intros h bytes; [reflexivity|].
  cbn [Sha256.blocks]. destruct bytes; [reflexivity|].
  now rewrite IH, compress_length.
Qed.

Lemma be_bytes_length n x : length (Sha256.be_bytes n x) = n.
Proof. induction n as [|n IH]; [reflexivity|]. cbn. now rewrite IH. Qed.

Lemma words_to_bytes_length l :
  length (flat_map (Sha256.be_bytes 4) l) = (4 * length l)%nat.
Proof.
  induction l as [|w l IH]; [reflexivity|].
  cbn [flat_map]. rewrite length_app, be_bytes_length, IH. cbn [length]. lia.
Qed.

(** A SHA-256 digest has 32 bytes, whatever is hashed. *)
Lemma sha256_length msg : length (Sha256.sha256 msg) = 32%nat.
Proof.
  unfold Sha256.sha256.
  rewrite words_to_bytes_length, blocks_length.
  now vm_compute.
Qed.

Lemma hmac_length key msg : length (Sha256.hmac key msg) = 32%nat.
Proof. unfold Sha256.hmac. apply sha256_length. Qed.

Lemma hex_length bytes :
  String.length (Sha256.hex bytes) = (2 * length bytes)%nat.
Proof.
  induction bytes as [|b bytes IH]; [reflexivity|].
  cbn [Sha256.hex String.length length]. rewrite IH. lia.
Qed.

Lemma hex_digit_is_lower_hex d :
  0 <= d < 16 -> is_lower_hex (Sha256.hex_digit d) = true.
Proof.
  intros H.
  assert (In d [0; 1; 2; 3; 4; 5; 6; 7; 8; 9; 10; 11; 12; 13; 14; 15]) as Hin
    by (cbn; lia).
  cbn in Hin. repeat (destruct Hin as [<-|Hin]; [reflexivity|]).
  contradiction.
Qed.

Lemma nibble_range x : 0 <= Z.land x 15 < 16.
Proof.
  change 15 with (Z.ones 4). rewrite Z.land_ones by lia.
  apply Z.mod_pos_bound. lia.
Qed.

Lemma hex_is_lower_hex bytes :
  forallb is_lower_hex (list_ascii_of_string (Sha256.hex bytes)) = true.
Proof.
  induction bytes as [|b bytes IH]; [reflexivity|].
  cbn [Sha256.hex list_ascii_of_string forallb].
  now rewrite !hex_digit_is_lower_hex, IH by apply nibble_range.
Qed.

(** X17.  With a secret configured, a signature that [verify_signature]
    accepts is a numeral of exactly 64 lower-case hexadecimal digits: an
    upper-case or a prefixed ([sha256=...]) rendering of the right digest
    is refused. *)
Theorem accepted_signature_is_64_lowercase_hex secret payload signature :
  secret <> "" ->
  verify_signature secret payload signature = Ret true ->
  String.length signature = 64%nat
  /\ forallb is_lower_hex (list_ascii_of_string signature) = true.
Proof.
  intros Hsecret Hv. unfold verify_signature in Hv.
  destruct (String.eqb_spec secret ""); [contradiction|].
  apply compare_digest_hex in Hv. subst signature.
  unfold Sha256.hmac_hexdigest.
  split; [|apply hex_is_lower_hex].
  now rewrite hex_length, hmac_length.
Qed.

Lemma accepted_signature_witness :
  String.length
    "f7bc83f430538424b13298e6aa6fb143ef4d59a14946175997479dbc2d1a3cd8"
  = 64%nat
  /\ forallb is_lower_hex
       (list_ascii_of_string
          "f7bc83f430538424b13298e6aa6fb143ef4d59a14946175997479dbc2d1a3cd8")
     = true.
Proof.
  apply (accepted_signature_is_64_lowercase_hex
           "key"
           (list_byte_of_string "The quick brown fox jumps over the lazy dog")).
  - discriminate.
  - vm_compute. reflexivity.
Defined.

Lemma hmac_hexdigest_not_empty key payload :
  Sha256.hmac_hexdigest key payload <> "".
Proof.
  intros H. apply (f_equal String.length) in H.
  unfold Sha256.hmac_hexdigest in H.
  rewrite hex_length, hmac_length in H. discriminate.
Qed.

(** X18.  The route answers 200 only when no secret is configured or the
    signature header is the hex HMAC-SHA256 of the raw body under the
    secret, and only to a body that decodes; what it answers then is what
    [process_webhook_event] made of the decoded body. *)
Theorem webhook_answers_200_only_to_signed_bodies
        secret json_loads format raw header body :
  webhook secret json_loads format raw header = Ret (body, 200) ->
  (secret = ""
   \/ header
      = Some (Sha256.hmac_hexdigest (list_byte_of_string secret) raw))
  /\ exists event_data,
       json_loads raw = Ret event_data
       /\ process_webhook_event format event_data = Ret body.
Proof.
  intros H.
  assert (secret = ""
          \/ verify_signature secret raw
               match header with Some v => v | None => "" end = Ret true)
    as Hv.
  { destruct (String.eqb_spec secret "") as [->|Hne]; [now left|right].
    unfold webhook, handle in H.
    destruct (String.eqb_spec secret ""); [contradiction|].
    cbn [negb] in H.
    destruct (verify_signature secret raw
                match header with Some v => v | None => "" end)
      as [[|]|c|e]; cbn [and_then negb] in H;
      [reflexivity|discriminate|discriminate|].
    destruct (is_Exception e); discriminate. }
  unfold webhook in H. rewrite (webhook_verified _ _ _ _ _ Hv) in H.
  split.
  - destruct (String.eqb_spec secret "") as [->|Hne]; [now left|right].
    destruct Hv as [->|Hv]; [contradiction|].
    unfold verify_signature in Hv.
    destruct (String.eqb_spec secret ""); [contradiction|].
    apply compare_digest_hex in Hv.
    destruct header as [v|]; [now subst v|].
    symmetry in Hv. now apply hmac_hexdigest_not_empty in Hv.
  - destruct (json_loads raw) as [v|c|e]; cbn [and_then] in H.
    + exists v. split; [reflexivity|].
      destruct (process_webhook_event format v) as [result|c|e];
        cbn [and_then] in H.
      * now injection H as ->.
      * discriminate.
      * destruct (is_Exception e); discriminate.
    + discriminate.
    + destruct e; cbn [and_then is_Exception] in H; discriminate.
Qed.

Lemma webhook_200_witness :
  (@eq string "" ""
   \/ @None string
      = Some (Sha256.hmac_hexdigest (list_byte_of_string "")
                (list_byte_of_string Runs.failure_body)))
  /\ exists event_data,
       Runs.decoder (list_byte_of_string Runs.failure_body) = Ret event_data
       /\ process_webhook_event Runs.plain event_data
          = Ret (JObj [("status", JStr "failed");
                       ("message", JStr "Conversion failed event processed");
                       ("job_id", JStr "j1");
                       ("error", JStr "bad input")]).
Proof.
  apply (webhook_answers_200_only_to_signed_bodies
           "" Runs.decoder Runs.plain
           (list_byte_of_string Runs.failure_body) None).
  vm_compute. reflexivity.
Defined.

(** X19.  An event of a type the receiver does not know is acknowledged:
    a verified body that decodes to an object whose [event] is none of the
    four known types is answered 200 with status [unknown], the type
    echoed in the message and the [job_id] of the event (null when
    absent).  A verified body that decodes to anything but an object is
    answered 500. *)
Theorem webhook_acknowledges_unknown_events
        secret json_loads format raw header event_data :
  secret = ""
  \/ verify_signature secret raw
       match header with Some v => v | None => "" end = Ret true ->
  json_loads raw = Ret event_data ->
  (forall fields event_type,
     event_data = JObj fields ->
     get event_data "event" JNull = Ret event_type ->
     in_strs event_type
             ["conversion.completed"; "conversion.failed";
              "conversion.progress"; "upload.completed"] = false ->
     webhook secret json_loads format raw header
     = Ret (JObj [("status", JStr "unknown");
                  ("message",
                   JStr ("Unknown event type: " ++ format event_type));
                  ("job_id",
                   match assoc "job_id" fields with
                   | Some job_id => job_id
                   | None => JNull
                   end)],
            200))
  /\ ((forall fields, event_data <> JObj fields) ->
      webhook secret json_loads format raw header
      = Ret (JObj [("error", JStr "Internal server error")], 500)).
Proof.
  intros Hv Hl. unfold webhook.
  rewrite (webhook_verified _ _ _ _ _ Hv), Hl.
  cbn [and_then]. split.
  - intros fields event_type -> Hev Hunknown.
    unfold process_webhook_event. rewrite Hev. cbn [and_then get].
    unfold in_strs in Hunknown. cbn [existsb] in Hunknown.
    rewrite !orb_false_iff in Hunknown.
    destruct Hunknown as (-> & -> & -> & -> & _). reflexivity.
  - intros Hno.
    destruct event_data as [| | | | |fields]; try reflexivity.
    now destruct (Hno fields).
Qed.

Lemma webhook_unknown_witness :
  webhook "" (fun _ => Ret (JObj [("event", JStr "job.deleted")]))
          Runs.plain [] None
  = Ret (JObj [("status", JStr "unknown");
               ("message", JStr "Unknown event type: job.deleted");
               ("job_id", JNull)],
         200).
Proof.
  refine (proj1 (webhook_acknowledges_unknown_events
                   "" (fun _ => Ret (JObj [("event", JStr "job.deleted")]))
                   Runs.plain [] None
                   (JObj [("event", JStr "job.deleted")])
                   (or_introl eq_refl) eq_refl)
                _ (JStr "job.deleted") eq_refl eq_refl eq_refl).
Defined.

End DigestShape.

Section NoChunk.
Import Py Proc Common Effects.

Lemma no_chunk_sent l :
  forallb no_chunk l = true -> Spec.sent_chunks l = [].
Proof.
  induction l as [|e l IH]; [reflexivity|].
  cbn [forallb]. intros [He Hl]%andb_true_iff.
  destruct e as [[]| | |]; cbn in *; try discriminate; auto.
Qed.

(** X20.  No chunk goes up without a positive chunk count: for an empty
    file (with a chunk size other than 0), and for a negative chunk size,
    the session is opened with a total of chunks that is zero or negative,
    [range(total_chunks)] is empty, and no chunk is ever posted. *)
Theorem no_chunk_goes_up_without_a_positive_count
        cfg input_file target_format flag webhook server files data :
  truthy_str (ChunkedUpload.API_KEY cfg) = true ->
  files !! input_file = Some data ->
  Z.of_nat (length data) <= ChunkedUpload.size_limit ->
  (data = [] /\ ChunkedUpload.chunk_size_mb_of flag <> 0)
  \/ ChunkedUpload.chunk_size_mb_of flag < 0 ->
  let run :=
    ChunkedUpload.upload_large_file cfg input_file target_format flag webhook
                                    (boot server files) in
  Spec.sent_chunks (log (snd run)) = []
  /\ exists total rest,
       total <= 0
       /\ log (snd run)
          = Request (PostUploadInit input_file (Z.of_nat (length data)) total
                                    target_format) :: rest.
Proof.
  intros Hkey Hfile Hsize Hcase run. subst run.
  set (chunk_size := ChunkedUpload.chunk_size_mb_of flag * 1048576).
  assert (chunk_size <> 0) as Hnz by (unfold chunk_size; lia).
  destruct (ceil_div_total (Z.of_nat (length data)) chunk_size ltac:(lia))
    as [[H0 _]|(_ & total & Hceil & Hneg)]; [contradiction|].
  assert (total <= 0) as Htotal.
  { destruct Hcase as [[-> _]|Hlt]; [|apply Hneg; unfold chunk_size; lia].
    unfold ChunkedUpload.ceil_div, Float.true_divide in Hceil.
    cbn [length Z.of_nat] in Hceil.
    destruct (chunk_size =? 0); [discriminate|].
    vm_compute in Hceil. injection Hceil as <-. lia. }
  destruct (ChunkedUpload.upload_large_file cfg input_file target_format flag
              webhook (boot server files)) as [r s'] eqn:E.
  rewrite (upload_reaches_session _ _ _ _ _ _ _ _ _ Hkey Hfile Hsize Hceil)
    in E.
  fold chunk_size in E.
  destruct (within_try_handlers no_chunk (Z.eqb 1) eq_refl
              ltac:(intros; reflexivity) false
              (ChunkedUpload.session cfg input_file target_format webhook
                 data chunk_size total)
              "✗ Upload cancelled by user"
              ltac:(apply within_session_of_no_chunk;
                    first [reflexivity | intros; reflexivity | lia])
              (boot server files))
    as ((l & Hl & Hev & _) & _).
  rewrite E in Hl. cbn [fst snd log boot app] in *.
  split; [rewrite Hl; now apply no_chunk_sent|].
  exists total.
  apply handlers_run in E as (l2 & Hl2 & _).
  destruct (session_sends_first any_event (Z.eqb 1)) with
    (cfg := cfg) (filename := input_file) (target_format := target_format)
    (webhook := webhook) (data := data) (chunk_size := chunk_size)
    (total_chunks := total) (s := boot server files) as (l1 & Hl1);
    try first [reflexivity | intros; reflexivity].
  rewrite Hl1 in Hl2. cbn [log boot app] in Hl2.
  eexists. split; [exact Htotal|exact Hl2].
Qed.

(** A file of no byte: the session is opened and completed at once. *)
Lemma no_chunk_witness :
  let run :=
    ChunkedUpload.upload_large_file Runs.upload_config "empty.mov" "mp4"
                                    ChunkedUpload.NoFlag None
                                    (boot Runs.refusing {["empty.mov" := []]})
  in
  Spec.sent_chunks (log (snd run)) = []
  /\ exists total rest,
       total <= 0
       /\ log (snd run)
          = Request (PostUploadInit "empty.mov" 0 total "mp4") :: rest.
Proof.
  apply (no_chunk_goes_up_without_a_positive_count
           Runs.upload_config "empty.mov" "mp4" ChunkedUpload.NoFlag None
           Runs.refusing {["empty.mov" := []]} []).
  - reflexivity.
  - apply lookup_singleton_eq.
  - cbn. unfold ChunkedUpload.size_limit. lia.
  - left. split; [reflexivity|discriminate].
Defined.

End NoChunk.

(** ** The chunks of an upload (claim C3) *)

Section Covering.
Import Py Proc Common Spec Effects ChunkedUpload.

Lemma configured_size flag mb :
  configures flag mb -> chunk_size_mb_of flag = mb.
Proof. intros [->|[-> [->| ->]]]; reflexivity. Qed.

Lemma try_except_from {A} (m m' : M A) h s s' :
  m s = m' s' -> try_except m h s = try_except m' h s'.
Proof. intros E. unfold try_except. now rewrite E. Qed.

(** The run of upload-large-file.py once the session is open and every
    chunk is accepted, the chunk size being one a read can deliver or
    there being no chunk at all: what follows the chunks is no chunk. *)
Lemma upload_sends_the_chunks cfg input_file target_format flag webhook
      server files data total resp opened session_id :
  truthy_str (API_KEY cfg) = true ->
  files !! input_file = Some data ->
  Z.of_nat (length data) <= size_limit ->
  ceil_div (Z.of_nat (length data)) (chunk_size_mb_of flag * 1048576)
  = Ret total ->
  deliverable (buffer_limit cfg) (chunk_size_mb_of flag * 1048576)
  \/ Z.to_nat total = 0%nat ->
  server 0%nat = Response resp ->
  status_code resp < 400 ->
  payload resp = Json opened ->
  index opened "session_id" = Ret session_id ->
  accepted_run server 1 (Z.to_nat total) ->
  sent_chunks
    (log (snd (upload_large_file cfg input_file target_format flag webhook
                                 (boot server files))))
  = sent_chunks
      (chunk_posts session_id (Z.to_nat total) 0
                   (Z.to_nat (chunk_size_mb_of flag * 1048576)) data).
Proof.
  intros Hkey Hfile Hsize Hceil Hd Hsrv Hcode Hbody Hid Hrun.
  rewrite (upload_reaches_session _ _ _ _ _ _ _ _ _ Hkey Hfile Hsize Hceil).
  set (C := chunk_size_mb_of flag * 1048576) in *.
  set (s1 := mkState server 1
               [Request (PostUploadInit input_file (Z.of_nat (length data))
                                        total target_format)]
               files).
  assert (upload_chunks (buffer_limit cfg) (Z.to_nat total) 0 C session_id
                        data s1
          = (Ret tt,
             mkState server (1 + Z.to_nat total)
               ([Request (PostUploadInit input_file (Z.of_nat (length data))
                                         total target_format)]
                ++ chunk_posts session_id (Z.to_nat total) 0 (Z.to_nat C)
                               data)
               files)) as Echunks.
  { destruct Hd as [Hd|Hnone].
    - exact (upload_chunks_accepted (buffer_limit cfg) session_id
               (Z.to_nat total) 0 C data s1 Hd Hrun).
    - rewrite Hnone. reflexivity. }
  erewrite try_except_from.
  2:{ rewrite (session_reaches_chunks _ _ _ _ _ _ _ _ resp opened session_id)
        by assumption.
      unfold boot. cbn [net sent log fs app]. fold s1.
      apply (bind_step _ _ _ _ _ Echunks). }
  match goal with |- context [try_except ?m ?h ?s2] =>
    destruct (within_try_handlers no_chunk (Z.eqb 1) eq_refl
                ltac:(intros; reflexivity) false m
                "✗ Upload cancelled by user"
                ltac:(apply within_finalize;
                      first [reflexivity | intros; reflexivity]) s2)
      as ((l & -> & Hev & _) & _)
  end.
  cbn [log]. rewrite !sent_chunks_app, (no_chunk_sent _ Hev), app_nil_r.
  reflexivity.
Qed.

(** C3.  For a file of F bytes, F at most the 2 GiB the script accepts,
    and a chunk size of C bytes, C the number of MiB that [--chunk-size]
    gives (5 when the flag is absent or unreadable), at least 1 MiB and
    such that one read can deliver C bytes, or for the empty file and any
    chunk size but 0: the count the script computes and announces in its
    init request is the ceiling of F / C; and, the session being opened
    and every chunk accepted, the chunks sent in the whole run are that
    many, under the indices 0, 1, ..., their concatenation is the file,
    every one but the last has C bytes, the last has F mod C bytes (C
    when C divides F), and the lengths sum up to F. *)
Theorem chunks_cover_the_file cfg input_file target_format flag webhook
        server files data mb resp opened session_id :
  truthy_str (API_KEY cfg) = true ->
  files !! input_file = Some data ->
  Z.of_nat (length data) <= size_limit ->
  configures flag mb ->
  (1 <= mb /\ deliverable (buffer_limit cfg) (mb * 1048576))
  \/ (data = [] /\ mb <> 0) ->
  let F := Z.of_nat (length data) in
  let C := mb * 1048576 in
  let total := - (- F / C) in
  let run :=
    upload_large_file cfg input_file target_format flag webhook
                      (boot server files) in
  ceil_div F C = Ret total
  /\ (0 < C -> C * (total - 1) < F <= C * total)
  /\ (exists rest,
        log (snd run)
        = Request (PostUploadInit input_file F total target_format) :: rest)
  /\ (server 0%nat = Response resp ->
      status_code resp < 400 ->
      payload resp = Json opened ->
      index opened "session_id" = Ret session_id ->
      accepted_run server 1 (Z.to_nat total) ->
      let chunks := sent_chunks (log (snd run)) in
      let bodies := map snd chunks in
      map fst chunks = seq 0 (Z.to_nat total)
      /\ Z.of_nat (length bodies) = total
      /\ concat bodies = data
      /\ (forall i b,
            bodies !! i = Some b ->
            (S i < length bodies)%nat ->
            Z.of_nat (length b) = C)
      /\ (forall b,
            last bodies = Some b ->
            Z.of_nat (length b) = if F mod C =? 0 then C else F mod C)
      /\ Z.of_nat (list_sum (map length bodies)) = F).
Proof.
  intros Hkey Hfile Hsize Hflag Hrange F C total run.
  pose proof (configured_size _ _ Hflag) as Hconf.
  assert (ceil_div F C = Ret total
          /\ (0 < C -> C * (total - 1) < F <= C * total)
          /\ (deliverable (buffer_limit cfg) C \/ Z.to_nat total = 0%nat)
          /\ (0 < C \/ (data = [] /\ total = 0))) as (Hceil & Hbounds & Hd & Hcases).
  { destruct Hrange as [[Hmb Hd]|[Hempty Hmb]].
    - assert (0 < C < 2 ^ 1000) as HC.
      { subst C. destruct Hd as [_ Hd]. split; [lia|].
        assert (2 ^ 63 < 2 ^ 1000) by (apply Z.pow_lt_mono_r; lia). lia. }
      destruct (ceil_div_spec F C) as (Hceil & Hbounds);
        [subst F; lia|exact HC|].
      split; [exact Hceil|]. split; [intros _; exact Hbounds|].
      split; [now left|left; lia].
    - assert (total = 0) as Htotal.
      { subst total F. rewrite Hempty. cbn [length Z.of_nat Z.opp].
        now rewrite Z.div_0_l by (subst C; lia). }
      rewrite Htotal. split.
      { subst F. rewrite Hempty. cbn [length Z.of_nat].
        unfold ceil_div, Float.true_divide.
        destruct (Z.eqb_spec C 0) as [H0|_]; [subst C; lia|].
        vm_compute. reflexivity. }
      split; [subst F; rewrite Hempty; cbn [length Z.of_nat]; lia|].
      split; [now right|right; now split]. }
  assert (ceil_div (Z.of_nat (length data)) (chunk_size_mb_of flag * 1048576)
          = Ret total) as Hceil' by (rewrite Hconf; exact Hceil).
  split; [exact Hceil|]. split; [exact Hbounds|].
  split.
  - subst run.
    destruct (upload_large_file cfg input_file target_format flag webhook
                                (boot server files)) as [r s'] eqn:E.
    rewrite (upload_reaches_session _ _ _ _ _ _ _ _ _ Hkey Hfile Hsize Hceil')
      in E.
    apply handlers_run in E as (l2 & Hl2 & _).
    destruct (session_sends_first any_event (Z.eqb 1)) with
      (cfg := cfg) (filename := input_file) (target_format := target_format)
      (webhook := webhook) (data := data)
      (chunk_size := chunk_size_mb_of flag * 1048576)
      (total_chunks := total) (s := boot server files) as (l1 & Hl1);
      try first [reflexivity | intros; reflexivity].
    rewrite Hl1 in Hl2. cbn [log boot app snd] in *.
    eexists. exact Hl2.
  - intros Hsrv Hcode Hbody Hid Hrun. cbv zeta. subst run.
    rewrite (upload_sends_the_chunks cfg input_file target_format flag
               webhook server files data total resp opened session_id);
      try assumption; [|rewrite Hconf; exact Hd].
    rewrite Hconf. fold C.
    split; [apply chunk_posts_indices|].
    destruct Hcases as [HC|[Hempty Htotal]].
    + apply (chunk_posts_cover session_id data C total 0);
        [exact HC|exact (Hbounds HC)].
    + rewrite Htotal, Hempty. cbn.
      repeat split; try reflexivity.
      * intros i b Hb. destruct i; discriminate.
      * intros b Hb. discriminate.
      * subst F. rewrite Hempty. reflexivity.
Qed.

(** The clip of 1 MiB and a byte under [--chunk-size 1], every chunk
    taken: two chunks, the first of 1 MiB, the second of one byte, and
    together the clip. *)
Lemma chunks_cover_the_file_witness :
  let run :=
    upload_large_file Runs.upload_config "long.mov" "mp4" (Flag (Some 1)) None
                      (boot Runs.taking Runs.long_files) in
  let chunks := sent_chunks (log (snd run)) in
  ceil_div 1048577 1048576 = Ret 2
  /\ map fst chunks = [0%nat; 1%nat]
  /\ length (map snd chunks) = 2%nat
  /\ concat (map snd chunks) = Runs.long_file
  /\ (forall b,
        map snd chunks !! 0%nat = Some b -> Z.of_nat (length b) = 1048576)
  /\ (forall b, last (map snd chunks) = Some b -> Z.of_nat (length b) = 1).
Proof.
  cbv zeta.
  assert (Z.of_nat (length Runs.long_file) = 1048577) as Hlen.
  { unfold Runs.long_file. rewrite length_replicate. lia. }
  destruct (chunks_cover_the_file
              Runs.upload_config "long.mov" "mp4" (Flag (Some 1)) None
              Runs.taking Runs.long_files Runs.long_file 1
              (mkResponse 200 (Json (JObj [("session_id", JStr "s1")]))
                          HAbsent [])
              (JObj [("session_id", JStr "s1")]) (JStr "s1"))
    as (Hceil & _ & _ & H).
  - reflexivity.
  - apply lookup_singleton_eq.
  - rewrite Hlen. unfold size_limit. lia.
  - left. reflexivity.
  - left. split; [lia|]. cbn. unfold deliverable. lia.
  - rewrite Hlen in Hceil, H.
    assert (Z.opp (Z.div (Z.opp 1048577) (1 * 1048576)) = 2) as Htwo
      by reflexivity.
    rewrite Htwo in Hceil, H.
    destruct H as (Hidx & Hcount & Hcat & Hfull & Hlast & _).
    + reflexivity.
    + cbn. lia.
    + reflexivity.
    + reflexivity.
    + intros [|[|i]] Hi; [| |lia];
        (eexists; split; [reflexivity|vm_compute; reflexivity]).
    + split; [exact Hceil|]. split; [exact Hidx|].
      split; [lia|]. split; [exact Hcat|]. split.
      * intros b Hb. specialize (Hfull 0%nat b Hb). lia.
      * intros b Hb. specialize (Hlast b Hb).
        change (1048577 mod (1 * 1048576) =? 0) with false in Hlast.
        change (1048577 mod (1 * 1048576)) with 1 in Hlast. lia.
Defined.

(** C3 fails beyond that range.  With [--chunk-size] set to 10^400 the
    quotient of the division is a double below the least positive one,
    [math.ceil] gives 0 where the ceiling of F / C is 1, and the clip of
    three bytes is announced as no chunk, finalized and converted without
    a byte of it having been sent.  With chunks of 2^63 bytes
    ([--chunk-size 8796093022208]) the count is 1 as it should be, but
    the read of the first chunk raises: no chunk is sent, and the script
    exits 1. *)
Lemma chunk_count_fails_for_huge_chunks :
  let tiny :=
    upload_large_file Runs.upload_config "clip.mov" "mp4"
                      (Flag (Some (10 ^ 400))) None
                      (boot Runs.completing Runs.upload_files) in
  let unread :=
    upload_large_file Runs.upload_config "clip.mov" "mp4"
                      (Flag (Some (2 ^ 43))) None
                      (boot Runs.completing Runs.upload_files) in
  (ceil_div 3 (10 ^ 400 * 1048576) = Ret 0
   /\ - (- 3 / (10 ^ 400 * 1048576)) = 1
   /\ log (snd tiny)
      = [Request (PostUploadInit "clip.mov" 3 0 "mp4");
         Print "✓ All chunks uploaded successfully";
         Request (PostComplete (JStr "s1"));
         Print "✓ Upload complete! Conversion started.";
         Sleep 2;
         Request (GetJob (JStr "j1"));
         Print "✓ Conversion complete!"]
   /\ fst tiny = Ret tt
   /\ concat (map snd (sent_chunks (log (snd tiny)))) <> Runs.small_file)
  /\ (ceil_div 3 (2 ^ 43 * 1048576) = Ret 1
      /\ read (buffer_limit Runs.upload_config) (2 ^ 43 * 1048576)
              Runs.small_file
         = Raise OverflowError
      /\ log (snd unread)
         = [Request (PostUploadInit "clip.mov" 3 1 "mp4");
            Print "✗ Unexpected error"]
      /\ fst unread = Exit 1
      /\ concat (map snd (sent_chunks (log (snd unread)))) <> Runs.small_file).
Proof.
  vm_compute. repeat split; try reflexivity; discriminate.
Qed.

End Covering.

Section Refusals.
Import Py Proc Common Effects.

(** X21.  A refusal of the submission (status 400 or more) whose body is
    no JSON: the OCR script, which decodes the body outside any [try],
    dies of the decoding error right after its one request; convert.py
    reports a request error and exits 1. *)
Theorem unreadable_refusal_is_a_traceback_only_in_the_ocr_script
        ocr_cfg cfg input_file language target_format output server files
        data resp :
  truthy_str (OcrConvert.api_key ocr_cfg) = true ->
  truthy_str (SimpleConvert.API_KEY cfg) = true ->
  files !! input_file = Some data ->
  Z.of_nat (length data) <= 52428800 ->
  existsb (String.eqb (OcrConvert.extension ocr_cfg))
          OcrConvert.SUPPORTED_FORMATS = true ->
  server 0%nat = Response resp ->
  400 <= status_code resp ->
  payload resp = NotJson ->
  OcrConvert.script ocr_cfg input_file language (boot server files)
  = (Raise RequestException,
     mkState server 1 [Request (PostConvert input_file "txt")] files)
  /\ SimpleConvert.convert_file cfg input_file target_format output
                                (boot server files)
     = (Exit 1,
        mkState server 1
          [Request (PostConvert input_file target_format);
           Print "✗ Request error"]
          files).
Proof.
  intros Hokey Hkey Hfile Hsize Hext Hsrv Hcode Hbody.
  assert ((status_code resp >=? 400) = true) as Hbad by lia.
  split.
  - unfold OcrConvert.script, try_except at 1, OcrConvert.main.
    rewrite Hokey. cbn [negb].
    unfold bind at 1, lookup_file at 1, boot. cbn [fs].
    rewrite Hfile, Hext. cbn [negb].
    assert ((Z.of_nat (length data) >? 52428800) = false) as -> by lia.
    unfold bind at 1, try_except at 1, http at 1. cbn [net sent log fs].
    rewrite Hsrv, Hbad.
    unfold bind at 1, lift at 1, json_of. rewrite Hbody. reflexivity.
  - unfold SimpleConvert.convert_file. rewrite Hkey. cbn [negb].
    unfold bind at 1, lookup_file at 1, boot. cbn [fs]. rewrite Hfile.
    assert ((Z.of_nat (length data) >? 50 * 1048576) = false) as -> by lia.
    unfold try_except, SimpleConvert.submit_and_wait.
    unfold bind at 1, http at 1. cbn [net sent log fs]. rewrite Hsrv, Hbad.
    unfold SimpleConvert.report_error.
    unfold bind at 1, lift at 1, json_of. rewrite Hbody. reflexivity.
Qed.

(** The gateway answering 503 with a page. *)
Lemma unreadable_refusal_witness :
  OcrConvert.script Runs.ocr_config "scan.png" "eng"
                    (boot (fun _ => Runs.unavailable) Runs.files)
  = (Raise RequestException,
     mkState (fun _ => Runs.unavailable) 1
             [Request (PostConvert "scan.png" "txt")] Runs.files)
  /\ SimpleConvert.convert_file Runs.simple_config "scan.png" "pdf" None
                                (boot (fun _ => Runs.unavailable) Runs.files)
     = (Exit 1,
        mkState (fun _ => Runs.unavailable) 1
          [Request (PostConvert "scan.png" "pdf"); Print "✗ Request error"]
          Runs.files).
Proof.
  apply (unreadable_refusal_is_a_traceback_only_in_the_ocr_script
           Runs.ocr_config Runs.simple_config "scan.png" "eng" "pdf" None
           (fun _ => Runs.unavailable) Runs.files [Byte.x89; Byte.x50]
           (mkResponse 503 NotJson HAbsent [])).
  - reflexivity.
  - reflexivity.
  - reflexivity.
  - cbn. lia.
  - reflexivity.
  - reflexivity.
  - cbn. lia.
  - reflexivity.
Defined.

End Refusals.

Section FileSizes.
Import FileSize Float.

(** What the loop returns from its unit number [k] on. *)
Lemma scale_spec (rest : list string) : forall n k,
  0 <= k ->
  (k = 0 \/ 1024 ^ k <= n) ->
  exists j,
    k <= j <= k + Z.of_nat (List.length rest)
    /\ (j = 0 \/ 1024 ^ j <= n)
    /\ (j = k + Z.of_nat (List.length rest) \/ n < 1024 ^ (j + 1))
    /\ scale rest n (1024 ^ k)
       = (hundredths n (1024 ^ j),
          nth (Z.to_nat (j - k)) rest "TB").
Proof.
  induction rest as [|unit rest IH]; intros n k Hk Hlow.
  - exists k. cbn [List.length scale]. replace (k - k) with 0 by lia.
    repeat split; try lia; assumption.
  - cbn [scale].
    replace (1024 * 1024 ^ k) with (1024 ^ (k + 1))
      by (rewrite Z.pow_add_r by lia; lia).
    destruct (n <? 1024 ^ (k + 1)) eqn:Hlt.
    + exists k. replace (k - k) with 0 by lia. cbn [List.length nth Z.to_nat].
      repeat split; try lia; assumption.
    + replace (1024 ^ k * 1024) with (1024 ^ (k + 1))
        by (rewrite Z.pow_add_r by lia; lia).
      destruct (IH n (k + 1)) as (j & Hj & Hjl & Hju & E); [lia|right; lia|].
      exists j. rewrite E. cbn [List.length].
      replace (Z.to_nat (j - k)) with (S (Z.to_nat (j - (k + 1)))) by lia.
      cbn [nth]. repeat split; try lia; assumption.
Qed.

(** X22.  [format_file_size] shows a size of 0 <= n < 2^53 bytes in the
    unit of its magnitude and to the nearest hundredth: the text is a
    number of two decimals and one of B, KB, MB, GB, TB, the unit number
    [k] being the one with 1024^k <= n < 1024^(k+1) (TB from 1024^4 on),
    and the number shown is within half a hundredth of n / 1024^k.
    Rounding can bring it up to 1024.00 of a unit, never above, and from
    KB on never below 1.00. *)
Theorem file_size_is_shown_to_the_nearest_hundredth n :
  0 <= n < 2 ^ 53 ->
  exists k h,
    format_file_size n
    = two_places h ++ " " ++ nth (Z.to_nat k) ["B"; "KB"; "MB"; "GB"; "TB"] ""
    /\ 0 <= k <= 4
    /\ (k = 0 \/ 1024 ^ k <= n)
    /\ (k = 4 \/ n < 1024 ^ (k + 1))
    /\ 2 * Z.abs (100 * n - h * 1024 ^ k) <= 1024 ^ k
    /\ (k < 4 -> h <= 102400)
    /\ (0 < k -> 100 <= h).
Proof.
  intros Hn. unfold format_file_size. cbv zeta.
  destruct (scale_spec units n 0 ltac:(lia) ltac:(now left))
    as (k & Hk & Hlow & Hup & E).
  change (1024 ^ 0) with 1 in E. rewrite E. cbn [fst snd].
  cbn [units List.length] in Hk, Hup. rewrite Z.sub_0_r.
  exists k, (hundredths n (1024 ^ k)).
  assert (0 < 1024 ^ k) as Hpos by (apply Z.pow_pos_nonneg; lia).
  split.
  { assert (In k [0; 1; 2; 3; 4]) as Hin by (cbn; lia).
    cbn in Hin. repeat (destruct Hin as [<-|Hin]; [reflexivity|]).
    contradiction. }
  split; [lia|]. split; [exact Hlow|]. split; [lia|]. unfold hundredths.
  split; [apply round_half_even_near; lia|]. split.
  - intros Hlt. apply round_half_even_le; [lia|].
    destruct Hup as [->|Hup]; [lia|].
    rewrite Z.pow_add_r in Hup by lia. lia.
  - intros Hgt. apply round_half_even_ge; [lia|].
    destruct Hlow as [->|Hlow]; lia.
Qed.

(** One byte short of a mebibyte. *)
Lemma file_size_witness :
  exists k h,
    format_file_size 1048575
    = two_places h ++ " " ++ nth (Z.to_nat k) ["B"; "KB"; "MB"; "GB"; "TB"] ""
    /\ 0 <= k <= 4
    /\ (k = 0 \/ 1024 ^ k <= 1048575)
    /\ (k = 4 \/ 1048575 < 1024 ^ (k + 1))
    /\ 2 * Z.abs (100 * 1048575 - h * 1024 ^ k) <= 1024 ^ k
    /\ (k < 4 -> h <= 102400)
    /\ (0 < k -> 100 <= h).
Proof.
  apply (file_size_is_shown_to_the_nearest_hundredth 1048575). lia.
Defined.

(** The rendering at the edges of the units and on ties. *)
Example format_file_size_examples :
  map format_file_size [0; 1023; 1024; 1152; 1536; 1048575; 1099511627776]
  = ["0.00 B"; "1023.00 B"; "1.00 KB"; "1.12 KB"; "1.50 KB"; "1024.00 KB";
     "1.00 TB"].
Proof. vm_compute. reflexivity. Qed.

(** X23.  The OCR script shows every size in MB, to the nearest
    hundredth of a mebibyte: for 0 <= n < 2^53 the number shown is within
    half a hundredth of n / 2^20, and it is 0.00 exactly for the files of
    at most 5242 bytes. *)
Theorem ocr_file_size_is_in_hundredths_of_a_mebibyte n :
  0 <= n < 2 ^ 53 ->
  exists h,
    format_file_size_mb n = two_places h ++ " MB"
    /\ 2 * Z.abs (100 * n - h * 1048576) <= 1048576
    /\ (h = 0 <-> n <= 5242).
Proof.
  intros Hn. exists (hundredths n 1048576).
  split; [reflexivity|]. unfold hundredths.
  pose proof (round_half_even_near (100 * n) 1048576 ltac:(lia)) as Hnear.
  split; [exact Hnear|]. lia.
Qed.

Lemma ocr_file_size_witness :
  exists h,
    format_file_size_mb 5242 = two_places h ++ " MB"
    /\ 2 * Z.abs (100 * 5242 - h * 1048576) <= 1048576
    /\ (h = 0 <-> 5242 <= 5242).
Proof.
  apply (ocr_file_size_is_in_hundredths_of_a_mebibyte 5242). lia.
Defined.

End FileSizes.

Section Options.
Import Py CommandLine.

Lemma conversion_options_app kept l1 l2 :
  conversion_options kept (l1 ++ l2)
  = (conversion_options kept l1 ++ conversion_options kept l2)%list.
Proof. apply List.filter_app. Qed.

(** An entry is kept back or goes through whole. *)
Lemma conversion_options_text kept key value :
  conversion_options kept (text_entry key value)
  = if existsb (String.eqb key) kept then [] else text_entry key value.
Proof.
  unfold text_entry. destruct value as [v|]; [|now destruct (existsb _ _)].
  destruct (truthy (JStr v)); [|now destruct (existsb _ _)].
  unfold conversion_options. cbn [List.filter fst].
  now destruct (existsb _ _).
Qed.

Lemma conversion_options_int kept key value :
  conversion_options kept (int_entry key value)
  = if existsb (String.eqb key) kept then [] else int_entry key value.
Proof.
  unfold int_entry. destruct value as [n|]; [|now destruct (existsb _ _)].
  destruct (truthy (JNum n)); [|now destruct (existsb _ _)].
  unfold conversion_options. cbn [List.filter fst].
  now destruct (existsb _ _).
Qed.

Lemma assoc_app key (l1 l2 : list (string * json)) :
  assoc key (l1 ++ l2)
  = match assoc key l1 with
    | Some v => Some v
    | None => assoc key l2
    end.
Proof.
  induction l1 as [|[k v] l1 IH]; [reflexivity|].
  cbn [app assoc]. now destruct (String.eqb key k).
Qed.

Lemma assoc_text key key' value :
  assoc key (text_entry key' value)
  = if String.eqb key key'
    then match value with
         | Some v => if String.eqb v "" then None else Some (JStr v)
         | None => None
         end
    else None.
Proof.
  unfold text_entry. destruct value as [v|]; [|now destruct (String.eqb _ _)].
  cbn [truthy]. destruct (String.eqb v ""); cbn [negb assoc];
    now destruct (String.eqb key key').
Qed.

Lemma assoc_int key key' value :
  String.eqb key key' = false -> assoc key (int_entry key' value) = None.
Proof.
  intros H. unfold int_entry. destruct value as [n|]; [|reflexivity].
  destruct (truthy (JNum n)); [|reflexivity]. cbn [assoc]. now rewrite H.
Qed.

(** X24.  What travels as conversion options.  Of the options [main]
    collects, convert.py sends on exactly the quality, the resolution,
    the bitrate and the sample rate that were given, in this order;
    convert-from-url.py sends the same, the webhook URL kept back as
    well.  The key and the output name never travel; an option given as
    0 or as the empty text counts as not given; no [options] field is
    sent when nothing is left; and the output name [convert_file] reads
    back is the one given, if it is not empty. *)
Theorem api_key_and_output_are_not_sent_as_options a :
  let chosen :=
    (int_entry "quality" (quality a)
     ++ text_entry "resolution" (resolution a)
     ++ text_entry "bitrate" (bitrate a)
     ++ int_entry "sample_rate" (sample_rate a))%list in
  conversion_options ["api_key"; "output"] (options_of a) = chosen
  /\ conversion_options ["api_key"; "output"; "webhook"] (url_options_of a)
     = chosen
  /\ sent_options ["api_key"; "output"] (options_of a)
     = match chosen with [] => None | _ => Some chosen end
  /\ int_entry "quality" (Some 0) = []
  /\ text_entry "bitrate" (Some "") = []
  /\ output_of (options_of a)
     = match output a with
       | Some path => if String.eqb path "" then None else Some (JStr path)
       | None => None
       end.
Proof.
  cbv zeta.
  assert (conversion_options ["api_key"; "output"] (options_of a)
          = (int_entry "quality" (quality a)
             ++ text_entry "resolution" (resolution a)
             ++ text_entry "bitrate" (bitrate a)
             ++ int_entry "sample_rate" (sample_rate a))%list) as Hsent.
  { unfold options_of.
    rewrite !conversion_options_app, !conversion_options_text,
      !conversion_options_int.
    cbn [existsb String.eqb Ascii.eqb Bool.eqb orb].
    now rewrite !app_nil_r. }
  unfold sent_options. rewrite Hsent.
  unfold url_options_of, output_of.
  split; [reflexivity|].
  split; [|split; [|split; [reflexivity|split; [reflexivity|]]]].
  2:{ match goal with |- match ?l with _ => _ end = _ => now destruct l end. }
  - rewrite !conversion_options_app, !conversion_options_text,
      !conversion_options_int.
    cbn [existsb String.eqb Ascii.eqb Bool.eqb orb].
    now rewrite !app_nil_r.
  - unfold options_of.
    rewrite !assoc_app, !assoc_text, !assoc_int by reflexivity.
    cbn [String.eqb Ascii.eqb Bool.eqb]. reflexivity.
Qed.

End Options.

